(** * The request-interpretation pipeline of the AI worker-assignment server

    A shallow embedding of [AIWorkerAssignmentMCP] (the natural-language
    layer of the worker-assignment system): intent classification, context
    extraction, per-intent reasoning, prediction enhancement, the learning
    store and the HTTP query handler, followed by the properties the design
    document states about them.

    Conventions of the embedding.
    - A JavaScript string is a [string] whose characters are read as code
      units below 256 (Latin-1); [toLowerCase], the [i] flag, [\s], [\d] and
      [.] are the JavaScript ones restricted to that range.
    - A JavaScript number is a rational [Q], and integers produced by
      [parseInt] and the complexity levels are [Z]: exact arithmetic, without
      the rounding of doubles, NaN and Infinity.  The confidence of a
      reasoning and the percentage shown to the user, where these matter,
      are computed a second time on IEEE 754 doubles in [Double].
    - [Math.random()] and [new Date()] are read from explicit oracles.
    - A function that can throw returns a [Result].
    - In the pipeline the application service is taken as present and its
      calls as returning; [Service] has the same steps with the reads of
      [this.appService], which is [null] until [initialize], and the
      exceptions of its calls. *)

From Stdlib Require Import Floats.
From Stdlib Require Import Ascii String QArith Qminmax Qround ZArith Lia Sorted.
From stdpp Require Import gmap strings list fin_maps pretty.

Local Open Scope string_scope.

(** ** Strings *)

Module Str.

Definition code (c : ascii) : N := N_of_ascii c.

Definition is_upper (c : ascii) : bool :=
  let n := code c in
  ((65 <=? n) && (n <=? 90))%N
  || ((192 <=? n) && (n <=? 222) && negb (n =? 215))%N.

(** [String.prototype.toLowerCase] on one code unit below 256. *)
Definition lower_char (c : ascii) : ascii :=
  if is_upper c then ascii_of_N (code c + 32) else c.

Fixpoint toLowerCase (s : string) : string :=
  match s with
  | EmptyString => EmptyString
  | String c s' => String (lower_char c) (toLowerCase s')
  end.

(** Characters equal under the [i] flag, for an ASCII letter in the
    pattern: only the ASCII letters fold onto ASCII. *)
Definition ascii_fold (c : ascii) : ascii :=
  let n := code c in
  if ((65 <=? n) && (n <=? 90))%N then ascii_of_N (n + 32) else c.

Definition ci_eq (p c : ascii) : bool :=
  bool_decide (ascii_fold p = ascii_fold c).

(** [\s] *)
Definition is_space (c : ascii) : bool :=
  let n := code c in
  ((9 <=? n) && (n <=? 13) || (n =? 32) || (n =? 160))%N.

(** [\d] *)
Definition is_digit (c : ascii) : bool :=
  let n := code c in ((48 <=? n) && (n <=? 57))%N.

(** the characters [.] does not match *)
Definition is_line_terminator (c : ascii) : bool :=
  let n := code c in ((n =? 10) || (n =? 13))%N.

Fixpoint startsWith (p s : string) : bool :=
  match p, s with
  | EmptyString, _ => true
  | String a p', String b s' =>
    if bool_decide (a = b) then startsWith p' s' else false
  | String _ _, EmptyString => false
  end.

(** [s.includes(p)], case-sensitive. *)
Fixpoint includes (s p : string) : bool :=
  if startsWith p s then true
  else match s with
       | EmptyString => false
       | String _ s' => includes s' p
       end.

Fixpoint join (sep : string) (l : list string) : string :=
  match l with
  | [] => EmptyString
  | [x] => x
  | x :: l' => x ++ sep ++ join sep l'
  end.

(** [s.split(/\s+/)]: maximal runs of non-space characters; a leading or
    trailing run of spaces yields an empty first or last piece. *)
Fixpoint split_ws_aux (s : string) (in_sep : bool) (cur : string)
  : list string :=
  match s with
  | EmptyString => [cur]
  | String c s' =>
      if is_space c
      then (if in_sep then split_ws_aux s' true cur
            else cur :: split_ws_aux s' true EmptyString)
      else split_ws_aux s' false (cur ++ String c EmptyString)
  end.

Definition split_ws (s : string) : list string := split_ws_aux s false EmptyString.

(** the double-quote character *)
Definition dquote : string := String (ascii_of_N 34) EmptyString.

End Str.

(** ** Regular expressions

    The patterns of the source are literal chunks separated by [.*], all
    with the [i] flag. *)

Module RegExp.

Inductive item : Type :=
| Ch (c : ascii)          (* a literal character, case-insensitive *)
| DotStar.                (* .* *)

Record t : Type := mk { source : string; prog : list item }.

Fixpoint items_of (s : string) : list item :=
  match s with
  | EmptyString => []
  | String c s' => Ch c :: items_of s'
  end.

Fixpoint prog_of (chunks : list string) : list item :=
  match chunks with
  | [] => []
  | [c] => items_of c
  | c :: cs => (items_of c ++ DotStar :: prog_of cs)%list
  end.

(** [re ["who"; "should"; "work"]] is [/who.*should.*work/i]. *)
Definition re (chunks : list string) : t :=
  {| source := "/" ++ Str.join ".*" chunks ++ "/i";
     prog := prog_of chunks |}.

(** Does the program match a prefix of the subject? *)
Fixpoint match_here (r : list item) : string -> bool :=
  match r with
  | [] => fun _ => true
  | Ch c :: r' => fun s =>
      match s with
      | EmptyString => false
      | String d s' => if Str.ci_eq c d then match_here r' s' else false
      end
  | DotStar :: r' =>
      fix star (s : string) : bool :=
        match s with
        | EmptyString => match_here r' s
        | String d s' =>
            if (if Str.is_line_terminator d then false else star s')
            then true
            else match_here r' s
        end
  end.

Fixpoint search (r : list item) (s : string) : bool :=
  if match_here r s then true
  else match s with
       | EmptyString => false
       | String _ s' => search r s'
       end.

(** [pattern.test(s)] *)
Definition test (p : t) (s : string) : bool := search (prog p) s.

Definition toString (p : t) : string := source p.

End RegExp.

(** ** Intent classification *)

Inductive IntentType : Type :=
| assignment | performance | urgency | quality | learning | analytics
| general_inquiry.

Global Instance IntentType_eq_dec : EqDecision IntentType.
Proof. solve_decision. Defined.

Definition IntentType_name (t : IntentType) : string :=
  match t with
  | assignment => "assignment" | performance => "performance"
  | urgency => "urgency" | quality => "quality" | learning => "learning"
  | analytics => "analytics" | general_inquiry => "general_inquiry"
  end.

Module Intent.
Record t : Type := mk {
  type : IntentType;
  confidence : Q;
  matched_pattern : string
}.
End Intent.

Record IntentAnalysis : Type := mkIntentAnalysis {
  primary : Intent.t;
  secondary : list Intent.t;
  analysis : string
}.

Import RegExp(re).

(** [initializeIntentPatterns], in the order [Object.entries] visits it. *)
Definition intentPatterns : list (IntentType * list RegExp.t) :=
  [ (assignment,
      [ re ["who"; "should"; "work"]; re ["best"; "worker"];
        re ["recommend"; "worker"]; re ["assign"; "worker"];
        re ["optimal"; "assignment"]; re ["who"; "can"; "handle"];
        re ["need"; "someone"; "for"]; re ["looking"; "for"; "worker"] ]);
    (performance,
      [ re ["how"; "performing"]; re ["worker"; "performance"];
        re ["efficiency"]; re ["quality"; "score"];
        re ["speed"; "comparison"]; re ["track"; "record"];
        re ["evaluate"; "worker"]; re ["analyze"; "performance"] ]);
    (urgency,
      [ re ["urgent"]; re ["rush"]; re ["asap"]; re ["immediately"];
        re ["critical"]; re ["deadline"]; re ["priority"];
        re ["emergency"]; re ["quick"] ]);
    (quality,
      [ re ["precision"]; re ["accurate"]; re ["careful"]; re ["detailed"];
        re ["high"; "quality"]; re ["perfect"]; re ["exact"];
        re ["flawless"] ]);
    (learning,
      [ re ["learn"; "from"]; re ["improve"]; re ["feedback"];
        re ["train"; "model"]; re ["update"; "data"];
        re ["better"; "prediction"]; re ["enhance"] ]);
    (analytics,
      [ re ["status"]; re ["overview"]; re ["analytics"];
        re ["performance"; "metrics"]; re ["system"; "health"];
        re ["statistics"]; re ["summary"] ]) ].

(** The oracle behind [Math.random()]: [draws i] is the value of the
    [i]-th call made during one run of [analyzeIntent]. *)
Definition Draws : Type := nat -> Q.

Definition draws_valid (d : Draws) : Prop :=
  forall i, (0 <= d i)%Q /\ (d i < 1)%Q.

(** The inner loop over the patterns of one intent type; one draw is
    taken for every pattern that matches. *)
Fixpoint scan_patterns (d : Draws) (lowerQuery : string) (t : IntentType)
    (ps : list RegExp.t) (acc : list Intent.t) : list Intent.t :=
  match ps with
  | [] => acc
  | p :: ps' =>
      if RegExp.test p lowerQuery
      then scan_patterns d lowerQuery t ps'
             (acc ++ [ Intent.mk t (0.8 + d (length acc) * 0.2)
                         (RegExp.toString p) ])%list
      else scan_patterns d lowerQuery t ps' acc
  end.

(** The outer loop over the intent types. *)
Fixpoint scan_intents (d : Draws) (lowerQuery : string)
    (tbl : list (IntentType * list RegExp.t)) (acc : list Intent.t)
    : list Intent.t :=
  match tbl with
  | [] => acc
  | (t, ps) :: tbl' =>
      scan_intents d lowerQuery tbl' (scan_patterns d lowerQuery t ps acc)
  end.

(** [detectedIntents.sort((a, b) => b.confidence - a.confidence)]: the
    sort is stable, so its result is that of a stable insertion sort. *)
Fixpoint insert_by_confidence (x : Intent.t) (l : list Intent.t)
    : list Intent.t :=
  match l with
  | [] => [x]
  | y :: l' =>
      if Qle_bool (Intent.confidence y) (Intent.confidence x)
      then x :: y :: l'
      else y :: insert_by_confidence x l'
  end.

Definition sort_by_confidence (l : list Intent.t) : list Intent.t :=
  foldr insert_by_confidence [] l.

(** [a.slice(1, 3)] *)
Definition slice_1_3 {A} (l : list A) : list A := take 2 (drop 1 l).

Definition analyzeIntent (d : Draws) (query : string) : IntentAnalysis :=
  let lowerQuery := Str.toLowerCase query in
  let detectedIntents := scan_intents d lowerQuery intentPatterns [] in
  let detectedIntents :=
    if bool_decide (length detectedIntents = 0)
    then (detectedIntents ++
          [ Intent.mk general_inquiry 0.6 "fallback_analysis" ])%list
    else detectedIntents in
  let detectedIntents := sort_by_confidence detectedIntents in
  {| primary :=
       match detectedIntents with
       | i :: _ => i
       | [] => Intent.mk general_inquiry 0.5 "default"
       end;
     secondary := slice_1_3 detectedIntents;
     analysis := "Detected " ++ pretty (length detectedIntents)
                 ++ " potential intent(s)" |}.

(** [a.push(x)] *)
Definition push {A} (a : list A) (x : A) : list A := (a ++ [x])%list.

(** ** Context extraction *)

(** A JavaScript object with string keys: [Object.entries] lists them in
    insertion order, and assigning to a key that exists keeps its place. *)
Definition Obj (V : Type) : Type := list (string * V).

Fixpoint obj_get {V} (o : Obj V) (k : string) : option V :=
  match o with
  | [] => None
  | (k', v) :: o' => if bool_decide (k' = k) then Some v else obj_get o' k
  end.

Fixpoint obj_set {V} (o : Obj V) (k : string) (v : V) : Obj V :=
  match o with
  | [] => [(k, v)]
  | (k', v') :: o' =>
      if bool_decide (k' = k) then (k, v) :: o' else (k', v') :: obj_set o' k v
  end.

(** A value stored under [environmental_factors]: the urgency level is the
    bare string ['high']; the table-driven factors are records.  A supplied
    factor has one of these two shapes here; [Double.Value] below has the
    other values a parsed body can put in their place. *)
Inductive FactorData : Type :=
| Level (s : string)
| Weighted (factor : string) (weight : Q).

(** [factorData.weight] and [factorData.factor]; a string has neither. *)
Definition weight_of (f : FactorData) : option Q :=
  match f with Level _ => None | Weighted _ w => Some w end.

Definition factor_of (f : FactorData) : option string :=
  match f with Level _ => None | Weighted n _ => Some n end.

Module Requirements.
Record t : Type := mk {
  machineId : option Z;
  complexity : option string;
  qualityFocus : option string;
  timeConstraint : option string
}.
Definition empty : t := mk None None None None.
End Requirements.

(** The context object; a field is [None] when a supplied context has
    replaced it by [null]. *)
Module Context.
Record t : Type := mk {
  query_analysis : option (Obj string);
  environmental_factors : option (Obj FactorData);
  requirements : option Requirements.t;
  constraints : option (Obj string)
}.
End Context.

(** The context supplied by the caller, restricted to the four keys the
    extractor derives: [None] when the key is absent, [Some v] when it is
    present with value [v] ([Some None] for [null]). *)
Module Provided.
Record t : Type := mk {
  query_analysis : option (option (Obj string));
  environmental_factors : option (option (Obj FactorData));
  requirements : option (option Requirements.t);
  constraints : option (option (Obj string))
}.
Definition empty : t := mk None None None None.
End Provided.

Module ContextualFactor.
Record t : Type := mk { pattern : RegExp.t; weight : Q; factor : string }.
End ContextualFactor.

(** [initializeContextualFactors] *)
Definition contextualFactors : list (string * list ContextualFactor.t) :=
  [ ("timeContext",
      [ ContextualFactor.mk (re ["morning"]) 1.2 "fresh_start";
        ContextualFactor.mk (re ["afternoon"]) 1.0 "steady_pace";
        ContextualFactor.mk (re ["evening"]) 0.9 "fatigue_consideration";
        ContextualFactor.mk (re ["end"; "of"; "day"]) 0.8 "rushing_risk" ]);
    ("workloadContext",
      [ ContextualFactor.mk (re ["heavy"; "workload"]) 0.8 "capacity_concern";
        ContextualFactor.mk (re ["light"; "load"]) 1.2 "available_capacity";
        ContextualFactor.mk (re ["busy"]) 0.7 "limited_availability";
        ContextualFactor.mk (re ["free"]) 1.3 "full_availability" ]);
    ("qualityContext",
      [ ContextualFactor.mk (re ["prototype"]) 1.5 "experimental_work";
        ContextualFactor.mk (re ["production"]) 1.3 "standard_quality";
        ContextualFactor.mk (re ["customer"; "facing"]) 1.6 "high_stakes";
        ContextualFactor.mk (re ["internal"; "use"]) 1.0 "standard_quality" ]) ].

(** [query.match(/machine\s*(\d+)/i)]: the capture of the leftmost match. *)
Fixpoint strip_prefix_ci (p s : string) : option string :=
  match p, s with
  | EmptyString, _ => Some s
  | String a p', String b s' =>
      if Str.ci_eq a b then strip_prefix_ci p' s' else None
  | String _ _, EmptyString => None
  end.

Fixpoint skip_spaces (s : string) : string :=
  match s with
  | String c s' => if Str.is_space c then skip_spaces s' else s
  | EmptyString => s
  end.

Fixpoint take_digits (s : string) : string :=
  match s with
  | String c s' => if Str.is_digit c then String c (take_digits s') else EmptyString
  | EmptyString => EmptyString
  end.

Definition machine_at (s : string) : option string :=
  match strip_prefix_ci "machine" s with
  | Some rest =>
      match take_digits (skip_spaces rest) with
      | EmptyString => None
      | ds => Some ds
      end
  | None => None
  end.

Fixpoint machineMatch (s : string) : option string :=
  match machine_at s with
  | Some ds => Some ds
  | None =>
      match s with
      | EmptyString => None
      | String _ s' => machineMatch s'
      end
  end.

(** [parseInt] of a string of decimal digits, as an integer.  The double
    the code gets is this integer as long as it is below 2^53 (any run of at
    most 15 digits); longer runs are rounded. *)
Fixpoint parseInt_acc (s : string) (acc : Z) : Z :=
  match s with
  | EmptyString => acc
  | String c s' => parseInt_acc s' (10 * acc + (Z.of_N (Str.code c) - 48))
  end.

Definition parseInt (s : string) : Z := parseInt_acc s 0.

Definition complexityIndicators : list (string * list string) :=
  [ ("simple", ["simple"; "easy"; "basic"; "straightforward"]);
    ("medium", ["medium"; "standard"; "normal"; "regular"]);
    ("complex", ["complex"; "difficult"; "challenging"; "advanced";
                 "intricate"]);
    ("critical", ["critical"; "precision"; "perfect"; "exact"; "flawless"]) ].

(** The loop over the complexity levels, left at the first level one of
    whose indicators occurs in the lower-cased query. *)
Fixpoint find_complexity (lowerQuery : string)
    (tbl : list (string * list string)) : option string :=
  match tbl with
  | [] => None
  | (level, indicators) :: tbl' =>
      if existsb (fun indicator => Str.includes lowerQuery indicator) indicators
      then Some level
      else find_complexity lowerQuery tbl'
  end.

Fixpoint apply_factor_patterns (query factorType : string)
    (ps : list ContextualFactor.t) (env : Obj FactorData) : Obj FactorData :=
  match ps with
  | [] => env
  | f :: ps' =>
      apply_factor_patterns query factorType ps'
        (if RegExp.test (ContextualFactor.pattern f) query
         then obj_set env factorType
                (Weighted (ContextualFactor.factor f) (ContextualFactor.weight f))
         else env)
  end.

Fixpoint apply_contextual_factors (query : string)
    (tbl : list (string * list ContextualFactor.t)) (env : Obj FactorData)
    : Obj FactorData :=
  match tbl with
  | [] => env
  | (factorType, ps) :: tbl' =>
      apply_contextual_factors query tbl'
        (apply_factor_patterns query factorType ps env)
  end.

(** [{ ...context, ...providedContext }] on one key. *)
Definition spread {A} (derived : A) (provided : option (option A)) : option A :=
  match provided with
  | None => Some derived
  | Some v => v
  end.

Definition extractContextFromQuery (query : string) (providedContext : Provided.t)
    : Context.t :=
  let machineId :=
    match machineMatch query with
    | Some ds => Some (parseInt ds)
    | None => None
    end in
  let complexity := find_complexity (Str.toLowerCase query) complexityIndicators in
  let urgent :=
    Str.includes query "urgent" || Str.includes query "rush"
    || Str.includes query "asap" in
  let env : Obj FactorData :=
    if urgent then obj_set [] "urgency" (Level "high") else [] in
  let timeConstraint := if urgent then Some "urgent" else None in
  let qualityFocus :=
    if Str.includes query "quality" || Str.includes query "precision"
       || Str.includes query "careful"
    then Some "high" else None in
  let env := apply_contextual_factors query contextualFactors env in
  {| Context.query_analysis := spread [] (Provided.query_analysis providedContext);
     Context.environmental_factors :=
       spread env (Provided.environmental_factors providedContext);
     Context.requirements :=
       spread (Requirements.mk machineId complexity qualityFocus timeConstraint)
              (Provided.requirements providedContext);
     Context.constraints := spread [] (Provided.constraints providedContext) |}.

Definition scenario_query : string :=
  "Who should work on Machine 1 for an urgent precision job?".


(** ** Reasoning *)

Module Reasoning.
Record t : Type := mk {
  approach : string;
  confidence : Q;
  explanation : string;
  suggestions : list string;
  action_plan : list string;
  parameters : option (Z * Z)        (* machineId, complexity *)
}.
End Reasoning.

Definition complexity_mapping : Obj Z :=
  [ ("simple", 1); ("easy", 1); ("basic", 1);
    ("medium", 3); ("standard", 3); ("normal", 3);
    ("complex", 4); ("difficult", 4); ("challenging", 4);
    ("critical", 5); ("precision", 5); ("perfect", 5) ]%Z.

(** [a || b] on numbers: [b] when [a] is absent or zero. *)
Definition or_default (a : option Z) (b : Z) : Z :=
  match a with
  | Some n => if (n =? 0)%Z then b else n
  | None => b
  end.

(** [mapping[complexityString] || 3]; an absent argument finds no key.  The
    lookup is among the twelve keys of the table: the extractor passes one
    of the four level names, and a supplied string that names an inherited
    property of objects, such as [constructor], is outside the model. *)
Definition mapComplexityToNumber (complexityString : option string) : Z :=
  or_default (complexityString ≫= obj_get complexity_mapping) 3.

(** [context.environmental_factors?.urgency === 'high'] *)
Definition urgency_is_high (context : Context.t) : bool :=
  match Context.environmental_factors context ≫= (fun env => obj_get env "urgency") with
  | Some (Level s) => bool_decide (s = "high")
  | _ => false
  end.

(** [context.requirements?.qualityFocus === 'high'] *)
Definition qualityFocus_is_high (context : Context.t) : bool :=
  bool_decide (Context.requirements context ≫= Requirements.qualityFocus
               = Some "high").

Definition intelligentMachineSelection (context : Context.t) : Z :=
  if qualityFocus_is_high context then 1
  else if urgency_is_high context then 3
  else 2.

Definition intelligentComplexityAssessment (context : Context.t) : Z :=
  let complexity := 3%Z in
  let complexity :=
    if urgency_is_high context then (complexity + 1)%Z else complexity in
  let complexity :=
    if qualityFocus_is_high context then (complexity + 1)%Z else complexity in
  Z.min 5 complexity.

(** [!n] for a number that may be absent. *)
Definition falsy (n : option Z) : bool :=
  match n with
  | Some n => (n =? 0)%Z
  | None => true
  end.

Definition reasonAboutAssignment (context : Context.t) : Reasoning.t :=
  let confidence := 0.85%Q in
  let suggestions : list string := [] in
  let machineId := Context.requirements context ≫= Requirements.machineId in
  let complexity :=
    mapComplexityToNumber
      (Context.requirements context ≫= Requirements.complexity) in
  let '(machineId, suggestions) :=
    if falsy machineId
    then let m := intelligentMachineSelection context in
         (m, push suggestions
               ("Intelligently selected Machine " ++ pretty m
                ++ " based on context"))
    else (default 0%Z machineId, suggestions) in
  let '(complexity, suggestions) :=
    if falsy (Some complexity)
    then let c := intelligentComplexityAssessment context in
         (c, push suggestions
               ("Assessed complexity as level " ++ pretty c
                ++ " based on requirements"))
    else (complexity, suggestions) in
  let explanation :=
    "For this assignment, I'm considering Machine " ++ pretty machineId
    ++ " with complexity level " ++ pretty complexity ++ ". " in
  let '(explanation, confidence) :=
    if urgency_is_high context
    then (explanation ++
          "Given the urgent nature, I'll prioritize workers with fast completion times. ",
          (confidence + 0.1)%Q)
    else (explanation, confidence) in
  let '(explanation, confidence) :=
    if qualityFocus_is_high context
    then (explanation ++
          "With high quality requirements, I'll emphasize workers with excellent quality scores. ",
          (confidence + 0.1)%Q)
    else (explanation, confidence) in
  {| Reasoning.approach := "intelligent_worker_assignment";
     Reasoning.confidence := confidence;
     Reasoning.explanation := explanation;
     Reasoning.suggestions := suggestions;
     Reasoning.action_plan :=
       [ "Analyze worker performance for Machine " ++ pretty machineId;
         "Apply context-specific weighting for urgency and quality";
         "Select optimal worker with confidence scoring";
         "Provide detailed recommendation with reasoning" ];
     Reasoning.parameters := Some (machineId, complexity) |}.

Definition reasonAboutPerformance (context : Context.t) : Reasoning.t :=
  {| Reasoning.approach := "performance_analysis";
     Reasoning.confidence := 0.9;
     Reasoning.explanation :=
       "I'll analyze worker performance with contextual insights and comparative analysis.";
     Reasoning.suggestions :=
       [ "Include historical trends"; "Compare with team averages";
         "Identify improvement opportunities" ];
     Reasoning.action_plan :=
       [ "Gather comprehensive performance data"; "Apply statistical analysis";
         "Generate actionable insights"; "Provide improvement recommendations" ];
     Reasoning.parameters := None |}.

Definition reasonAboutAnalytics (context : Context.t) : Reasoning.t :=
  {| Reasoning.approach := "comprehensive_analytics";
     Reasoning.confidence := 0.95;
     Reasoning.explanation :=
       "I'll provide comprehensive system analytics with predictive insights.";
     Reasoning.suggestions :=
       [ "Real-time metrics"; "Trend analysis"; "Predictive modeling";
         "Actionable recommendations" ];
     Reasoning.action_plan :=
       [ "Collect current system metrics"; "Analyze performance trends";
         "Generate predictive insights"; "Provide strategic recommendations" ];
     Reasoning.parameters := None |}.

Definition reasonAboutLearning (context : Context.t) : Reasoning.t :=
  {| Reasoning.approach := "adaptive_learning";
     Reasoning.confidence := 0.8;
     Reasoning.explanation :=
       "I'll help the system learn and improve from new data and feedback.";
     Reasoning.suggestions :=
       [ "Incremental learning"; "Pattern recognition"; "Model optimization" ];
     Reasoning.action_plan :=
       [ "Analyze new data quality"; "Update learning models";
         "Validate improvements"; "Provide learning insights" ];
     Reasoning.parameters := None |}.

Definition reasonAboutGeneral (context : Context.t) : Reasoning.t :=
  {| Reasoning.approach := "general_assistance";
     Reasoning.confidence := 0.7;
     Reasoning.explanation :=
       "I'll provide helpful information and guidance based on available context.";
     Reasoning.suggestions :=
       [ "Clarify specific needs"; "Explore available options";
         "Provide educational information" ];
     Reasoning.action_plan :=
       [ "Analyze available information"; "Provide relevant insights";
         "Suggest specific actions"; "Offer additional assistance" ];
     Reasoning.parameters := None |}.

(** One turn of the loop of [applyEnvironmentalFactors]: [if
    (factorData.weight)] holds for a weight that is present and not zero. *)
Definition apply_factor (acc : Q * string) (entry : string * FactorData)
    : Q * string :=
  match entry.2 with
  | Weighted factor weight =>
      if Qeq_bool weight 0 then acc
      else ((acc.1 * weight)%Q, acc.2 ++ "Considering " ++ factor ++ " factor. ")
  | Level _ => acc
  end.

(** [Math.min(1.0, Math.max(0.1, c))], on rationals; on doubles, where
    [c] can be NaN, it is [Double.clamp_confidence]. *)
Definition clamp_confidence (c : Q) : Q := Qmin 1.0 (Qmax 0.1 c).

Definition applyEnvironmentalFactors (reasoning : Reasoning.t)
    (context : Context.t) : Reasoning.t :=
  let entries := default [] (Context.environmental_factors context) in
  let '(confidence, explanation) :=
    fold_left apply_factor entries
      (Reasoning.confidence reasoning, Reasoning.explanation reasoning) in
  {| Reasoning.approach := Reasoning.approach reasoning;
     Reasoning.confidence := clamp_confidence confidence;
     Reasoning.explanation := explanation;
     Reasoning.suggestions := Reasoning.suggestions reasoning;
     Reasoning.action_plan := Reasoning.action_plan reasoning;
     Reasoning.parameters := Reasoning.parameters reasoning |}.

Definition reasonAboutQuery (intent : IntentAnalysis) (context : Context.t)
    : Reasoning.t :=
  let reasoning :=
    match Intent.type (primary intent) with
    | assignment => reasonAboutAssignment context
    | performance => reasonAboutPerformance context
    | analytics => reasonAboutAnalytics context
    | learning => reasonAboutLearning context
    | _ => reasonAboutGeneral context
    end in
  applyEnvironmentalFactors reasoning context.


(** ** Exceptions *)

Module Exn.
Record t : Type := mk { name : string; message : string }.
End Exn.

Inductive Result (A : Type) : Type :=
| Ok (a : A)
| Throw (e : Exn.t).
Arguments Ok {A} a.
Arguments Throw {A} e.

Global Instance Result_bind : MBind Result := fun A B k r =>
  match r with
  | Ok a => k a
  | Throw e => Throw e
  end.

(** [const { machineId, complexity } = reasoning.parameters]: only the
    assignment strategy sets [parameters]; destructuring [undefined] throws
    (the message is the engine's). *)
Definition destructure_parameters (reasoning : Reasoning.t) : Result (Z * Z) :=
  match Reasoning.parameters reasoning with
  | Some p => Ok p
  | None =>
      Throw (Exn.mk "TypeError"
        "Cannot destructure property 'machineId' of 'reasoning.parameters' as it is undefined.")
  end.

(** ** Prediction enhancement *)

Module Prediction.
Record t : Type := mk {
  recommendedWorker : string;
  estimatedTime : Q;
  confidence : Q;
  avgQuality : Q;
  jobCount : Z
}.
End Prediction.

Module Alternative.
Record t : Type := mk {
  worker : string;
  complexity_adjusted : Z;
  estimated_time : Q;
  reason : string
}.
End Alternative.

Inductive RiskLevel : Type := low | medium | high.

Module Risk.
Record t : Type := mk { level : RiskLevel; factors : list string }.
End Risk.

Module Enhanced.
Record t : Type := mk {
  base : Prediction.t;                      (* ...basePrediction *)
  ai_confidence : Q;
  contextual_score : Q;
  alternative_workers : list Alternative.t;
  risk_assessment : Risk.t;
  explanation : string
}.
End Enhanced.

(** [a < b] and [a > b] on numbers *)
Definition Qlt_bool (a b : Q) : bool := negb (Qle_bool b a).

Definition calculateContextualScore (prediction : Prediction.t)
    (reasoning : Reasoning.t) : Q :=
  let score := (Prediction.confidence prediction * 100)%Q in
  let score := (score * Reasoning.confidence reasoning)%Q in
  let score :=
    if Str.includes (Reasoning.explanation reasoning) "urgent"
       && Qlt_bool (Prediction.estimatedTime prediction) 20
    then (score + 10)%Q else score in
  let score :=
    if Str.includes (Reasoning.explanation reasoning) "quality"
       && Qlt_bool 85 (Prediction.avgQuality prediction)
    then (score + 15)%Q else score in
  Qmin 100 score.

Definition assessRisk (prediction : Prediction.t) (reasoning : Reasoning.t)
    : Risk.t :=
  let risks : list string := [] in
  let risks :=
    if Qlt_bool (Prediction.confidence prediction) 0.7
    then push risks "Low prediction confidence - consider gathering more data"
    else risks in
  let risks :=
    if Qlt_bool 30 (Prediction.estimatedTime prediction)
    then push risks "Extended completion time - monitor progress closely"
    else risks in
  let risks :=
    if Str.includes (Reasoning.explanation reasoning) "urgent"
       && Qlt_bool 20 (Prediction.estimatedTime prediction)
    then push risks "Time constraint risk - consider alternative workers"
    else risks in
  {| Risk.level :=
       if bool_decide (length risks = 0) then low
       else if bool_decide (length risks = 1) then medium
       else high;
     Risk.factors := risks |}.

(** ** Server state and results *)

(** [appService.getStatus()] *)
Module Status.
Record t : Type := mk {
  status : string;
  ready : bool;
  data_exists : bool;
  records : Z
}.
End Status.

Module LearningStatus.
Record t : Type := mk {
  total_interactions : nat;
  learned_patterns : nat;
  user_preferences : nat;
  effectiveness : string;
  last_update : string
}.
End LearningStatus.

(** The result of [executeIntelligentAction], by its [type] field; fields
    that nothing downstream reads are left out. *)
Inductive ActionResult : Type :=
| worker_assignment (base_prediction : Prediction.t)
    (ai_enhanced : Enhanced.t) (context_factors : string)
| performance_analysis (current_status : Status.t) (summary : string)
    (recommendations : list string)
| comprehensive_analytics (system_analytics : Status.t)
    (primary_insight : string) (strategic_recommendations : list string)
| learning_enhancement (current_learning_state : LearningStatus.t)
    (improvement_opportunities : list string)
    (learning_recommendations : list string)
| general_assistance (suggestions : list string) (guidance : string).

Definition ActionResult_type (r : ActionResult) : string :=
  match r with
  | worker_assignment _ _ _ => "worker_assignment"
  | performance_analysis _ _ _ => "performance_analysis"
  | comprehensive_analytics _ _ _ => "comprehensive_analytics"
  | learning_enhancement _ _ _ => "learning_enhancement"
  | general_assistance _ _ => "general_assistance"
  end.

Module Interaction.
Record t : Type := mk {
  timestamp : string;
  query : string;
  intent : IntentType;
  result_type : string;
  confidence : Q
}.
End Interaction.

Module PatternHit.
Record t : Type := mk { intent : IntentType; timestamp : string }.
End PatternHit.

(** A value of the [patterns] map: the array of hits of a word, or the
    object [loadLearningData] stores under ['user_preferences']. *)
Inductive PatternValue : Type :=
| Hits (hits : list PatternHit.t)
| UserPreferences (preferred_response_style : string)
    (common_use_cases : list string) (interaction_frequency : string).

Module Feedback.
Record t : Type := mk { feedback : string; timestamp : string }.
End Feedback.

Module LearningData.
Record t : Type := mk {
  interactions : list Interaction.t;
  patterns : gmap string PatternValue;
  preferences : gmap string Feedback.t
}.
End LearningData.

(** The mutable state of the server, with the number of clock readings
    made so far. *)
Module World.
Record t : Type := mk { learningData : LearningData.t; clock_reads : nat }.
End World.

(** The state the constructor builds. *)
Definition constructed : World.t :=
  World.mk (LearningData.mk [] ∅ ∅) 0.

(** [loadLearningData], run by [initialize] before the server listens. *)
Definition loadLearningData (w : World.t) : World.t :=
  let ld := World.learningData w in
  World.mk
    (LearningData.mk (LearningData.interactions ld)
       (<["user_preferences" :=
            UserPreferences "detailed" ["urgent_assignments"; "quality_focus"]
              "high"]> (LearningData.patterns ld))
       (LearningData.preferences ld))
    (World.clock_reads w).

Definition initialized : World.t := loadLearningData constructed.

Module Envelope.
Record t : Type := mk {
  understood_intent : IntentAnalysis;
  context_analysis : Context.t;
  reasoning : string;
  result : ActionResult;
  natural_response : string;
  confidence : Q;
  suggestions : list string;
  timestamp : string
}.
End Envelope.

#[local] Unset Elimination Schemes.
Inductive Json : Type :=
| JNull
| JBool (b : bool)
| JNum (n : Q)
| JStr (s : string)
| JArr (a : list Json)
| JObj (o : list (string * Json)).
#[local] Set Elimination Schemes.

Inductive ResponseBody : Type :=
| Success (aiResponse : Envelope.t)
| Failure (error : string) (ai_suggestion : string).

Module Response.
Record t : Type := mk { statusCode : Z; body : ResponseBody }.
End Response.

Section Server.

(** The prediction core, [mlSystem.predictWorkerML(machineId, complexity,
    false)], belongs to the surrounding ML service.  In this section the
    application service is present and the core answers every call; the
    read of [this.appService], which is [null] until [initialize], and a
    core that throws are written out in [Service] below. *)
Variable predictWorkerML : Z -> Z -> Prediction.t.

(** The text a template literal gives for a number. *)
Variable show_number : Q -> string.

(** The body of the loop [for (let i = 1; i <= 5; i++)]. *)
Definition alternatives_step (basePrediction : Prediction.t)
    (machineId complexity : Z) (alternatives : list Alternative.t) (i : Z)
    : list Alternative.t :=
  if bool_decide (i ≠ complexity)
  then
    let altPrediction := predictWorkerML machineId i in
    if bool_decide (Prediction.recommendedWorker altPrediction
                    ≠ Prediction.recommendedWorker basePrediction)
    then push alternatives
           {| Alternative.worker := Prediction.recommendedWorker altPrediction;
              Alternative.complexity_adjusted := i;
              Alternative.estimated_time := Prediction.estimatedTime altPrediction;
              Alternative.reason :=
                if (i <? complexity)%Z then "Faster but less thorough"
                else "More thorough but slower" |}
    else alternatives
  else alternatives.

Definition generateAlternatives (basePrediction : Prediction.t)
    (reasoning : Reasoning.t) : Result (list Alternative.t) :=
  '(machineId, complexity) ← destructure_parameters reasoning;
  let alternatives :=
    fold_left (alternatives_step basePrediction machineId complexity)
      [1; 2; 3; 4; 5]%Z [] in
  Ok (take 2 alternatives).

Definition generatePredictionExplanation (prediction : Prediction.t)
    (reasoning : Reasoning.t) : string :=
  let explanation :=
    "I recommend " ++ Prediction.recommendedWorker prediction
    ++ " for this assignment because " in
  let explanation :=
    if Qlt_bool 0.8 (Prediction.confidence prediction)
    then explanation ++ "they have a strong track record with "
         ++ show_number (Prediction.confidence prediction * 100)
         ++ "% confidence. "
    else explanation in
  let explanation :=
    if Qlt_bool (Prediction.estimatedTime prediction) 20
    then explanation ++ "They can complete it efficiently in approximately "
         ++ show_number (Prediction.estimatedTime prediction) ++ " minutes. "
    else explanation in
  let explanation :=
    if Qlt_bool 85 (Prediction.avgQuality prediction)
    then explanation ++ "Their average quality score of "
         ++ show_number (Prediction.avgQuality prediction)
         ++ "% ensures excellent results. "
    else explanation in
  explanation ++ Reasoning.explanation reasoning.

Definition enhancePredictionWithAI (basePrediction : Prediction.t)
    (reasoning : Reasoning.t) : Result Enhanced.t :=
  alternatives ← generateAlternatives basePrediction reasoning;
  Ok {| Enhanced.base := basePrediction;
        Enhanced.ai_confidence := Reasoning.confidence reasoning;
        Enhanced.contextual_score :=
          calculateContextualScore basePrediction reasoning;
        Enhanced.alternative_workers := alternatives;
        Enhanced.risk_assessment := assessRisk basePrediction reasoning;
        Enhanced.explanation :=
          generatePredictionExplanation basePrediction reasoning |}.

(** *** Executing the chosen action *)

(** [appService.getStatus()], supplied by the application service, here
    present and answering. *)
Variable getStatus : Status.t.

(** The clock: [clock n] is the text of the [n]-th [new
    Date().toISOString()] since the server started. *)
Variable clock : nat -> string.

Definition new_Date (w : World.t) : string * World.t :=
  (clock (World.clock_reads w),
   World.mk (World.learningData w) (S (World.clock_reads w))).

Definition getLearningStatus (w : World.t) : LearningStatus.t * World.t :=
  let ld := World.learningData w in
  let '(now, w) := new_Date w in
  ({| LearningStatus.total_interactions := length (LearningData.interactions ld);
      LearningStatus.learned_patterns := size (LearningData.patterns ld);
      LearningStatus.user_preferences := size (LearningData.preferences ld);
      LearningStatus.effectiveness := "High";
      LearningStatus.last_update := now |}, w).

Definition executeIntelligentAssignment (reasoning : Reasoning.t)
    : Result ActionResult :=
  '(machineId, complexity) ← destructure_parameters reasoning;
  let basePrediction := predictWorkerML machineId complexity in
  enhancedPrediction ← enhancePredictionWithAI basePrediction reasoning;
  Ok (worker_assignment basePrediction enhancedPrediction
        (Reasoning.explanation reasoning)).

Definition generatePerformanceInsights (analytics : Status.t) : string :=
  "System is " ++ Str.toLowerCase (Status.status analytics) ++ " with "
  ++ pretty (Status.records analytics)
  ++ " training records providing robust predictions.".

Definition generatePerformanceRecommendations (analytics : Status.t)
    : list string :=
  let recommendations : list string := [] in
  let recommendations :=
    if negb (Status.ready analytics)
    then push recommendations "Train the ML model with available data"
    else recommendations in
  let recommendations :=
    if (Status.records analytics <? 1000)%Z
    then push recommendations
           "Collect more training data for improved accuracy"
    else recommendations in
  let recommendations :=
    push recommendations "Monitor system performance regularly" in
  push recommendations "Consider implementing automated retraining".

Definition generateStrategicRecommendations : list string :=
  [ "Implement continuous learning pipeline";
    "Establish performance monitoring dashboard";
    "Plan for scalability enhancements";
    "Consider automated model optimization" ].

Definition identifyImprovementOpportunities : list string :=
  [ "Implement real-time learning from assignment outcomes";
    "Add worker skill profile management";
    "Enhance prediction accuracy with more features";
    "Develop proactive workload balancing" ].

Definition generateLearningRecommendations : list string :=
  [ "Collect outcome feedback for all assignments";
    "Implement incremental learning algorithms";
    "Add cross-validation for model accuracy";
    "Develop automated feature engineering" ].

Definition executeIntelligentAction (reasoning : Reasoning.t) (w : World.t)
    : Result ActionResult * World.t :=
  let approach := Reasoning.approach reasoning in
  if bool_decide (approach = "intelligent_worker_assignment")
  then (executeIntelligentAssignment reasoning, w)
  else if bool_decide (approach = "performance_analysis")
  then (Ok (performance_analysis getStatus
              (generatePerformanceInsights getStatus)
              (generatePerformanceRecommendations getStatus)), w)
  else if bool_decide (approach = "comprehensive_analytics")
  then (Ok (comprehensive_analytics getStatus
              "System performance is stable with good prediction accuracy"
              generateStrategicRecommendations), w)
  else if bool_decide (approach = "adaptive_learning")
  then let '(st, w) := getLearningStatus w in
       (Ok (learning_enhancement st identifyImprovementOpportunities
              generateLearningRecommendations), w)
  else (Ok (general_assistance (Reasoning.suggestions reasoning)
              "I can help with worker assignments, performance analysis, system analytics, and learning improvements."),
        w).

(** [`${a[0]}`] *)
Definition first_or_undefined (a : list string) : string :=
  match a with
  | x :: _ => x
  | [] => "undefined"
  end.

(** [Math.round(x)] *)
Definition Math_round (x : Q) : Z := Qfloor (x + (1 # 2)).

Definition generateNaturalResponse (query : string) (result : ActionResult)
    (reasoning : Reasoning.t) : string :=
  let response :=
    match result with
    | worker_assignment _ ai_enhanced _ =>
        let response :=
          "Based on your request " ++ Str.dquote ++ query ++ Str.dquote
          ++ ", I've analyzed the situation and recommend "
          ++ Prediction.recommendedWorker (Enhanced.base ai_enhanced) ++ ". "
          ++ Enhanced.explanation ai_enhanced in
        match Enhanced.alternative_workers ai_enhanced with
        | a :: _ =>
            response ++ " Alternatively, you could consider "
            ++ Alternative.worker a ++ " (" ++ Alternative.reason a ++ ")."
        | [] => response
        end
    | performance_analysis _ summary recommendations =>
        "I've analyzed the performance data you requested. " ++ summary
        ++ " Here are my recommendations: "
        ++ Str.join ", " recommendations ++ "."
    | comprehensive_analytics system_analytics primary_insight
        strategic_recommendations =>
        "Here's a comprehensive analysis of your system: "
        ++ Status.status system_analytics ++ ". "
        ++ "Key insight: " ++ primary_insight ++ ". "
        ++ "I recommend: " ++ first_or_undefined strategic_recommendations
        ++ "."
    | learning_enhancement current_learning_state
        improvement_opportunities _ =>
        "I can help improve the system's learning capabilities. "
        ++ "Current learning state: "
        ++ LearningStatus.effectiveness current_learning_state ++ ". "
        ++ "Main opportunity: "
        ++ first_or_undefined improvement_opportunities ++ "."
    | general_assistance _ guidance =>
        "I understand you're asking about " ++ Str.dquote ++ query
        ++ Str.dquote ++ ". "
        ++ guidance
        ++ " I'm here to help with intelligent worker assignments and system optimization."
    end in
  response ++ " (Confidence: "
  ++ pretty (Math_round (Reasoning.confidence reasoning * 100)) ++ "%)".

(** *** The learning store *)

(** One turn of the loop over the words of the query.  The map entry is
    expected to be an array; the entry [loadLearningData] stores under
    ['user_preferences'] is an object, which has no [push]. *)
Definition record_word (intentType : IntentType) (word : string)
    (w : World.t) : Result unit * World.t :=
  if (3 <? String.length word)%nat
  then
    let ld := World.learningData w in
    let patterns := LearningData.patterns ld in
    let patterns :=
      if bool_decide (is_Some (patterns !! word)) then patterns
      else <[word := Hits []]> patterns in
    let w := World.mk (LearningData.mk (LearningData.interactions ld)
                         patterns (LearningData.preferences ld))
               (World.clock_reads w) in
    match patterns !! word with
    | Some (Hits hits) =>
        let '(now, w) := new_Date w in
        (Ok (),
         World.mk
           (LearningData.mk (LearningData.interactions ld)
              (<[word := Hits (push hits (PatternHit.mk intentType now))]>
                 patterns)
              (LearningData.preferences ld))
           (World.clock_reads w))
    | Some (UserPreferences _ _ _) =>
        let '(now, w) := new_Date w in
        (Throw (Exn.mk "TypeError"
           "this.learningData.patterns.get(...).push is not a function"), w)
    | None =>
        (Throw (Exn.mk "TypeError"
           "Cannot read properties of undefined (reading 'push')"), w)
    end
  else (Ok (), w).

Fixpoint record_words (intentType : IntentType) (words : list string)
    (w : World.t) : Result unit * World.t :=
  match words with
  | [] => (Ok (), w)
  | word :: words' =>
      match record_word intentType word w with
      | (Ok _, w') => record_words intentType words' w'
      | (Throw e, w') => (Throw e, w')
      end
  end.

(** [a.slice(-n)] *)
Definition slice_last {A} (n : nat) (a : list A) : list A :=
  drop (length a - n) a.

Definition learnFromInteraction (query : string) (intent : IntentAnalysis)
    (result : ActionResult) (w : World.t) : Result unit * World.t :=
  let '(now, w) := new_Date w in
  let ld := World.learningData w in
  let w :=
    World.mk
      (LearningData.mk
         (push (LearningData.interactions ld)
            {| Interaction.timestamp := now;
               Interaction.query := query;
               Interaction.intent := Intent.type (primary intent);
               Interaction.result_type := ActionResult_type result;
               Interaction.confidence := Intent.confidence (primary intent) |})
         (LearningData.patterns ld) (LearningData.preferences ld))
      (World.clock_reads w) in
  let queryWords := Str.split_ws (Str.toLowerCase query) in
  match record_words (Intent.type (primary intent)) queryWords w with
  | (Throw e, w) => (Throw e, w)
  | (Ok _, w) =>
      let ld := World.learningData w in
      if (1000 <? length (LearningData.interactions ld))%nat
      then (Ok (),
            World.mk
              (LearningData.mk
                 (slice_last 800 (LearningData.interactions ld))
                 (LearningData.patterns ld) (LearningData.preferences ld))
              (World.clock_reads w))
      else (Ok (), w)
  end.

(** *** The pipeline *)

Definition processNaturalLanguageQuery (d : Draws) (query : string)
    (context : Provided.t) (w : World.t) : Result Envelope.t * World.t :=
  let intent := analyzeIntent d query in
  let extractedContext := extractContextFromQuery query context in
  let reasoning := reasonAboutQuery intent extractedContext in
  match executeIntelligentAction reasoning w with
  | (Throw e, w) => (Throw e, w)
  | (Ok result, w) =>
      match learnFromInteraction query intent result w with
      | (Throw e, w) => (Throw e, w)
      | (Ok _, w) =>
          let response := generateNaturalResponse query result reasoning in
          let '(now, w) := new_Date w in
          (Ok {| Envelope.understood_intent := intent;
                 Envelope.context_analysis := extractedContext;
                 Envelope.reasoning := Reasoning.explanation reasoning;
                 Envelope.result := result;
                 Envelope.natural_response := response;
                 Envelope.confidence := Reasoning.confidence reasoning;
                 Envelope.suggestions := Reasoning.suggestions reasoning;
                 Envelope.timestamp := now |}, w)
      end
  end.

(** *** The HTTP handler of [/ai/query] *)

(** [JSON.parse]: a value, or a [SyntaxError]. *)
Variable JSON_parse : string -> Result Json.

(** The typed reading of the supplied context object
    [{ ...context, ...userContext }]. *)
Variable decode_context : Json -> Provided.t.

(** [const { query, context = {} } = parsed] *)
Definition destructure_request (parsed : Json)
    : Result (option Json * Json) :=
  match parsed with
  | JNull =>
      Throw (Exn.mk "TypeError"
        "Cannot destructure property 'query' of 'parsed' as it is null.")
  | JObj o => Ok (obj_get o "query", default (JObj []) (obj_get o "context"))
  | _ => Ok (None, JObj [])
  end.

(** [!query] *)
Definition query_missing (query : option Json) : bool :=
  match query with
  | None | Some JNull | Some (JBool false) => true
  | Some (JNum n) => Qeq_bool n 0
  | Some (JStr s) => bool_decide (s = EmptyString)
  | Some _ => false
  end.

(** The body of the [try] block, up to the value handed to [res.end]. *)
Definition try_query (d : Draws) (body : string) (w : World.t)
    : Result Envelope.t * World.t :=
  match JSON_parse body with
  | Throw e => (Throw e, w)
  | Ok parsed =>
      match destructure_request parsed with
      | Throw e => (Throw e, w)
      | Ok (query, context) =>
          if query_missing query
          then (Throw (Exn.mk "Error" "Query field is required"), w)
          else
            match query with
            | Some (JStr q) =>
                processNaturalLanguageQuery d q (decode_context context) w
            | _ =>
                (Throw (Exn.mk "TypeError"
                          "query.toLowerCase is not a function"), w)
            end
      end
  end.

Definition handleNaturalLanguageQuery (d : Draws) (body : string)
    (w : World.t) : Result Response.t * World.t :=
  match try_query d body w with
  | (Ok aiResponse, w) => (Ok (Response.mk 200 (Success aiResponse)), w)
  | (Throw error, w) =>
      (Ok (Response.mk 400
             (Failure ("Invalid query format: " ++ Exn.message error)
                "Please provide a natural language query about worker assignments")),
       w)
  end.

End Server.

(** * The design's statements, as definitions *)

(** ** Comparisons on numbers *)

Global Instance Qlt_decision (a b : Q) : Decision (a < b)%Q.
Proof.
  destruct (Qlt_le_dec a b) as [H|H]; [left; exact H | right].
  apply Qle_not_lt, H.
Defined.

Global Instance Qle_decision (a b : Q) : Decision (a <= b)%Q.
Proof.
  destruct (Qlt_le_dec b a) as [H|H]; [right | left; exact H].
  apply Qlt_not_le, H.
Defined.

(** ** Risk assessment *)

(** The three risk factors, as the design lists them. *)
Definition low_confidence (p : Prediction.t) : Prop :=
  (Prediction.confidence p < 0.7)%Q.

Definition long_completion (p : Prediction.t) : Prop :=
  (30 < Prediction.estimatedTime p)%Q.

Definition urgent_but_slow (p : Prediction.t) (r : Reasoning.t) : Prop :=
  Str.includes (Reasoning.explanation r) "urgent" = true
  /\ (20 < Prediction.estimatedTime p)%Q.

Definition present (P : Prop) `{Decision P} : nat := if decide P then 1 else 0.

Definition risk_factors_present (p : Prediction.t) (r : Reasoning.t) : nat :=
  present (low_confidence p) + present (long_completion p)
  + present (urgent_but_slow p r).

(** The count-based rule: 0, 1, 2 or more. *)
Definition level_of_count (n : nat) : RiskLevel :=
  match n with
  | 0 => low
  | 1 => medium
  | _ => high
  end.

(** ** Alternatives *)


(** ** Contextual score *)

Definition urgency_bonus (p : Prediction.t) (r : Reasoning.t) : Q :=
  if decide (Str.includes (Reasoning.explanation r) "urgent" = true
             /\ (Prediction.estimatedTime p < 20)%Q)
  then 10 else 0.

Definition quality_bonus (p : Prediction.t) (r : Reasoning.t) : Q :=
  if decide (Str.includes (Reasoning.explanation r) "quality" = true
             /\ (85 < Prediction.avgQuality p)%Q)
  then 15 else 0.

(** The score as the design words it. *)
Definition contextual_score_formula (p : Prediction.t) (r : Reasoning.t) : Q :=
  Qmin 100
    (Prediction.confidence p * 100 * Reasoning.confidence r
     + urgency_bonus p r + quality_bonus p r).

Definition sample_prediction : Prediction.t :=
  {| Prediction.recommendedWorker := "W3";
     Prediction.estimatedTime := 18;
     Prediction.confidence := 0.9;
     Prediction.avgQuality := 92;
     Prediction.jobCount := 12 |}.

Definition scenario_reasoning : Reasoning.t :=
  reasonAboutQuery (analyzeIntent (fun _ => 0%Q) scenario_query)
    (extractContextFromQuery scenario_query Provided.empty).

(** ** Environmental factors *)

(** The weights the loop of [applyEnvironmentalFactors] multiplies by, in
    the insertion order of the factors. *)
Fixpoint effective_weights (env : Obj FactorData) : list Q :=
  match env with
  | [] => []
  | (_, Weighted _ w) :: env' =>
      if Qeq_bool w 0 then effective_weights env'
      else w :: effective_weights env'
  | (_, Level _) :: env' => effective_weights env'
  end.

Definition weighted_confidence (c : Q) (env : Obj FactorData) : Q :=
  fold_left Qmult (effective_weights env) c.

(** ** Intent classification *)

(** The intent types of the patterns that match, in table order: what the
    two loops of [analyzeIntent] detect, without the confidences. *)
Fixpoint matching_types (lowerQuery : string) (t : IntentType)
    (ps : list RegExp.t) : list IntentType :=
  match ps with
  | [] => []
  | p :: ps' =>
      if RegExp.test p lowerQuery
      then t :: matching_types lowerQuery t ps'
      else matching_types lowerQuery t ps'
  end.

Fixpoint matched_in (lowerQuery : string)
    (tbl : list (IntentType * list RegExp.t)) : list IntentType :=
  match tbl with
  | [] => []
  | (t, ps) :: tbl' =>
      (matching_types lowerQuery t ps ++ matched_in lowerQuery tbl')%list
  end.

Definition matched_types (query : string) : list IntentType :=
  matched_in (Str.toLowerCase query) intentPatterns.

(** All the matches are of one intent type. *)
Definition single_typed (ts : list IntentType) : bool :=
  match ts with
  | [] => true
  | t :: ts' => forallb (fun u => bool_decide (u = t)) ts'
  end.

Definition draws_zero : Draws := fun _ => 0%Q.

Definition draws_second_high : Draws :=
  fun i => if bool_decide (i = 1) then (1 # 2)%Q else 0%Q.

(** ** The urgent precision job on Machine 1 *)

Definition scenario_context : Context.t :=
  extractContextFromQuery scenario_query Provided.empty.

(** [context.environmental_factors.urgency] *)
Definition urgency_entry (context : Context.t) : option FactorData :=
  match Context.environmental_factors context with
  | Some env => obj_get env "urgency"
  | None => None
  end.

(** The scenario as the design states it, for the draws [d]. *)
Definition scenario_claim (d : Draws) : Prop :=
  let intent := analyzeIntent d scenario_query in
  let reasoning := reasonAboutQuery intent scenario_context in
  Intent.type (primary intent) = assignment
  /\ Context.requirements scenario_context ≫= Requirements.machineId
     = Some 1%Z
  /\ Context.requirements scenario_context ≫= Requirements.qualityFocus
     = Some "high"
  /\ is_Some (urgency_entry scenario_context ≫= factor_of)
  /\ (0.85 < Reasoning.confidence reasoning)%Q.

(** ** Defaults of the assignment strategy *)

Definition urgent_query : string := "Who should work on the urgent job?".

Definition urgent_context : Context.t :=
  extractContextFromQuery urgent_query Provided.empty.

(** ** The learning store *)

(** One call of [learnFromInteraction]: its arguments. *)
Definition Recorded : Type := string * IntentAnalysis * ActionResult.

(** The state a call leaves, whether it returns or throws: the mutations
    made before a throw stay. *)
Definition record (clock : nat -> string) (w : World.t) (r : Recorded)
    : World.t :=
  (learnFromInteraction clock r.1.1 r.1.2 r.2 w).2.

Definition record_all (clock : nat -> string) (w : World.t)
    (rs : list Recorded) : World.t :=
  fold_left (record clock) rs w.

Definition stored (w : World.t) : list Interaction.t :=
  LearningData.interactions (World.learningData w).

Definition patterns_of (w : World.t) : gmap string PatternValue :=
  LearningData.patterns (World.learningData w).

Definition preferences_of (w : World.t) : gmap string Feedback.t :=
  LearningData.preferences (World.learningData w).

(** The interaction a call appends. *)
Definition interaction_of (clock : nat -> string) (w : World.t) (r : Recorded)
    : Interaction.t :=
  {| Interaction.timestamp := clock (World.clock_reads w);
     Interaction.query := r.1.1;
     Interaction.intent := Intent.type (primary r.1.2);
     Interaction.result_type := ActionResult_type r.2;
     Interaction.confidence := Intent.confidence (primary r.1.2) |}.

(** Every value of the [patterns] map is an array of hits. *)
Definition arrays_only (w : World.t) : Prop :=
  forall word v, patterns_of w !! word = Some v -> exists hits, v = Hits hits.

(** A value of the [patterns] map is kept or extended. *)
Definition value_extends (v v' : PatternValue) : Prop :=
  match v, v' with
  | Hits l, Hits l' => l `prefix_of` l'
  | _, _ => v = v'
  end.

Definition patterns_grow (m m' : gmap string PatternValue) : Prop :=
  forall word v,
    m !! word = Some v -> exists v', m' !! word = Some v' /\ value_extends v v'.

(** [getLearningStatus().learned_patterns] *)
Definition learned_patterns_of (clock : nat -> string) (w : World.t) : nat :=
  LearningStatus.learned_patterns (getLearningStatus clock w).1.

Definition fallback_intent : IntentAnalysis :=
  {| primary := Intent.mk general_inquiry 0.6 "fallback_analysis";
     secondary := [];
     analysis := "Detected 1 potential intent(s)" |}.

Definition guidance_result : ActionResult :=
  general_assistance
    [ "Clarify specific needs"; "Explore available options";
      "Provide educational information" ]
    "I can help with worker assignments, performance analysis, system analytics, and learning improvements.".

Definition plain_request : Recorded :=
  ("hello there", fallback_intent, guidance_result).

Definition preferences_request : Recorded :=
  ("show user_preferences", fallback_intent, guidance_result).

(** One request through the pipeline, with no supplied context: the state
    it leaves. *)
Definition serve (predict : Z -> Z -> Prediction.t) (show_number : Q -> string)
    (getStatus : Status.t) (clock : nat -> string) (d : Draws) (w : World.t)
    (query : string) : World.t :=
  (processNaturalLanguageQuery predict show_number getStatus clock d query
     Provided.empty w).2.

(** ** The query handler *)

(** The parsed body has no [query] field. *)
Definition lacks_query_field (parsed : Json) : bool :=
  match parsed with
  | JObj o => bool_decide (obj_get o "query" = None)
  | _ => true
  end.

(** The body is unparseable, or parses to a value without a [query]
    field. *)
Definition bad_request (JSON_parse : string -> Result Json) (body : string)
    : bool :=
  match JSON_parse body with
  | Throw _ => true
  | Ok parsed => lacks_query_field parsed
  end.

(** The shape of the error response. *)
Definition error_response (message : string) : Response.t :=
  Response.mk 400
    (Failure ("Invalid query format: " ++ message)
       "Please provide a natural language query about worker assignments").

(** A small environment for running the handler: a parser that knows the
    empty object only, a constant prediction core and a constant clock. *)
Definition sample_parse (body : string) : Result Json :=
  if bool_decide (body = "{}") then Ok (JObj [])
  else Throw (Exn.mk "SyntaxError" "Unexpected token in JSON").

Definition sample_predict : Z -> Z -> Prediction.t :=
  fun _ _ => sample_prediction.

Definition sample_show : Q -> string := fun _ => "0".

Definition sample_status : Status.t :=
  Status.mk "Ready" true true 1200.

Definition sample_clock : nat -> string :=
  fun _ => "2025-01-01T00:00:00.000Z".

Definition sample_decode : Json -> Provided.t := fun _ => Provided.empty.

(** * Further statements about the same code *)

(** ** Ranking of the detected intents *)

(** [a] is reported before [b]: its confidence is not below that of [b]. *)
Definition ranks_above (a b : Intent.t) : Prop :=
  (Intent.confidence b <= Intent.confidence a)%Q.

(** The intents a call reports, primary first. *)
Definition reported (r : IntentAnalysis) : list Intent.t :=
  primary r :: secondary r.

(** The confidence band of a pattern match.  The upper end is part of the
    band: in exact arithmetic [0.8 + r * 0.2] stays below 1 for [r < 1], but
    the sum of doubles rounds to 1 for the largest draws. *)
Definition in_match_band (i : Intent.t) : Prop :=
  (0.8 <= Intent.confidence i)%Q /\ (Intent.confidence i <= 1)%Q.

(** ** Contextual factors *)

(** The last pattern of a list that matches the query. *)
Fixpoint last_matching (query : string) (ps : list ContextualFactor.t)
    : option ContextualFactor.t :=
  match ps with
  | [] => None
  | f :: ps' =>
      match last_matching query ps' with
      | Some g => Some g
      | None =>
          if RegExp.test (ContextualFactor.pattern f) query then Some f
          else None
      end
  end.

(** The entry stored for a contextual factor. *)
Definition factor_entry (f : ContextualFactor.t) : FactorData :=
  Weighted (ContextualFactor.factor f) (ContextualFactor.weight f).

Definition derived_factors (query : string) : Obj FactorData :=
  default [] (Context.environmental_factors
                (extractContextFromQuery query Provided.empty)).

(** ** The machine named in the query *)

Fixpoint all_chars (P : ascii -> bool) (s : string) : bool :=
  match s with
  | EmptyString => true
  | String c s' => if P c then all_chars P s' else false
  end.

Definition starts_with_digit (s : string) : bool :=
  match s with
  | String c _ => Str.is_digit c
  | EmptyString => false
  end.

(** The character is not an [m], in either case. *)
Definition not_m (c : ascii) : bool := negb (Str.ci_eq "m"%char c).

(** [extract(query, {}).requirements.machineId] *)
Definition extracted_machine (query : string) : option Z :=
  Context.requirements (extractContextFromQuery query Provided.empty)
  ≫= Requirements.machineId.

(** [reasoning.parameters] of the assignment strategy for a query with no
    supplied context. *)
Definition assignment_parameters (query : string) : option (Z * Z) :=
  Reasoning.parameters
    (reasonAboutAssignment (extractContextFromQuery query Provided.empty)).

(** ** Strategies *)

(** The [type] field of the result each primary intent leads to: the
    intents [urgency] and [quality] have no strategy of their own. *)
Definition strategy_result_type (t : IntentType) : string :=
  match t with
  | assignment => "worker_assignment"
  | performance => "performance_analysis"
  | analytics => "comprehensive_analytics"
  | learning => "learning_enhancement"
  | urgency | quality | general_inquiry => "general_assistance"
  end.

(** A prediction the cap of the score does not reach: 50% confidence,
    18 minutes, average quality 80. *)
Definition modest_prediction : Prediction.t :=
  {| Prediction.recommendedWorker := "W7";
     Prediction.estimatedTime := 18;
     Prediction.confidence := 0.5;
     Prediction.avgQuality := 80;
     Prediction.jobCount := 4 |}.

(** The query contains one of the urgency words of the extractor. *)
Definition mentions_urgency (query : string) : bool :=
  Str.includes query "urgent" || Str.includes query "rush"
  || Str.includes query "asap".

(** ** The interaction buffer over time *)

(** The number of interactions stored after [n] calls that return, starting
    from an empty buffer: it grows to 1000, drops to 800 at the 1001st call
    and from there on climbs to 1000 and drops again every 201 calls. *)
Definition stored_after (n : nat) : nat :=
  if (n <=? 1000)%nat then n else 800 + (n - 1001) mod 201.

(** ** What a call learns *)

(** The words of the query that are recorded: those longer than three
    characters, in order, lower-cased. *)
Definition long_words (query : string) : list string :=
  List.filter (fun word => (3 <? String.length word)%nat)
    (Str.split_ws (Str.toLowerCase query)).

Fixpoint occurrences (word : string) (words : list string) : nat :=
  match words with
  | [] => 0
  | x :: words' =>
      (if bool_decide (x = word) then 1 else 0) + occurrences word words'
  end.

(** The intents recorded for a word, oldest first. *)
Definition hit_intents (m : gmap string PatternValue) (word : string)
    : list IntentType :=
  match m !! word with
  | Some (Hits hits) => map PatternHit.intent hits
  | _ => []
  end.

(** ** Requests the query handler accepts *)

(** The body parses to an object whose [query] is a non-empty string: the
    query and the supplied context (an empty object when absent). *)
Definition accepted_request (parsed : Result Json) : option (string * Json) :=
  match parsed with
  | Ok (JObj o) =>
      match obj_get o "query" with
      | Some (JStr q) =>
          if bool_decide (q = EmptyString) then None
          else Some (q, default (JObj []) (obj_get o "context"))
      | _ => None
      end
  | _ => None
  end.

(** ** Feedback *)

(** [processFeedback], for a feedback given as text.  [Date.now()] is read
    from [now_ms] and [new Date()] from [clock], one tick each. *)
Definition feedback_key (now_ms : nat -> Z) (w : World.t) : string :=
  "feedback_" ++ pretty (now_ms (World.clock_reads w)).

Definition processFeedback (now_ms : nat -> Z) (clock : nat -> string)
    (feedback : string) (w : World.t) : World.t :=
  let ld := World.learningData w in
  let key := feedback_key now_ms w in
  let timestamp := clock (S (World.clock_reads w)) in
  World.mk
    (LearningData.mk (LearningData.interactions ld)
       (LearningData.patterns ld)
       (<[key := Feedback.mk feedback timestamp]>
          (LearningData.preferences ld)))
    (S (S (World.clock_reads w))).

(** [getLearningStatus().user_preferences] *)
Definition user_preferences_of (clock : nat -> string) (w : World.t) : nat :=
  LearningStatus.user_preferences (getLearningStatus clock w).1.

(** A clock that stays within one millisecond. *)
Definition frozen_ms : nat -> Z := fun _ => 1735689600000%Z.

(** * The MCP service

    [MCPService] keeps a log of its interactions, capped at
    [maxInteractionHistory], around the prediction service.  The server
    port, the console output and the references to the other services are
    not part of the model. *)

(** [a.slice(start)]: a negative start counts from the end. *)
Definition slice_start {A} (start : Z) (a : list A) : list A :=
  let len := Z.of_nat (length a) in
  let k := if (start <? 0)%Z then Z.max (len + start) 0 else Z.min start len in
  drop (Z.to_nat k) a.

Module MCPInteraction.
Record t : Type := mk {
  timestamp : string;
  type : string;
  data : Json;
  id : string
}.
End MCPInteraction.

Module MCPService.
Record t : Type := mk {
  isServerRunning : bool;
  interactions : list MCPInteraction.t;
  maxInteractionHistory : nat;
  ticks : nat          (* readings of the clock and of the random generator *)
}.
End MCPService.

(** The state the constructor builds. *)
Definition mcp_constructed : MCPService.t := MCPService.mk false [] 100 0.

(** The result of [mlService.predictBestWorker]. *)
Module BestWorker.
Record t : Type := mk {
  workerId : string;
  estimatedTime : Q;
  confidence : Q
}.
End BestWorker.

Module MCPStatus.
Record t : Type := mk {
  isServerRunning : bool;
  totalInteractions : nat;
  recentInteractions : list MCPInteraction.t;
  tools : list string;
  resources : list string
}.
End MCPStatus.

Section MCP.

(** [new Date().toISOString()], [Date.now()] and
    [Math.random().toString(36).substr(2, 9)], by the number of the
    reading. *)
Variable clock : nat -> string.
Variable now_ms : nat -> Z.
Variable random_suffix : nat -> string.

(** [mlService.predictBestWorker], supplied by the ML service. *)
Variable predictBestWorker : Json -> Json -> Result BestWorker.t.

Definition tick (s : MCPService.t) : MCPService.t :=
  MCPService.mk (MCPService.isServerRunning s) (MCPService.interactions s)
    (MCPService.maxInteractionHistory s) (S (MCPService.ticks s)).

Definition generateInteractionId (s : MCPService.t) : string * MCPService.t :=
  ("mcp_" ++ pretty (now_ms (MCPService.ticks s)) ++ "_"
   ++ random_suffix (MCPService.ticks s), tick s).

Definition logInteraction (type : string) (data : Json) (s : MCPService.t)
    : MCPService.t :=
  let timestamp := clock (MCPService.ticks s) in
  let s := tick s in
  let '(id, s) := generateInteractionId s in
  let interaction := MCPInteraction.mk timestamp type data id in
  let interactions := push (MCPService.interactions s) interaction in
  let interactions :=
    if (MCPService.maxInteractionHistory s <? length interactions)%nat
    then slice_start (- Z.of_nat (MCPService.maxInteractionHistory s))
           interactions
    else interactions in
  MCPService.mk (MCPService.isServerRunning s) interactions
    (MCPService.maxInteractionHistory s) (MCPService.ticks s).

(** [getInteractionHistory(limit = 10)] *)
Definition getInteractionHistory (limit : option Z) (s : MCPService.t)
    : list MCPInteraction.t :=
  rev (slice_start (- default 10%Z limit) (MCPService.interactions s)).

Definition mcp_getStatus (s : MCPService.t) : MCPStatus.t :=
  {| MCPStatus.isServerRunning := MCPService.isServerRunning s;
     MCPStatus.totalInteractions := length (MCPService.interactions s);
     MCPStatus.recentInteractions := getInteractionHistory (Some 5%Z) s;
     MCPStatus.tools :=
       [ "predict_worker_assignment"; "get_worker_performance";
         "get_system_analytics"; "add_training_data"; "retrain_model" ];
     MCPStatus.resources :=
       [ "worker-assignment://analytics/dashboard";
         "worker-assignment://data/training-summary";
         "worker-assignment://model/status" ] |}.

(** [Date.now()] *)
Definition Date_now (s : MCPService.t) : Z * MCPService.t :=
  (now_ms (MCPService.ticks s), tick s).

(** The text of [`${duration}ms`]. *)
Definition duration_text (duration : Z) : string := pretty duration ++ "ms".

Definition predictWorkerWithLogging (machineId complexity : Json)
    (includeAnalysis : bool) (s : MCPService.t)
    : Result BestWorker.t * MCPService.t :=
  let '(startTime, s) := Date_now s in
  let s :=
    logInteraction "prediction_request"
      (JObj [ ("machineId", machineId); ("complexity", complexity);
              ("includeAnalysis", JBool includeAnalysis) ]) s in
  match predictBestWorker machineId complexity with
  | Ok prediction =>
      let '(now, s) := Date_now s in
      let duration := (now - startTime)%Z in
      let s :=
        logInteraction "prediction_response"
          (JObj [ ("workerId", JStr (BestWorker.workerId prediction));
                  ("estimatedTime", JNum (BestWorker.estimatedTime prediction));
                  ("confidence", JNum (BestWorker.confidence prediction));
                  ("duration", JStr (duration_text duration)) ]) s in
      (Ok prediction, s)
  | Throw error =>
      let '(now, s) := Date_now s in
      let s :=
        logInteraction "prediction_error"
          (JObj [ ("error", JStr (Exn.message error));
                  ("duration", JStr (duration_text (now - startTime))) ]) s in
      (Throw error, s)
  end.

Definition mcp_startServer (s : MCPService.t) : MCPService.t :=
  if MCPService.isServerRunning s then s
  else MCPService.mk true (MCPService.interactions s)
         (MCPService.maxInteractionHistory s) (MCPService.ticks s).

Definition mcp_stopServer (s : MCPService.t) : MCPService.t :=
  if negb (MCPService.isServerRunning s) then s
  else MCPService.mk false (MCPService.interactions s)
         (MCPService.maxInteractionHistory s) (MCPService.ticks s).

Definition mcp_cleanup (s : MCPService.t) : MCPService.t :=
  let s := mcp_stopServer s in
  MCPService.mk (MCPService.isServerRunning s) []
    (MCPService.maxInteractionHistory s) (MCPService.ticks s).

(** A sequence of calls of [logInteraction]. *)
Definition log_all (s : MCPService.t) (entries : list (string * Json))
    : MCPService.t :=
  fold_left (fun s e => logInteraction e.1 e.2 s) entries s.

End MCP.

(** What a log entry says, without its time and id. *)
Definition entry_of (i : MCPInteraction.t) : string * Json :=
  (MCPInteraction.type i, MCPInteraction.data i).

(** The entry logged for the outcome of a prediction. *)
Definition outcome_entry (outcome : Result BestWorker.t) (duration : Z)
    : string * Json :=
  match outcome with
  | Ok prediction =>
      ("prediction_response",
       JObj [ ("workerId", JStr (BestWorker.workerId prediction));
              ("estimatedTime", JNum (BestWorker.estimatedTime prediction));
              ("confidence", JNum (BestWorker.confidence prediction));
              ("duration", JStr (duration_text duration)) ])
  | Throw error =>
      ("prediction_error",
       JObj [ ("error", JStr (Exn.message error));
              ("duration", JStr (duration_text duration)) ])
  end.

Definition sample_ms : nat -> Z := fun n => (1735689600000 + Z.of_nat n)%Z.

Definition sample_suffix : nat -> string := fun _ => "k3x9q0zab".

Definition sample_best_worker : Json -> Json -> Result BestWorker.t :=
  fun _ _ => Ok (BestWorker.mk "W3" 18 0.9).

(** * The tool server

    [WorkerAssignmentMCPServer] advertises a table of tools and a table of
    resources and serves them by name.  Of a tool the name, the description
    and the required arguments are kept; the JSON schema of its arguments is
    not part of the model. *)

Module Tool.
Record t : Type := mk {
  name : string;
  description : string;
  required : list string
}.
End Tool.

Definition defineTools : list Tool.t :=
  [ Tool.mk "predict_worker_assignment"
      "Predict the best worker for a specific job based on machine type and job complexity"
      ["machineId"; "complexity"];
    Tool.mk "get_worker_performance"
      "Get performance statistics for a specific worker"
      ["workerId"];
    Tool.mk "get_system_analytics"
      "Get comprehensive analytics about the ML system and its performance"
      [];
    Tool.mk "add_training_data"
      "Add new historical performance data to improve predictions"
      ["data"];
    Tool.mk "retrain_model"
      "Retrain the ML model with current data"
      [] ].

Module ResourceInfo.
Record t : Type := mk {
  uri : string;
  name : string;
  description : string;
  mimeType : string
}.
End ResourceInfo.

Definition defineResources : list ResourceInfo.t :=
  [ ResourceInfo.mk "worker-assignment://analytics/dashboard"
      "System Analytics Dashboard"
      "Real-time analytics and performance metrics" "application/json";
    ResourceInfo.mk "worker-assignment://data/training-summary"
      "Training Data Summary"
      "Summary of historical training data" "application/json";
    ResourceInfo.mk "worker-assignment://model/status"
      "Model Status"
      "Current model training status and metadata" "application/json" ].

Module Resource.
Record t : Type := mk {
  uri : string;
  mimeType : string;
  content : Json
}.
End Resource.

Section ToolServer.

(** The result of a tool, and the five tool handlers, which work on the ML
    system. *)
Variable ToolResult : Type.
Variable handlePredictWorkerAssignment : Json -> Result ToolResult.
Variable handleGetWorkerPerformance : Json -> Result ToolResult.
Variable handleGetSystemAnalytics : Json -> Result ToolResult.
Variable handleAddTrainingData : Json -> Result ToolResult.
Variable handleRetrainModel : Json -> Result ToolResult.

(** [callTool]; the timing written to the console is left out, and the
    [catch] block rethrows what it caught. *)
Definition callTool (name : string) (args : Json) : Result ToolResult :=
  if bool_decide (name = "predict_worker_assignment")
  then handlePredictWorkerAssignment args
  else if bool_decide (name = "get_worker_performance")
  then handleGetWorkerPerformance args
  else if bool_decide (name = "get_system_analytics")
  then handleGetSystemAnalytics args
  else if bool_decide (name = "add_training_data")
  then handleAddTrainingData args
  else if bool_decide (name = "retrain_model")
  then handleRetrainModel args
  else Throw (Exn.mk "Error" ("Unknown tool: " ++ name)).

(** The contents of the three resources, read from the application
    service, the process and the clock; a read may throw. *)
Variable dashboard_content : Result Json.
Variable training_summary : Result Json.
Variable model_status : Result Json.

Definition getAnalyticsDashboard : Result Resource.t :=
  content ← dashboard_content;
  Ok (Resource.mk "worker-assignment://analytics/dashboard"
        "application/json" content).

Definition getTrainingDataSummary : Result Resource.t :=
  summary ← training_summary;
  Ok (Resource.mk "worker-assignment://data/training-summary"
        "application/json" summary).

Definition getModelStatus : Result Resource.t :=
  status ← model_status;
  Ok (Resource.mk "worker-assignment://model/status" "application/json"
        status).

Definition getResource (uri : string) : Result Resource.t :=
  if bool_decide (uri = "worker-assignment://analytics/dashboard")
  then getAnalyticsDashboard
  else if bool_decide (uri = "worker-assignment://data/training-summary")
  then getTrainingDataSummary
  else if bool_decide (uri = "worker-assignment://model/status")
  then getModelStatus
  else Throw (Exn.mk "Error" ("Unknown resource: " ++ uri)).

End ToolServer.

(** The advertised entry of a resource. *)
Definition advertised_resource (uri : string) : option ResourceInfo.t :=
  List.find (fun r => bool_decide (ResourceInfo.uri r = uri)) defineResources.

(** * The application service

    [this.appService] is [null] in the state the constructor builds and is
    set by [initialize].  The prediction core and the status are read through
    it, by calls that leave this file and may throw.  The part of the
    pipeline that makes these calls is written again here with the reads
    spelled out; with a service all of whose calls return it is the one
    above. *)

(** What the pipeline reads through [appService]: the prediction core
    [appService.mlService.getMLSystem()], with its method
    [predictWorkerML(machineId, complexity, false)], and
    [appService.getStatus()]. *)
Module AppService.
Record t : Type := mk {
  getMLSystem : Result (Z -> Z -> Result Prediction.t);
  getStatus : Result Status.t
}.
End AppService.

Module Service.
Section WithAppService.

Variable appService : option AppService.t.
Variable show_number : Q -> string.
Variable clock : nat -> string.

(** [this.appService.mlService.getMLSystem()]; the message of the
    [TypeError] is the engine's. *)
Definition getMLSystem : Result (Z -> Z -> Result Prediction.t) :=
  match appService with
  | None =>
      Throw (Exn.mk "TypeError"
               "Cannot read properties of null (reading 'mlService')")
  | Some service => AppService.getMLSystem service
  end.

(** [this.appService.getStatus()] *)
Definition getStatus : Result Status.t :=
  match appService with
  | None =>
      Throw (Exn.mk "TypeError"
               "Cannot read properties of null (reading 'getStatus')")
  | Some service => AppService.getStatus service
  end.

(** The body of the loop [for (let i = 1; i <= 5; i++)]; an exception of
    the prediction core leaves the loop. *)
Definition alternatives_step
    (predictWorkerML : Z -> Z -> Result Prediction.t)
    (basePrediction : Prediction.t) (machineId complexity : Z)
    (alternatives : Result (list Alternative.t)) (i : Z)
    : Result (list Alternative.t) :=
  alternatives ← alternatives;
  if bool_decide (i ≠ complexity)
  then
    altPrediction ← predictWorkerML machineId i;
    if bool_decide (Prediction.recommendedWorker altPrediction
                    ≠ Prediction.recommendedWorker basePrediction)
    then Ok (push alternatives
               {| Alternative.worker :=
                    Prediction.recommendedWorker altPrediction;
                  Alternative.complexity_adjusted := i;
                  Alternative.estimated_time :=
                    Prediction.estimatedTime altPrediction;
                  Alternative.reason :=
                    if (i <? complexity)%Z then "Faster but less thorough"
                    else "More thorough but slower" |})
    else Ok alternatives
  else Ok alternatives.

Definition generateAlternatives (basePrediction : Prediction.t)
    (reasoning : Reasoning.t) : Result (list Alternative.t) :=
  predictWorkerML ← getMLSystem;
  '(machineId, complexity) ← destructure_parameters reasoning;
  alternatives ←
    fold_left
      (alternatives_step predictWorkerML basePrediction machineId complexity)
      [1; 2; 3; 4; 5]%Z (Ok []);
  Ok (take 2 alternatives).

Definition enhancePredictionWithAI (basePrediction : Prediction.t)
    (reasoning : Reasoning.t) : Result Enhanced.t :=
  alternatives ← generateAlternatives basePrediction reasoning;
  Ok {| Enhanced.base := basePrediction;
        Enhanced.ai_confidence := Reasoning.confidence reasoning;
        Enhanced.contextual_score :=
          calculateContextualScore basePrediction reasoning;
        Enhanced.alternative_workers := alternatives;
        Enhanced.risk_assessment := assessRisk basePrediction reasoning;
        Enhanced.explanation :=
          generatePredictionExplanation show_number basePrediction
            reasoning |}.

Definition executeIntelligentAssignment (reasoning : Reasoning.t)
    : Result ActionResult :=
  '(machineId, complexity) ← destructure_parameters reasoning;
  predictWorkerML ← getMLSystem;
  basePrediction ← predictWorkerML machineId complexity;
  enhancedPrediction ← enhancePredictionWithAI basePrediction reasoning;
  Ok (worker_assignment basePrediction enhancedPrediction
        (Reasoning.explanation reasoning)).

Definition executePerformanceAnalysis : Result ActionResult :=
  analytics ← getStatus;
  Ok (performance_analysis analytics (generatePerformanceInsights analytics)
        (generatePerformanceRecommendations analytics)).

Definition executeAnalytics : Result ActionResult :=
  analytics ← getStatus;
  Ok (comprehensive_analytics analytics
        "System performance is stable with good prediction accuracy"
        generateStrategicRecommendations).

Definition executeIntelligentAction (reasoning : Reasoning.t) (w : World.t)
    : Result ActionResult * World.t :=
  let approach := Reasoning.approach reasoning in
  if bool_decide (approach = "intelligent_worker_assignment")
  then (executeIntelligentAssignment reasoning, w)
  else if bool_decide (approach = "performance_analysis")
  then (executePerformanceAnalysis, w)
  else if bool_decide (approach = "comprehensive_analytics")
  then (executeAnalytics, w)
  else if bool_decide (approach = "adaptive_learning")
  then let '(st, w) := getLearningStatus clock w in
       (Ok (learning_enhancement st identifyImprovementOpportunities
              generateLearningRecommendations), w)
  else (Ok (general_assistance (Reasoning.suggestions reasoning)
              "I can help with worker assignments, performance analysis, system analytics, and learning improvements."),
        w).

Definition processNaturalLanguageQuery (d : Draws) (query : string)
    (context : Provided.t) (w : World.t) : Result Envelope.t * World.t :=
  let intent := analyzeIntent d query in
  let extractedContext := extractContextFromQuery query context in
  let reasoning := reasonAboutQuery intent extractedContext in
  match executeIntelligentAction reasoning w with
  | (Throw e, w) => (Throw e, w)
  | (Ok result, w) =>
      match learnFromInteraction clock query intent result w with
      | (Throw e, w) => (Throw e, w)
      | (Ok _, w) =>
          let response := generateNaturalResponse query result reasoning in
          let '(now, w) := new_Date clock w in
          (Ok {| Envelope.understood_intent := intent;
                 Envelope.context_analysis := extractedContext;
                 Envelope.reasoning := Reasoning.explanation reasoning;
                 Envelope.result := result;
                 Envelope.natural_response := response;
                 Envelope.confidence := Reasoning.confidence reasoning;
                 Envelope.suggestions := Reasoning.suggestions reasoning;
                 Envelope.timestamp := now |}, w)
      end
  end.

End WithAppService.
End Service.

(** A service all of whose calls return. *)
Definition returning_service (predictWorkerML : Z -> Z -> Prediction.t)
    (getStatus : Status.t) : option AppService.t :=
  Some (AppService.mk (Ok (fun machineId complexity =>
                             Ok (predictWorkerML machineId complexity)))
          (Ok getStatus)).

(** The strategy of the intent [t] gets what it asks of the application
    service: the assignment strategy the prediction for the chosen
    parameters and for the complexities 1 to 5 on the same machine, the
    performance and analytics strategies the status; the others ask for
    nothing. *)
Definition served (appService : option AppService.t) (t : IntentType)
    (parameters : option (Z * Z)) : Prop :=
  match t with
  | assignment =>
      exists service predictWorkerML machineId complexity,
        appService = Some service
        /\ AppService.getMLSystem service = Ok predictWorkerML
        /\ parameters = Some (machineId, complexity)
        /\ forall i,
             i ∈ [complexity; 1; 2; 3; 4; 5]%Z ->
             exists prediction, predictWorkerML machineId i = Ok prediction
  | performance | analytics =>
      exists service status,
        appService = Some service
        /\ AppService.getStatus service = Ok status
  | learning | urgency | quality | general_inquiry => True
  end.

(** The strategy of the intent reads [this.appService]. *)
Definition reads_service (t : IntentType) : bool :=
  match t with
  | assignment | performance | analytics => true
  | learning | urgency | quality | general_inquiry => false
  end.

(** No word the call is going to record names an entry of the [patterns]
    map that is not an array. *)
Definition recordable (w : World.t) (query : string) : bool :=
  forallb
    (fun word =>
       match patterns_of w !! word with
       | Some (UserPreferences _ _ _) => false
       | _ => true
       end)
    (long_words query).

(** A prediction core that knows the machines 1 to 5 only. *)
Definition five_machines (machineId complexity : Z)
    : Result Prediction.t :=
  if ((1 <=? machineId) && (machineId <=? 5))%Z then Ok sample_prediction
  else Throw (Exn.mk "InvalidMachineError" "Unknown machine").

Definition sample_service : option AppService.t :=
  Some (AppService.mk (Ok five_machines) (Ok sample_status)).

(** * Numbers as doubles

    Above, a number is a rational and a weight is a number.  The confidence
    of a reasoning is computed again here as the engine computes it: on IEEE
    754 doubles, each literal and each operation rounded to the nearest
    double, and on the values a parsed request body can hold, where a weight
    need not be a number.  A double is a [spec_float] of the binary64
    format, with the arithmetic the standard library specifies for it. *)

#[local] Set Warnings "-inexact-float".

Module Double.

Definition double : Type := spec_float.

Definition mul (a b : double) : double := SF64mul a b.
Definition add (a b : double) : double := SF64add a b.
Definition ltb (a b : double) : bool := SFltb a b.
Definition leb (a b : double) : bool := SFleb a b.

Definition is_nan (x : double) : bool :=
  match x with S754_nan => true | _ => false end.

Definition is_zero (x : double) : bool :=
  match x with S754_zero _ => true | _ => false end.

(** The sign bit of a double that is a number. *)
Definition negative (x : double) : bool :=
  match x with
  | S754_zero s | S754_infinity s | S754_finite s _ _ => s
  | S754_nan => false
  end.

(** The double nearest to a rational, ties to even: the value of a decimal
    literal of the source and of a number in a JSON text.  The quotient is
    taken with more than 64 bits, with one more bit that records whether the
    division left a remainder, and rounded once. *)
Definition to_double (q : Q) : double :=
  let n := Qnum q in
  let d := Zpos (Qden q) in
  let k := Z.max 0 (64 + Z.log2 d - Z.log2 (Z.abs n)) in
  let scaled := (Z.abs n * 2 ^ k)%Z in
  let quotient := (scaled / d)%Z in
  let sticky := if (scaled mod d =? 0)%Z then 0%Z else 1%Z in
  let mantissa := (2 * quotient + sticky)%Z in
  binary_normalize prec emax
    (if (n <? 0)%Z then (- mantissa)%Z else mantissa) (- k - 1) false.

(** [a] and [b] are the same double. *)
Definition same (a b : double) : bool :=
  match a, b with
  | S754_nan, S754_nan => true
  | S754_zero s, S754_zero t => Bool.eqb s t
  | S754_infinity s, S754_infinity t => Bool.eqb s t
  | S754_finite s m e, S754_finite t n f =>
      Bool.eqb s t && Pos.eqb m n && Z.eqb e f
  | _, _ => false
  end.

(** A parsed JSON value.  An object lists its properties in the order in
    which [Object.entries] enumerates them. *)
#[local] Unset Elimination Schemes.
Inductive Value : Type :=
| VNull
| VBool (b : bool)
| VNum (x : double)
| VStr (s : string)
| VArr (a : list Value)
| VObj (o : list (string * Value)).
#[local] Set Elimination Schemes.

(** [Math.max(a, b)] and [Math.min(a, b)]: NaN when an argument is NaN, and
    [+0] above [-0]. *)
Definition Math_max (a b : double) : double :=
  if is_nan a || is_nan b then S754_nan
  else if ltb a b then b
  else if ltb b a then a
  else if negative a then b else a.

Definition Math_min (a b : double) : double :=
  if is_nan a || is_nan b then S754_nan
  else if ltb a b then a
  else if ltb b a then b
  else if negative a then a else b.

(** [Math.min(1.0, Math.max(0.1, c))] *)
Definition clamp_confidence (c : double) : double :=
  Math_min (to_double 1.0) (Math_max (to_double 0.1) c).

Section Coercions.

(** The engine's reading of a string as a number and its text for a
    number. *)
Variable StringToNumber : string -> double.
Variable NumberToString : double -> string.

(** [String(v)]; in the text of an array [null] is empty. *)
Fixpoint ToString (v : Value) : string :=
  match v with
  | VNull => "null"
  | VBool b => if b then "true" else "false"
  | VNum x => NumberToString x
  | VStr s => s
  | VArr a =>
      Str.join ","
        (map (fun x => match x with
                       | VNull => EmptyString
                       | _ => ToString x
                       end) a)
  | VObj _ => "[object Object]"
  end.

(** [Number(v)], the coercion [*] applies to its operands. *)
Definition ToNumber (v : Value) : double :=
  match v with
  | VNull => to_double 0
  | VBool b => if b then to_double 1 else to_double 0
  | VNum x => x
  | VStr s => StringToNumber s
  | VArr _ | VObj _ => StringToNumber (ToString v)
  end.

(** [if (v)] *)
Definition truthy (v : Value) : bool :=
  match v with
  | VNull => false
  | VBool b => b
  | VNum x => negb (is_zero x || is_nan x)
  | VStr s => negb (bool_decide (s = EmptyString))
  | VArr _ | VObj _ => true
  end.

(** [factorData.weight]: the property of an object, [undefined] on a
    primitive or an array, a [TypeError] on [null]. *)
Definition weight_of (factorData : Value) : Result (option Value) :=
  match factorData with
  | VNull =>
      Throw (Exn.mk "TypeError"
               "Cannot read properties of null (reading 'weight')")
  | VObj o => Ok (obj_get o "weight")
  | _ => Ok None
  end.

(** [Object.entries(v)]: the properties of an object, the elements of an
    array and the characters of a string under their indices, nothing for a
    number or a boolean. *)
Definition Object_entries (v : Value) : list (string * Value) :=
  match v with
  | VObj o => o
  | VArr a => imap (fun i x => (pretty i, x)) a
  | VStr s =>
      imap (fun i c => (pretty i, VStr (String c EmptyString)))
        (list_ascii_of_string s)
  | VNull | VBool _ | VNum _ => []
  end.

(** [context.environmental_factors || {}] *)
Definition or_empty (v : option Value) : Value :=
  match v with
  | Some v => if truthy v then v else VObj []
  | None => VObj []
  end.

(** One turn of the loop of [applyEnvironmentalFactors], for the
    confidence. *)
Definition apply_factor (confidence : Result double)
    (entry : string * Value) : Result double :=
  confidence ← confidence;
  weight ← weight_of entry.2;
  match weight with
  | Some weight =>
      if truthy weight then Ok (mul confidence (ToNumber weight))
      else Ok confidence
  | None => Ok confidence
  end.

(** The confidence [applyEnvironmentalFactors] leaves. *)
Definition applyEnvironmentalFactors (confidence : double)
    (environmental_factors : option Value) : Result double :=
  confidence ←
    fold_left apply_factor (Object_entries (or_empty environmental_factors))
      (Ok confidence);
  Ok (clamp_confidence confidence).

(** The values behind the typed context: the urgency level is a string, a
    table-driven or supplied factor an object with its two properties. *)
Definition factor_value (f : FactorData) : Value :=
  match f with
  | Level s => VStr s
  | Weighted factor weight =>
      VObj [("factor", VStr factor); ("weight", VNum (to_double weight))]
  end.

Definition environment_value (env : Obj FactorData) : Value :=
  VObj (map (fun entry => (entry.1, factor_value entry.2)) env).

(** The confidence [reasonAboutAssignment] sets. *)
Definition reasonAboutAssignment (context : Context.t) : double :=
  let confidence := to_double 0.85 in
  let confidence :=
    if urgency_is_high context then add confidence (to_double 0.1)
    else confidence in
  if qualityFocus_is_high context then add confidence (to_double 0.1)
  else confidence.

(** The confidence of the reasoning [reasonAboutQuery] returns. *)
Definition reasonAboutQuery (intent : IntentAnalysis) (context : Context.t)
    : Result double :=
  let confidence :=
    match Intent.type (primary intent) with
    | assignment => reasonAboutAssignment context
    | performance => to_double 0.9
    | analytics => to_double 0.95
    | learning => to_double 0.8
    | _ => to_double 0.7
    end in
  applyEnvironmentalFactors confidence
    (environment_value <$> Context.environmental_factors context).

(** [Math.round(x)] for a finite [x]: the integer nearest to [x], the
    upper one of two; NaN and the infinities are returned as they are. *)
Definition Math_round (x : double) : option Z :=
  match x with
  | S754_zero _ => Some 0%Z
  | S754_finite s m e =>
      let n := if s then Zneg m else Zpos m in
      Some (if (0 <=? e)%Z then n * 2 ^ e
            else (2 * n + 2 ^ (- e)) / 2 ^ (1 - e))%Z
  | S754_infinity _ | S754_nan => None
  end.

(** The text of [Math.round(x)] in a template literal: the digits of an
    integer below 10^21. *)
Definition rounded_text (x : double) : string :=
  match Math_round x with
  | Some n =>
      if (Z.abs n <? 10 ^ 21)%Z then pretty n else NumberToString x
  | None =>
      if is_nan x then "NaN"
      else if negative x then "-Infinity" else "Infinity"
  end.

(** What [generateNaturalResponse] appends to every response. *)
Definition confidence_note (confidence : double) : string :=
  " (Confidence: " ++ rounded_text (mul confidence (to_double 100)) ++ "%)".

End Coercions.
End Double.

(** ** A supplied context that exhausts the doubles *)

(** Two weights whose product with the confidence underflows to zero, then
    a weight beyond the largest double. *)
Definition tiny_and_huge : Obj FactorData :=
  [ ("shift", Weighted "shift" 1e-200);
    ("load", Weighted "load" 1e-200);
    ("demand", Weighted "demand" 1e999) ].

Definition overflowing_context : Provided.t :=
  Provided.mk None (Some (Some tiny_and_huge)) None None.

(** ** The confidences a query alone can lead to *)

(** The environmental factors the extractor can derive from a query: the
    urgency level, and for each factor type of the table the entry of at
    most one of its patterns. *)
Definition factor_choice (row : string * list ContextualFactor.t)
    (chosen : option ContextualFactor.t) : Obj FactorData :=
  match chosen with
  | Some f => [(row.1, factor_entry f)]
  | None => []
  end.

Fixpoint chosen_factors (tbl : list (string * list ContextualFactor.t))
    (choice : list (option ContextualFactor.t)) : Obj FactorData :=
  match tbl, choice with
  | row :: tbl', chosen :: choice' =>
      (factor_choice row chosen ++ chosen_factors tbl' choice')%list
  | _, _ => []
  end.

Definition derivable_factors (urgent : bool)
    (choice : list (option ContextualFactor.t)) : Obj FactorData :=
  ((if urgent then [("urgency", Level "high")] else [])
   ++ chosen_factors contextualFactors choice)%list.

(** All the ways of choosing at most one pattern per factor type. *)
Fixpoint choices (tbl : list (string * list ContextualFactor.t))
    : list (list (option ContextualFactor.t)) :=
  match tbl with
  | [] => [[]]
  | row :: tbl' =>
      flat_map (fun chosen => map (cons chosen) (choices tbl'))
        (None :: map Some row.2)
  end.

(** The choice a query makes. *)
Definition choice_of (query : string)
    (tbl : list (string * list ContextualFactor.t))
    : list (option ContextualFactor.t) :=
  map (fun row => last_matching query row.2) tbl.

Definition IntentTypes : list IntentType :=
  [assignment; performance; analytics; urgency; quality; learning;
   general_inquiry].

(** A context with the given quality focus and environmental factors, and
    an analysis with the given primary intent type. *)
Definition context_with (qualityFocus : bool) (env : Obj FactorData)
    : Context.t :=
  {| Context.query_analysis := Some [];
     Context.environmental_factors := Some env;
     Context.requirements :=
       Some (Requirements.mk None None
               (if qualityFocus then Some "high" else None) None);
     Context.constraints := Some [] |}.

Definition intent_with (t : IntentType) : IntentAnalysis :=
  {| primary := Intent.mk t 0.8 "pattern_matching";
     secondary := [];
     analysis := "Detected 1 potential intent(s)" |}.

(** The confidence is a whole percentage between 10 and 100 and the note
    shows it. *)
Definition shown_as_percent (NumberToString : Double.double -> string)
    (confidence : Result Double.double) : bool :=
  match confidence with
  | Ok c =>
      match Double.Math_round (Double.mul c (Double.to_double 100)) with
      | Some percent =>
          Double.leb (Double.to_double 0.1) c
          && Double.leb c (Double.to_double 1)
          && (10 <=? percent)%Z && (percent <=? 100)%Z
          && String.eqb (Double.confidence_note NumberToString c)
               (" (Confidence: " ++ pretty percent ++ "%)")
      | None => false
      end
  | Throw _ => false
  end.

(** The check of [shown_as_percent] over every primary intent type, quality
    focus, urgency and choice of factors. *)
Definition every_derivable_confidence (P : Result Double.double -> bool)
    (StringToNumber : string -> Double.double)
    (NumberToString : Double.double -> string) : bool :=
  forallb
    (fun t =>
       forallb
         (fun qualityFocus =>
            forallb
              (fun urgent =>
                 forallb
                   (fun choice =>
                      P (Double.reasonAboutQuery StringToNumber
                           NumberToString (intent_with t)
                           (context_with qualityFocus
                              (derivable_factors urgent choice))))
                   (choices contextualFactors))
              [true; false])
         [true; false])
    IntentTypes.

Definition busy_status_query : string :=
  "system status while everyone is busy".

(** * Properties *)

(** ** Comparisons on numbers *)

Lemma Qlt_bool_true (a b : Q) : Qlt_bool a b = true <-> (a < b)%Q.
Proof.
  unfold Qlt_bool. rewrite negb_true_iff.
  destruct (Qle_bool b a) eqn:E.
  - apply Qle_bool_iff in E. split; [discriminate|].
    intros H. exfalso. exact (Qlt_not_le _ _ H E).
  - split; [intros _|reflexivity].
    apply Qnot_le_lt. intros H. apply Qle_bool_iff in H. congruence.
Qed.

Lemma Qlt_bool_decide (a b : Q) : Qlt_bool a b = bool_decide (a < b)%Q.
Proof.
  destruct (Qlt_bool a b) eqn:E; symmetry.
  - apply bool_decide_eq_true, Qlt_bool_true, E.
  - apply bool_decide_eq_false. intros H.
    apply Qlt_bool_true in H. congruence.
Qed.

(** ** Risk assessment *)


Lemma present_bool (P : Prop) `{Decision P} (b : bool) :
  (b = true <-> P) -> present P = (if b then 1 else 0).
Proof.
  intros Hb. unfold present. destruct (decide P) as [HP|HP], b; try reflexivity.
  - apply Hb in HP. discriminate.
  - exfalso. apply HP, Hb. reflexivity.
Qed.

Lemma assessRisk_factors_length (p : Prediction.t) (r : Reasoning.t) :
  length (Risk.factors (assessRisk p r)) = risk_factors_present p r.
Proof.
  unfold risk_factors_present.
  rewrite (present_bool (low_confidence p)
             (Qlt_bool (Prediction.confidence p) 0.7))
    by apply Qlt_bool_true.
  rewrite (present_bool (long_completion p)
             (Qlt_bool 30 (Prediction.estimatedTime p)))
    by apply Qlt_bool_true.
  rewrite (present_bool (urgent_but_slow p r)
             (Str.includes (Reasoning.explanation r) "urgent"
              && Qlt_bool 20 (Prediction.estimatedTime p))).
  2:{ unfold urgent_but_slow. rewrite andb_true_iff, Qlt_bool_true. tauto. }
  unfold assessRisk. cbn [Risk.factors].
  destruct (Qlt_bool (Prediction.confidence p) 0.7),
    (Qlt_bool 30 (Prediction.estimatedTime p)),
    (Str.includes (Reasoning.explanation r) "urgent"
     && Qlt_bool 20 (Prediction.estimatedTime p)); reflexivity.
Qed.

Lemma assessRisk_level_of_count (p : Prediction.t) (r : Reasoning.t) :
  Risk.level (assessRisk p r)
  = level_of_count (length (Risk.factors (assessRisk p r))).
Proof.
  unfold assessRisk. cbn [Risk.factors Risk.level].
  destruct (Qlt_bool (Prediction.confidence p) 0.7),
    (Qlt_bool 30 (Prediction.estimatedTime p)),
    (Str.includes (Reasoning.explanation r) "urgent"
     && Qlt_bool 20 (Prediction.estimatedTime p)); reflexivity.
Qed.

(** C2: the level [assessRisk] reports is low exactly when none of the three
    risk factors (confidence below 0.7, estimated time above 30, urgency
    mentioned with estimated time above 20) is present, medium exactly when
    one is, high exactly when two or more are; the number of factor strings
    collected is the number of factors present, and the level is the
    count-based function of that number. *)
Theorem assessRisk_level_by_count (p : Prediction.t) (r : Reasoning.t) :
  let risk := assessRisk p r in
  length (Risk.factors risk) = risk_factors_present p r
  /\ Risk.level risk = level_of_count (length (Risk.factors risk))
  /\ (Risk.level risk = low <-> risk_factors_present p r = 0)
  /\ (Risk.level risk = medium <-> risk_factors_present p r = 1)
  /\ (Risk.level risk = high <-> 2 <= risk_factors_present p r).
Proof.
  cbv zeta.
  rewrite assessRisk_level_of_count, assessRisk_factors_length.
  split; [reflexivity|]. split; [reflexivity|].
  destruct (risk_factors_present p r) as [|[|n]]; cbn [level_of_count];
    repeat split; intros; try discriminate; try reflexivity; try lia.
Qed.

(** ** Alternatives *)




(** ** Contextual score *)

Lemma calculateContextualScore_formula (p : Prediction.t) (r : Reasoning.t) :
  (calculateContextualScore p r == contextual_score_formula p r)%Q.
Proof.
  unfold calculateContextualScore, contextual_score_formula,
    urgency_bonus, quality_bonus.
  rewrite !Qlt_bool_decide.
  destruct (Str.includes (Reasoning.explanation r) "urgent");
    destruct (Str.includes (Reasoning.explanation r) "quality");
    cbn [andb];
    repeat (case_bool_decide || case_decide);
    try tauto;
    try (exfalso; intuition congruence);
    apply Q.min_compat; try reflexivity; ring.
Qed.

Lemma contextual_score_formula_bounds (p : Prediction.t) (r : Reasoning.t) :
  (0 <= Prediction.confidence p)%Q -> (0 <= Reasoning.confidence r)%Q ->
  (0 <= contextual_score_formula p r <= 100)%Q.
Proof.
  intros Hp Hr. unfold contextual_score_formula. split.
  - apply Q.min_glb; [discriminate|].
    assert (0 <= Prediction.confidence p * 100 * Reasoning.confidence r)%Q
      as Hprod.
    { apply Qmult_le_0_compat; [|exact Hr].
      apply Qmult_le_0_compat; [exact Hp|discriminate]. }
    assert (0 <= urgency_bonus p r)%Q as Hu
      by (unfold urgency_bonus; case_decide; discriminate).
    assert (0 <= quality_bonus p r)%Q as Hq
      by (unfold quality_bonus; case_decide; discriminate).
    rewrite <- (Qplus_0_r 0).
    apply Qplus_le_compat; [|exact Hq].
    rewrite <- (Qplus_0_r 0).
    apply Qplus_le_compat; assumption.
  - apply Q.le_min_l.
Qed.

(** C4: for confidences in [0,1], [calculateContextualScore] is the
    prediction confidence times 100 times the reasoning confidence, plus 10
    when the explanation contains 'urgent' and the estimated time is below
    20, plus 15 when it contains 'quality' and the average quality is above
    85, capped at 100; the result lies in [0,100]. *)
Theorem calculateContextualScore_formula_and_range
    (p : Prediction.t) (r : Reasoning.t) :
  (0 <= Prediction.confidence p <= 1)%Q ->
  (0 <= Reasoning.confidence r <= 1)%Q ->
  (calculateContextualScore p r == contextual_score_formula p r)%Q
  /\ (0 <= calculateContextualScore p r <= 100)%Q.
Proof.
  intros [Hp _] [Hr _].
  pose proof (calculateContextualScore_formula p r) as E.
  split; [exact E|]. rewrite E.
  apply contextual_score_formula_bounds; assumption.
Qed.

Lemma calculateContextualScore_formula_and_range_witness :
  (calculateContextualScore sample_prediction scenario_reasoning
   == contextual_score_formula sample_prediction scenario_reasoning)%Q
  /\ (0 <= calculateContextualScore sample_prediction scenario_reasoning
      <= 100)%Q.
Proof.
  apply calculateContextualScore_formula_and_range;
    split; vm_compute; discriminate.
Defined.

(** ** Environmental factors *)

Lemma clamp_confidence_range (c : Q) :
  (0.1 <= clamp_confidence c <= 1)%Q.
Proof.
  unfold clamp_confidence. split.
  - apply Q.min_glb; [discriminate|apply Q.le_max_l].
  - eapply Qle_trans; [apply Q.le_min_l|discriminate].
Qed.

Lemma fold_apply_factor_confidence (env : Obj FactorData) :
  forall acc : Q * string,
    (fold_left apply_factor env acc).1
    = fold_left Qmult (effective_weights env) acc.1.
Proof.
  induction env as [|[k [s|f w]] env IH]; intros acc;
    cbn [fold_left effective_weights].
  - reflexivity.
  - rewrite IH. reflexivity.
  - rewrite IH. unfold apply_factor. cbn [snd].
    destruct (Qeq_bool w 0); reflexivity.
Qed.

Lemma applyEnvironmentalFactors_confidence (reasoning : Reasoning.t)
    (context : Context.t) :
  Reasoning.confidence (applyEnvironmentalFactors reasoning context)
  = clamp_confidence
      (weighted_confidence (Reasoning.confidence reasoning)
         (default [] (Context.environmental_factors context))).
Proof.
  unfold applyEnvironmentalFactors, weighted_confidence.
  pose proof (fold_apply_factor_confidence
                (default [] (Context.environmental_factors context))
                (Reasoning.confidence reasoning,
                 Reasoning.explanation reasoning)) as E.
  destruct (fold_left apply_factor _ _) as [c e]. cbn in E |- *.
  rewrite E. reflexivity.
Qed.

Lemma processNaturalLanguageQuery_confidence
    (predict : Z -> Z -> Prediction.t) (show_number : Q -> string)
    (getStatus : Status.t) (clock : nat -> string) (d : Draws)
    (query : string) (supplied : Provided.t) (w w' : World.t)
    (envelope : Envelope.t) :
  processNaturalLanguageQuery predict show_number getStatus clock d query
    supplied w = (Ok envelope, w') ->
  Envelope.confidence envelope
  = Reasoning.confidence
      (reasonAboutQuery (analyzeIntent d query)
         (extractContextFromQuery query supplied)).
Proof.
  unfold processNaturalLanguageQuery.
  destruct (executeIntelligentAction _ _ _ _ _ _) as [[result|e] w1];
    [|discriminate].
  destruct (learnFromInteraction _ _ _ _ _) as [[[]|e] w2]; [|discriminate].
  cbn. intros [= <- _]. reflexivity.
Qed.

(** In exact arithmetic and with weights that are numbers, the confidence
    [applyEnvironmentalFactors] leaves is the incoming confidence multiplied
    by the weights of the environmental factors, in insertion order, clamped
    into [0.1, 1.0], and the confidence of a response envelope lies in
    [0,1].  On doubles the clamp does not bound a product that is not a
    number, as the last part of this file shows. *)
Lemma applyEnvironmentalFactors_confidence_range
    (reasoning : Reasoning.t) (context : Context.t)
    (predict : Z -> Z -> Prediction.t) (show_number : Q -> string)
    (getStatus : Status.t) (clock : nat -> string) (d : Draws)
    (query : string) (supplied : Provided.t) (w : World.t) :
  let adjusted := applyEnvironmentalFactors reasoning context in
  Reasoning.confidence adjusted
  = clamp_confidence
      (weighted_confidence (Reasoning.confidence reasoning)
         (default [] (Context.environmental_factors context)))
  /\ (0.1 <= Reasoning.confidence adjusted <= 1)%Q
  /\ match (processNaturalLanguageQuery predict show_number getStatus clock
              d query supplied w).1 with
     | Ok envelope => (0 <= Envelope.confidence envelope <= 1)%Q
     | Throw _ => True
     end.
Proof.
  cbv zeta. split; [apply applyEnvironmentalFactors_confidence|].
  split.
  - rewrite applyEnvironmentalFactors_confidence.
    apply clamp_confidence_range.
  - destruct (processNaturalLanguageQuery _ _ _ _ _ _ _ _)
      as [[envelope|e] w'] eqn:E; cbn [fst]; [|exact I].
    rewrite (processNaturalLanguageQuery_confidence _ _ _ _ _ _ _ _ _ _ E).
    unfold reasonAboutQuery.
    rewrite applyEnvironmentalFactors_confidence.
    match goal with
    | |- (0 <= clamp_confidence ?c <= 1)%Q =>
        destruct (clamp_confidence_range c) as [Hlo Hhi]
    end.
    split; [|exact Hhi].
    eapply Qle_trans; [|exact Hlo]. discriminate.
Qed.

(** ** Intent classification *)

Lemma scan_patterns_types (d : Draws) (lq : string) (t : IntentType)
    (ps : list RegExp.t) :
  forall acc,
    map Intent.type (scan_patterns d lq t ps acc)
    = (map Intent.type acc ++ matching_types lq t ps)%list.
Proof.
  induction ps as [|p ps IH]; intros acc; cbn [scan_patterns matching_types].
  - rewrite app_nil_r. reflexivity.
  - destruct (RegExp.test p lq); [|apply IH].
    rewrite IH, map_app, <- app_assoc. reflexivity.
Qed.

Lemma scan_intents_types (d : Draws) (lq : string)
    (tbl : list (IntentType * list RegExp.t)) :
  forall acc,
    map Intent.type (scan_intents d lq tbl acc)
    = (map Intent.type acc ++ matched_in lq tbl)%list.
Proof.
  induction tbl as [|[t ps] tbl IH]; intros acc;
    cbn [scan_intents matched_in].
  - rewrite app_nil_r. reflexivity.
  - rewrite IH, scan_patterns_types, <- app_assoc. reflexivity.
Qed.

Lemma detected_types (d : Draws) (query : string) :
  map Intent.type
    (scan_intents d (Str.toLowerCase query) intentPatterns [])
  = matched_types query.
Proof. apply scan_intents_types. Qed.

Lemma insert_by_confidence_elem (x y : Intent.t) (l : list Intent.t) :
  y ∈ insert_by_confidence x l -> y = x \/ y ∈ l.
Proof.
  induction l as [|z l IH]; cbn [insert_by_confidence].
  - intros H. apply list_elem_of_singleton in H. left. exact H.
  - destruct (Qle_bool _ _).
    + intros H. apply elem_of_cons in H. exact H.
    + intros H. apply elem_of_cons in H. destruct H as [->|H].
      * right. apply elem_of_cons. left. reflexivity.
      * destruct (IH H) as [->|H']; [left; reflexivity|].
        right. apply elem_of_cons. right. exact H'.
Qed.

Lemma sort_by_confidence_elem (y : Intent.t) (l : list Intent.t) :
  y ∈ sort_by_confidence l -> y ∈ l.
Proof.
  induction l as [|x l IH]; cbn [sort_by_confidence foldr]; intros H.
  - exact H.
  - apply insert_by_confidence_elem in H. apply elem_of_cons.
    destruct H as [->|H]; [left; reflexivity|right; apply IH, H].
Qed.

Lemma insert_by_confidence_length (x : Intent.t) (l : list Intent.t) :
  length (insert_by_confidence x l) = S (length l).
Proof.
  induction l as [|z l IH]; cbn [insert_by_confidence]; [reflexivity|].
  destruct (Qle_bool _ _); cbn [length]; [reflexivity|].
  rewrite IH. reflexivity.
Qed.

Lemma sort_by_confidence_length (l : list Intent.t) :
  length (sort_by_confidence l) = length l.
Proof.
  induction l as [|x l IH]; cbn [sort_by_confidence foldr]; [reflexivity|].
  change (foldr insert_by_confidence [] l) with (sort_by_confidence l).
  rewrite insert_by_confidence_length, IH. reflexivity.
Qed.

(** With no match the primary intent is the fallback. *)
Lemma primary_type_fallback (d : Draws) (query : string) :
  matched_types query = [] ->
  primary (analyzeIntent d query)
  = Intent.mk general_inquiry 0.6 "fallback_analysis".
Proof.
  intros H. unfold analyzeIntent. cbv zeta.
  pose proof (detected_types d query) as E. rewrite H in E.
  apply map_eq_nil in E. rewrite E. reflexivity.
Qed.

(** With a match the primary intent is one of the detected ones. *)
Lemma primary_type_matched (d : Draws) (query : string) :
  matched_types query ≠ [] ->
  Intent.type (primary (analyzeIntent d query)) ∈ matched_types query.
Proof.
  intros H. unfold analyzeIntent. cbv zeta. cbn [primary].
  pose proof (detected_types d query) as E.
  set (detected := scan_intents d (Str.toLowerCase query) intentPatterns [])
    in *.
  assert (length detected ≠ 0) as Hlen.
  { intros Hz. apply H. rewrite <- E.
    destruct detected; [reflexivity|discriminate]. }
  rewrite bool_decide_eq_false_2 by exact Hlen.
  pose proof (sort_by_confidence_length detected) as Hs.
  destruct (sort_by_confidence detected) as [|i sorted] eqn:Es.
  - exfalso. apply Hlen. symmetry. exact Hs.
  - rewrite <- E. apply list_elem_of_fmap. exists i. split; [reflexivity|].
    apply sort_by_confidence_elem. rewrite Es. apply elem_of_cons.
    left. reflexivity.
Qed.

Lemma single_typed_elem (t : IntentType) (ts : list IntentType)
    (u : IntentType) :
  single_typed (t :: ts) = true -> u ∈ t :: ts -> u = t.
Proof.
  cbn [single_typed]. intros H Hu. apply elem_of_cons in Hu.
  destruct Hu as [->|Hu]; [reflexivity|].
  rewrite forallb_forall in H. apply list_elem_of_In in Hu.
  specialize (H u Hu). apply bool_decide_eq_true in H. exact H.
Qed.

(** C1 (as the code has it): the confidences are drawn at random, so the
    primary intent is a function of the query and of the draws; it is the
    same on every call, whatever the draws, when the patterns that match
    the query all belong to one intent type (in particular when none
    matches). *)
Theorem analyzeIntent_primary_type_stable (d1 d2 : Draws) (query : string) :
  single_typed (matched_types query) = true ->
  Intent.type (primary (analyzeIntent d1 query))
  = Intent.type (primary (analyzeIntent d2 query)).
Proof.
  intros H. destruct (matched_types query) as [|t ts] eqn:E.
  - rewrite !primary_type_fallback by exact E. reflexivity.
  - assert (matched_types query ≠ []) as Hne by (rewrite E; discriminate).
    pose proof (primary_type_matched d1 query Hne) as H1.
    pose proof (primary_type_matched d2 query Hne) as H2.
    rewrite E in H1, H2.
    rewrite (single_typed_elem t ts _ H H1), (single_typed_elem t ts _ H H2).
    reflexivity.
Qed.

Lemma analyzeIntent_primary_type_stable_witness :
  Intent.type (primary (analyzeIntent draws_zero "urgent rush job"))
  = Intent.type (primary (analyzeIntent draws_second_high "urgent rush job")).
Proof.
  apply (analyzeIntent_primary_type_stable draws_zero draws_second_high
           "urgent rush job").
  vm_compute. reflexivity.
Defined.

Lemma draws_zero_valid : draws_valid draws_zero.
Proof. intros i. split; vm_compute; [discriminate|reflexivity]. Qed.

Lemma draws_second_high_valid : draws_valid draws_second_high.
Proof.
  intros i. unfold draws_second_high.
  case_bool_decide; split; vm_compute; try discriminate; reflexivity.
Qed.

(** The same query, with two runs of the random generator: the primary
    intent is [assignment] in one call and [urgency] in the other. *)
Lemma analyzeIntent_primary_type_varies :
  draws_valid draws_zero /\ draws_valid draws_second_high
  /\ Intent.type (primary (analyzeIntent draws_zero scenario_query))
     = assignment
  /\ Intent.type (primary (analyzeIntent draws_second_high scenario_query))
     = urgency
  /\ Intent.type (primary (analyzeIntent draws_zero scenario_query))
     ≠ Intent.type (primary (analyzeIntent draws_second_high scenario_query)).
Proof.
  split; [apply draws_zero_valid|].
  split; [apply draws_second_high_valid|].
  split; [vm_compute; reflexivity|].
  split; [vm_compute; reflexivity|].
  vm_compute. discriminate.
Qed.

(** ** The urgent precision job on Machine 1 *)

(** The three patterns the scenario query matches, with their draws. *)
Lemma scenario_detected (d : Draws) :
  scan_intents d (Str.toLowerCase scenario_query) intentPatterns []
  = [ Intent.mk assignment (0.8 + d 0 * 0.2) "/who.*should.*work/i";
      Intent.mk urgency (0.8 + d 1 * 0.2) "/urgent/i";
      Intent.mk quality (0.8 + d 2 * 0.2) "/precision/i" ].
Proof. reflexivity. Qed.

Lemma confidence_of_draw_le (x y : Q) :
  (x <= y)%Q -> Qle_bool (0.8 + x * 0.2) (0.8 + y * 0.2) = true.
Proof.
  intros H. apply Qle_bool_iff. apply Qplus_le_compat; [apply Qle_refl|].
  apply Qmult_le_compat_r; [exact H|discriminate].
Qed.

Lemma scenario_primary_assignment (d : Draws) :
  (d 1%nat <= d 0%nat)%Q -> (d 2%nat <= d 0%nat)%Q ->
  Intent.type (primary (analyzeIntent d scenario_query)) = assignment.
Proof.
  intros H1 H2. unfold analyzeIntent. cbv zeta.
  rewrite scenario_detected.
  cbn [length bool_decide decide_rel primary sort_by_confidence foldr
       insert_by_confidence Intent.confidence].
  rewrite bool_decide_eq_false_2 by discriminate.
  cbn [sort_by_confidence foldr insert_by_confidence Intent.confidence].
  destruct (Qle_bool (0.8 + d 2 * 0.2) (0.8 + d 1 * 0.2));
    cbn [insert_by_confidence Intent.confidence];
    rewrite confidence_of_draw_le by assumption; reflexivity.
Qed.

(** C7 (as the code has it): for the scenario query and an empty supplied
    context the extractor yields machine 1, quality focus 'high' and the
    urgency level 'high', a bare string with no factor field; when the draw
    of the assignment pattern is not below those of the urgency and
    precision patterns the primary intent is [assignment], and the reasoning
    confidence is then 1, above the base 0.85. *)
Theorem scenario_outcome (d : Draws) :
  (d 1%nat <= d 0%nat)%Q -> (d 2%nat <= d 0%nat)%Q ->
  let intent := analyzeIntent d scenario_query in
  let reasoning := reasonAboutQuery intent scenario_context in
  Intent.type (primary intent) = assignment
  /\ Context.requirements scenario_context ≫= Requirements.machineId
     = Some 1%Z
  /\ Context.requirements scenario_context ≫= Requirements.qualityFocus
     = Some "high"
  /\ urgency_entry scenario_context = Some (Level "high")
  /\ (Reasoning.confidence reasoning == 1)%Q
  /\ (0.85 < Reasoning.confidence reasoning)%Q.
Proof.
  intros H1 H2. cbv zeta.
  split; [apply scenario_primary_assignment; assumption|].
  split; [reflexivity|]. split; [reflexivity|]. split; [reflexivity|].
  unfold reasonAboutQuery.
  rewrite (scenario_primary_assignment d H1 H2).
  split; vm_compute; reflexivity.
Qed.

Lemma scenario_outcome_witness :
  Intent.type (primary (analyzeIntent draws_zero scenario_query)) = assignment
  /\ (0.85 < Reasoning.confidence
               (reasonAboutQuery (analyzeIntent draws_zero scenario_query)
                  scenario_context))%Q.
Proof.
  assert ((draws_zero 1%nat <= draws_zero 0%nat)%Q) as H1
    by (vm_compute; discriminate).
  assert ((draws_zero 2%nat <= draws_zero 0%nat)%Q) as H2
    by (vm_compute; discriminate).
  destruct (scenario_outcome draws_zero H1 H2) as (Ha & _ & _ & _ & _ & Hc).
  split; [exact Ha|exact Hc].
Defined.

(** The scenario as stated fails: the urgency entry has no factor field
    whatever the draws, and for the draws below the primary intent is
    [urgency], handled by the general strategy with confidence 0.7. *)
Lemma scenario_claim_fails :
  draws_valid draws_second_high
  /\ Intent.type (primary (analyzeIntent draws_second_high scenario_query))
     = urgency
  /\ (Reasoning.confidence
        (reasonAboutQuery (analyzeIntent draws_second_high scenario_query)
           scenario_context) == 0.7)%Q
  /\ urgency_entry scenario_context ≫= factor_of = None
  /\ ~ scenario_claim draws_second_high.
Proof.
  split; [apply draws_second_high_valid|].
  split; [vm_compute; reflexivity|].
  split; [vm_compute; reflexivity|].
  split; [reflexivity|].
  intros (Ha & _). vm_compute in Ha. discriminate.
Qed.

(** ** Defaults of the assignment strategy *)

Lemma mapComplexityToNumber_nonzero (s : option string) :
  mapComplexityToNumber s ≠ 0%Z.
Proof.
  unfold mapComplexityToNumber, or_default.
  destruct (s ≫= obj_get complexity_mapping) as [n|]; [|discriminate].
  destruct (n =? 0)%Z eqn:E; [discriminate|].
  apply Z.eqb_neq, E.
Qed.

(** The machine default is the one the design describes. *)
Lemma reasonAboutAssignment_machine_default (context : Context.t) :
  falsy (Context.requirements context ≫= Requirements.machineId) = true ->
  exists complexity,
    Reasoning.parameters (reasonAboutAssignment context)
    = Some (intelligentMachineSelection context, complexity)
    /\ intelligentMachineSelection context
       = (if qualityFocus_is_high context then 1
          else if urgency_is_high context then 3 else 2)%Z.
Proof.
  intros H. unfold reasonAboutAssignment, intelligentMachineSelection.
  cbv zeta. rewrite H.
  destruct (falsy (Some _)); destruct (urgency_is_high context);
    destruct (qualityFocus_is_high context); cbn; eexists;
    (split; reflexivity).
Qed.

(** With no complexity in the requirements the strategy proceeds with
    level 3: [mapComplexityToNumber] has already replaced the missing value
    by 3, so the test [!complexity] fails and the assessment is not run. *)
Lemma reasonAboutAssignment_complexity_absent (context : Context.t) :
  Context.requirements context ≫= Requirements.complexity = None ->
  exists machineId,
    Reasoning.parameters (reasonAboutAssignment context)
    = Some (machineId, 3%Z)
    /\ forall c : Z,
         ("Assessed complexity as level " ++ pretty c
          ++ " based on requirements")
         ∉ Reasoning.suggestions (reasonAboutAssignment context).
Proof.
  intros H. unfold reasonAboutAssignment. cbv zeta. rewrite H.
  change (mapComplexityToNumber None) with 3%Z.
  change (falsy (Some 3%Z)) with false. cbv iota.
  destruct (falsy _); destruct (urgency_is_high context);
    destruct (qualityFocus_is_high context); cbn; eexists;
    (split; [reflexivity|]); intros c Hc;
    repeat (apply elem_of_cons in Hc; destruct Hc as [Hc|Hc];
            [discriminate Hc|]);
    try (apply elem_of_nil in Hc; exact Hc);
    unfold push in Hc; cbn in Hc;
    repeat (apply elem_of_cons in Hc; destruct Hc as [Hc|Hc];
            [discriminate Hc|]);
    apply elem_of_nil in Hc; exact Hc.
Qed.

(** C6, on the code: for an urgent request that names no complexity the
    assessment of the design would give level 4, but the strategy proceeds
    with level 3 and appends no suggestion about the complexity; the machine
    default (3 under urgency) is applied and announced. *)
Theorem reasonAboutAssignment_skips_complexity_assessment :
  Context.requirements urgent_context ≫= Requirements.complexity = None
  /\ urgency_is_high urgent_context = true
  /\ intelligentComplexityAssessment urgent_context = 4%Z
  /\ Reasoning.parameters (reasonAboutAssignment urgent_context)
     = Some (3%Z, 3%Z)
  /\ Reasoning.suggestions (reasonAboutAssignment urgent_context)
     = ["Intelligently selected Machine 3 based on context"].
Proof. repeat split. Qed.

(** ** The learning store *)

Section LearningStore.

Variable clock : nat -> string.

Lemma record_word_frame (t : IntentType) (word : string) (w : World.t) :
  stored (record_word clock t word w).2 = stored w
  /\ preferences_of (record_word clock t word w).2 = preferences_of w.
Proof.
  unfold record_word, stored, preferences_of.
  destruct (3 <? String.length word)%nat; [|split; reflexivity].
  cbv zeta.
  destruct (_ !! word) as [[hits|a b c]|]; cbn; split; reflexivity.
Qed.

Lemma record_words_frame (t : IntentType) (words : list string) :
  forall w,
    stored (record_words clock t words w).2 = stored w
    /\ preferences_of (record_words clock t words w).2 = preferences_of w.
Proof.
  induction words as [|word words IH]; intros w; cbn [record_words].
  - split; reflexivity.
  - pose proof (record_word_frame t word w) as [Hs Hp].
    destruct (record_word clock t word w) as [[[]|e] w1]; cbn [snd] in *.
    + destruct (IH w1) as [Hs1 Hp1]. rewrite Hs1, Hp1. split; assumption.
    + split; assumption.
Qed.

Lemma value_extends_refl (v : PatternValue) : value_extends v v.
Proof. destruct v; cbn; reflexivity. Qed.

Lemma value_extends_trans (v1 v2 v3 : PatternValue) :
  value_extends v1 v2 -> value_extends v2 v3 -> value_extends v1 v3.
Proof.
  destruct v1, v2, v3; cbn; intros H12 H23; try congruence;
    try discriminate.
  etransitivity; eassumption.
Qed.

Lemma patterns_grow_refl (m : gmap string PatternValue) : patterns_grow m m.
Proof. intros word v H. exists v. split; [exact H|apply value_extends_refl]. Qed.

Lemma patterns_grow_trans (m1 m2 m3 : gmap string PatternValue) :
  patterns_grow m1 m2 -> patterns_grow m2 m3 -> patterns_grow m1 m3.
Proof.
  intros H12 H23 word v H.
  destruct (H12 word v H) as (v2 & H2 & E2).
  destruct (H23 word v2 H2) as (v3 & H3 & E3).
  exists v3. split; [exact H3|]. eapply value_extends_trans; eassumption.
Qed.

Lemma patterns_grow_size (m m' : gmap string PatternValue) :
  patterns_grow m m' -> size m <= size m'.
Proof.
  intros H. rewrite <- !size_dom. apply subseteq_size.
  intros word Hin. apply elem_of_dom in Hin. destruct Hin as [v Hv].
  destruct (H word v Hv) as (v' & Hv' & _). apply elem_of_dom. eauto.
Qed.

Lemma patterns_grow_insert_fresh (m : gmap string PatternValue)
    (word : string) (v : PatternValue) :
  m !! word = None -> patterns_grow m (<[word := v]> m).
Proof.
  intros Hnone k u Hk. exists u. split; [|apply value_extends_refl].
  rewrite lookup_insert_ne; [exact Hk|]. intros ->. congruence.
Qed.

Lemma patterns_grow_push (m : gmap string PatternValue) (word : string)
    (hits : list PatternHit.t) (h : PatternHit.t) :
  m !! word = Some (Hits hits) ->
  patterns_grow m (<[word := Hits (push hits h)]> m).
Proof.
  intros Hw k u Hk. destruct (decide (word = k)) as [<-|Hne].
  - rewrite lookup_insert_eq. eexists. split; [reflexivity|].
    rewrite Hw in Hk. injection Hk as <-. cbn. unfold push.
    apply prefix_app_r. reflexivity.
  - rewrite lookup_insert_ne by exact Hne.
    exists u. split; [exact Hk|apply value_extends_refl].
Qed.

Lemma record_word_grow (t : IntentType) (word : string) (w : World.t) :
  patterns_grow (patterns_of w) (patterns_of (record_word clock t word w).2).
Proof.
  unfold record_word, patterns_of.
  destruct (3 <? String.length word)%nat; [|apply patterns_grow_refl].
  cbv zeta.
  set (m := LearningData.patterns (World.learningData w)).
  assert (patterns_grow m
            (if bool_decide (is_Some (m !! word)) then m
             else <[word := Hits []]> m)) as Hfirst.
  { case_bool_decide as Hs; [apply patterns_grow_refl|].
    apply patterns_grow_insert_fresh.
    destruct (m !! word) eqn:E; [|reflexivity].
    exfalso. apply Hs. eauto. }
  set (m1 := if bool_decide (is_Some (m !! word)) then m
             else <[word := Hits []]> m) in *.
  destruct (m1 !! word) as [[hits|a b c]|] eqn:E; cbn; try exact Hfirst.
  eapply patterns_grow_trans; [exact Hfirst|].
  apply patterns_grow_push, E.
Qed.

Lemma record_words_grow (t : IntentType) (words : list string) :
  forall w,
    patterns_grow (patterns_of w) (patterns_of (record_words clock t words w).2).
Proof.
  induction words as [|word words IH]; intros w; cbn [record_words].
  - apply patterns_grow_refl.
  - pose proof (record_word_grow t word w) as H1.
    destruct (record_word clock t word w) as [[[]|e] w1]; cbn [snd] in *.
    + eapply patterns_grow_trans; [exact H1|apply IH].
    + exact H1.
Qed.

(** The state after the interaction has been pushed. *)
Lemma learnFromInteraction_unfold (r : Recorded) (w : World.t) :
  exists w1,
    stored w1 = push (stored w) (interaction_of clock w r)
    /\ patterns_of w1 = patterns_of w
    /\ preferences_of w1 = preferences_of w
    /\ forall out,
         out = record_words clock (Intent.type (primary r.1.2))
                 (Str.split_ws (Str.toLowerCase r.1.1)) w1 ->
         learnFromInteraction clock r.1.1 r.1.2 r.2 w
         = match out with
           | (Throw e, w2) => (Throw e, w2)
           | (Ok _, w2) =>
               if (1000 <? length (stored w2))%nat
               then (Ok (),
                     World.mk
                       (LearningData.mk (slice_last 800 (stored w2))
                          (patterns_of w2) (preferences_of w2))
                       (World.clock_reads w2))
               else (Ok (), w2)
           end.
Proof.
  eexists. split; [|split; [|split]]; cycle 3.
  - intros out ->. unfold learnFromInteraction. cbn [new_Date].
    cbv zeta. cbn [World.learningData World.clock_reads].
    reflexivity.
  - reflexivity.
  - reflexivity.
  - reflexivity.
Qed.

Lemma length_push {A} (l : list A) (x : A) :
  length (push l x) = S (length l).
Proof. unfold push. rewrite length_app. cbn. lia. Qed.

Lemma last_slice_last {A} (n : nat) (l : list A) :
  0 < n -> last (slice_last n l) = last l.
Proof.
  intros Hn. unfold slice_last. rewrite !last_lookup, lookup_drop, length_drop.
  f_equal. destruct l as [|x l]; cbn [length]; lia.
Qed.

Lemma length_slice_last {A} (n : nat) (l : list A) :
  n <= length l -> length (slice_last n l) = n.
Proof. intros H. unfold slice_last. rewrite length_drop. lia. Qed.

(** What one call does to the three parts of the learning data. *)
Lemma record_effect (r : Recorded) (w : World.t) :
  let w' := record clock w r in
  let result := (learnFromInteraction clock r.1.1 r.1.2 r.2 w).1 in
  patterns_grow (patterns_of w) (patterns_of w')
  /\ preferences_of w' = preferences_of w
  /\ last (stored w') = Some (interaction_of clock w r)
  /\ match result with
     | Ok _ =>
         stored w'
         = (if (1000 <? S (length (stored w)))%nat
            then slice_last 800 (push (stored w) (interaction_of clock w r))
            else push (stored w) (interaction_of clock w r))
     | Throw _ => stored w' = push (stored w) (interaction_of clock w r)
     end.
Proof.
  cbv zeta. unfold record.
  destruct (learnFromInteraction_unfold r w) as (w1 & Hs & Hp & Hf & Hrun).
  rewrite (Hrun _ eq_refl).
  pose proof (record_words_frame (Intent.type (primary r.1.2))
                (Str.split_ws (Str.toLowerCase r.1.1)) w1) as [Hs2 Hf2].
  pose proof (record_words_grow (Intent.type (primary r.1.2))
                (Str.split_ws (Str.toLowerCase r.1.1)) w1) as Hg.
  destruct (record_words clock _ _ w1) as [[[]|e] w2]; cbn [snd] in *.
  - rewrite Hs2, Hs, length_push.
    destruct (1000 <? S (length (stored w)))%nat;
      cbn [fst snd]; unfold stored, patterns_of, preferences_of in *;
      cbn [World.learningData LearningData.interactions
           LearningData.patterns LearningData.preferences].
    + rewrite <- Hp. split; [exact Hg|]. split; [congruence|].
      split; [|reflexivity].
      rewrite last_slice_last by lia. unfold push. apply last_snoc.
    + rewrite <- Hp. split; [exact Hg|]. split; [congruence|].
      rewrite Hs2, Hs. split; [|reflexivity]. unfold push. apply last_snoc.
  - cbn [fst snd]. rewrite <- Hp. split; [exact Hg|].
    split; [congruence|]. rewrite Hs2, Hs.
    split; [|reflexivity]. unfold push. apply last_snoc.
Qed.

Lemma record_length_returned (r : Recorded) (w : World.t) :
  (learnFromInteraction clock r.1.1 r.1.2 r.2 w).1 = Ok () ->
  length (stored (record clock w r))
  = (if (1000 <? S (length (stored w)))%nat then 800
     else S (length (stored w))).
Proof.
  intros Hok. pose proof (record_effect r w) as (_ & _ & _ & H).
  cbv zeta in H. rewrite Hok in H. rewrite H.
  destruct (1000 <? S (length (stored w)))%nat eqn:E.
  - apply length_slice_last. unfold push. rewrite length_app. cbn.
    apply Nat.ltb_lt in E. lia.
  - unfold push. rewrite length_app. cbn. lia.
Qed.

(** A call that returns leaves at most 1000 interactions, whatever the
    state it started from. *)
Lemma record_bounded_returned (r : Recorded) (w : World.t) :
  (learnFromInteraction clock r.1.1 r.1.2 r.2 w).1 = Ok () ->
  length (stored (record clock w r)) <= 1000.
Proof.
  intros Hok. rewrite (record_length_returned r w Hok).
  destruct (1000 <? S (length (stored w)))%nat eqn:E; [lia|].
  apply Nat.ltb_ge in E. exact E.
Qed.

Lemma learned_patterns_of_size (w : World.t) :
  learned_patterns_of clock w = size (patterns_of w).
Proof. reflexivity. Qed.

(** C10: over any sequence of calls of [learnFromInteraction], returning or
    not, every entry of the [patterns] map is kept, an array of hits only
    ever being extended at its end, the [preferences] map is unchanged, and
    the number of learned patterns [getLearningStatus] reports does not
    decrease: the trim touches the interactions only. *)
Theorem learnFromInteraction_keeps_patterns (rs : list Recorded) :
  forall w : World.t,
    let w' := record_all clock w rs in
    patterns_grow (patterns_of w) (patterns_of w')
    /\ preferences_of w' = preferences_of w
    /\ learned_patterns_of clock w <= learned_patterns_of clock w'.
Proof.
  cbv zeta. rewrite <- (rev_involutive rs).
  induction (rev rs) as [|r rs' IH]; intros w.
  - cbn. split; [apply patterns_grow_refl|]. split; [reflexivity|lia].
  - cbn [rev]. unfold record_all in *. rewrite fold_left_app. cbn [fold_left].
    destruct (IH w) as (Hg & Hp & Hn).
    pose proof (record_effect r (fold_left (record clock) (rev rs') w))
      as (Hg1 & Hp1 & _).
    cbv zeta in Hg1, Hp1.
    assert (patterns_grow (patterns_of w)
              (patterns_of
                 (record clock (fold_left (record clock) (rev rs') w) r)))
      as Hgrow by (eapply patterns_grow_trans; eassumption).
    split; [exact Hgrow|]. split; [congruence|].
    rewrite !learned_patterns_of_size. apply patterns_grow_size, Hgrow.
Qed.

(** *** From the state the constructor builds *)

Lemma arrays_only_insert (m : gmap string PatternValue) (word : string)
    (hits : list PatternHit.t) :
  (forall k v, m !! k = Some v -> exists l, v = Hits l) ->
  forall k v, <[word := Hits hits]> m !! k = Some v -> exists l, v = Hits l.
Proof.
  intros Hm k v. destruct (decide (word = k)) as [<-|Hne].
  - rewrite lookup_insert_eq. intros [= <-]. eauto.
  - rewrite lookup_insert_ne by exact Hne. apply Hm.
Qed.

Lemma record_word_arrays (t : IntentType) (word : string) (w : World.t) :
  arrays_only w ->
  (record_word clock t word w).1 = Ok ()
  /\ arrays_only (record_word clock t word w).2.
Proof.
  intros Hw. unfold record_word.
  destruct (3 <? String.length word)%nat; [|split; [reflexivity|exact Hw]].
  cbv zeta. unfold arrays_only, patterns_of in *.
  set (m := LearningData.patterns (World.learningData w)) in *.
  set (m1 := if bool_decide (is_Some (m !! word)) then m
             else <[word := Hits []]> m).
  assert (forall k v, m1 !! k = Some v -> exists l, v = Hits l) as Hm1.
  { subst m1. case_bool_decide; [exact Hw|].
    apply arrays_only_insert, Hw. }
  assert (is_Some (m1 !! word)) as [v Hv].
  { subst m1. case_bool_decide as Hs; [exact Hs|].
    rewrite lookup_insert_eq. eauto. }
  destruct (Hm1 word v Hv) as [hits ->]. rewrite Hv. cbn.
  split; [reflexivity|]. apply arrays_only_insert, Hm1.
Qed.

Lemma record_words_arrays (t : IntentType) (words : list string) :
  forall w,
    arrays_only w ->
    (record_words clock t words w).1 = Ok ()
    /\ arrays_only (record_words clock t words w).2.
Proof.
  induction words as [|word words IH]; intros w Hw; cbn [record_words].
  - split; [reflexivity|exact Hw].
  - destruct (record_word_arrays t word w Hw) as [Hok Harr].
    destruct (record_word clock t word w) as [[[]|e] w1]; cbn [fst snd] in *.
    + apply IH, Harr.
    + discriminate.
Qed.

(** While every entry of the map is an array the call returns. *)
Lemma record_arrays (r : Recorded) (w : World.t) :
  arrays_only w ->
  (learnFromInteraction clock r.1.1 r.1.2 r.2 w).1 = Ok ()
  /\ arrays_only (record clock w r).
Proof.
  intros Hw. unfold record.
  destruct (learnFromInteraction_unfold r w) as (w1 & Hs & Hp & Hf & Hrun).
  rewrite (Hrun _ eq_refl).
  assert (arrays_only w1) as Hw1.
  { unfold arrays_only. rewrite Hp. exact Hw. }
  destruct (record_words_arrays (Intent.type (primary r.1.2))
              (Str.split_ws (Str.toLowerCase r.1.1)) w1 Hw1) as [Hok Harr].
  destruct (record_words clock _ _ w1) as [[[]|e] w2]; cbn [fst snd] in *;
    [|discriminate].
  destruct (1000 <? length (stored w2))%nat; cbn [fst snd];
    split; try reflexivity; exact Harr.
Qed.

Lemma record_all_below_cap (rs : list Recorded) :
  forall w,
    arrays_only w ->
    length (stored w) + length rs <= 1000 ->
    arrays_only (record_all clock w rs)
    /\ length (stored (record_all clock w rs))
       = length (stored w) + length rs.
Proof.
  induction rs as [|r rs IH]; intros w Hw Hlen; cbn [record_all fold_left].
  - split; [exact Hw|]. cbn. lia.
  - cbn [length] in Hlen.
    destruct (record_arrays r w Hw) as [Hok Harr].
    pose proof (record_length_returned r w Hok) as Hl.
    destruct (1000 <? S (length (stored w)))%nat eqn:E.
    { apply Nat.ltb_lt in E. lia. }
    destruct (IH (record clock w r) Harr) as [Ha Hc]; [lia|].
    split; [exact Ha|]. unfold record_all in Hc. rewrite Hc. cbn [length]. lia.
Qed.

(** Started from the state the constructor builds, where every entry of
    the map is an array, 1001 calls leave exactly 800 interactions. *)
Lemma interactions_after_1001_from_constructor (rs : list Recorded) :
  length rs = 1001 ->
  length (stored (record_all clock constructed rs)) = 800.
Proof.
  intros Hlen.
  destruct (rev rs) as [|r rs'] eqn:E.
  { apply (f_equal (@length _)) in E. rewrite length_rev in E.
    cbn in E. lia. }
  assert (rs = (rev rs' ++ [r])%list) as ->.
  { rewrite <- (rev_involutive rs), E. reflexivity. }
  rewrite length_app, length_rev in Hlen. cbn [length] in Hlen.
  unfold record_all. rewrite fold_left_app. cbn [fold_left].
  change (fold_left (record clock) (rev rs') constructed)
    with (record_all clock constructed (rev rs')).
  assert (arrays_only constructed) as H0.
  { intros word v Hv. unfold patterns_of in Hv. cbn in Hv.
    rewrite lookup_empty in Hv. discriminate. }
  destruct (record_all_below_cap (rev rs') constructed H0) as [Harr Hc].
  { rewrite length_rev. cbn. lia. }
  rewrite length_rev in Hc. cbn [stored constructed] in Hc.
  destruct (record_arrays r _ Harr) as [Hok _].
  rewrite (record_length_returned r _ Hok), Hc.
  replace (S (length (stored constructed) + length rs')) with 1001
    by (cbn; lia).
  reflexivity.
Qed.

(** The pipeline records through [learnFromInteraction]: the interactions
    a request leaves are those the call leaves. *)
Lemma serve_stored (predict : Z -> Z -> Prediction.t)
    (show_number : Q -> string) (getStatus : Status.t) (d : Draws)
    (query : string) (w w1 : World.t) (result : ActionResult) :
  executeIntelligentAction predict show_number getStatus clock
    (reasonAboutQuery (analyzeIntent d query)
       (extractContextFromQuery query Provided.empty)) w
  = (Ok result, w1) ->
  stored (serve predict show_number getStatus clock d w query)
  = stored (record clock w1 (query, analyzeIntent d query, result)).
Proof.
  intros H. unfold serve, processNaturalLanguageQuery, record. rewrite H.
  cbn [fst snd].
  destruct (learnFromInteraction clock query _ result w1) as [[[]|e] w2];
    reflexivity.
Qed.

End LearningStore.

(** *** After [initialize] *)

(** C8, on the code: once [loadLearningData] has stored an object under
    ['user_preferences'], recording a query that contains that word throws
    after the interaction has been pushed and before the trim.  After 1000
    requests the 1001st interaction stays with the 1000 before it, and
    further such requests let the buffer grow past the cap. *)
Theorem interactions_exceed_cap_when_record_throws
    (predict : Z -> Z -> Prediction.t) (show_number : Q -> string)
    (getStatus : Status.t) (clock : nat -> string) (d : Draws) :
  let serve := serve predict show_number getStatus clock d in
  let w := fold_left serve (repeat "hello there" 1000) initialized in
  length (stored w) = 1000
  /\ (learnFromInteraction clock "show user_preferences" fallback_intent
        guidance_result w).1
     = Throw (Exn.mk "TypeError"
                "this.learningData.patterns.get(...).push is not a function")
  /\ length (stored (serve w "show user_preferences")) = 1001
  /\ length (stored (fold_left serve (repeat "show user_preferences" 200) w))
     = 1200.
Proof.
  cbv zeta. split; [vm_compute; reflexivity|].
  split; [vm_compute; reflexivity|].
  split; vm_compute; reflexivity.
Qed.


(** ** The query handler *)

(** C9: when the body cannot be parsed, or parses to a value without a
    [query] field, the handler returns (it does not throw) the status 400
    with an error string and a suggestion string, and leaves the state of
    the server as it was. *)
Theorem handleNaturalLanguageQuery_rejects_missing_query
    (predict : Z -> Z -> Prediction.t) (show_number : Q -> string)
    (getStatus : Status.t) (clock : nat -> string)
    (JSON_parse : string -> Result Json) (decode_context : Json -> Provided.t)
    (d : Draws) (body : string) (w : World.t) :
  bad_request JSON_parse body = true ->
  exists message,
    handleNaturalLanguageQuery predict show_number getStatus clock
      JSON_parse decode_context d body w
    = (Ok (error_response message), w).
Proof.
  unfold bad_request, handleNaturalLanguageQuery, try_query, error_response.
  destruct (JSON_parse body) as [parsed|e]; [|intros _; eauto].
  destruct parsed as [|b|n|s|a|o]; cbn [lacks_query_field];
    try (intros _; cbn; eauto; fail).
  intros H. apply bool_decide_eq_true in H.
  cbn [destructure_request]. rewrite H. cbn. eauto.
Qed.

Lemma handleNaturalLanguageQuery_rejects_missing_query_witness :
  exists message,
    handleNaturalLanguageQuery sample_predict sample_show sample_status
      sample_clock sample_parse sample_decode draws_zero "{}" initialized
    = (Ok (error_response message), initialized).
Proof.
  apply (handleNaturalLanguageQuery_rejects_missing_query sample_predict
           sample_show sample_status sample_clock sample_parse sample_decode
           draws_zero "{}" initialized).
  vm_compute. reflexivity.
Defined.

(** * Further properties *)

(** ** Ranking of the detected intents *)

Lemma insert_by_confidence_sorted (x : Intent.t) (l : list Intent.t) :
  StronglySorted ranks_above l ->
  StronglySorted ranks_above (insert_by_confidence x l).
Proof.
  induction 1 as [|y l Hl IH Hy]; cbn [insert_by_confidence].
  - repeat constructor.
  - destruct (Qle_bool (Intent.confidence y) (Intent.confidence x)) eqn:E.
    + apply Qle_bool_iff in E. constructor; [constructor; assumption|].
      constructor; [exact E|].
      eapply Forall_impl; [exact Hy|]. intros z Hz.
      unfold ranks_above in *. eapply Qle_trans; eassumption.
    + assert (ranks_above y x) as Hyx.
      { unfold ranks_above. apply Qlt_le_weak, Qnot_le_lt. intros H.
        apply Qle_bool_iff in H. congruence. }
      constructor; [exact IH|].
      apply Forall_forall. intros z Hz.
      apply insert_by_confidence_elem in Hz. destruct Hz as [->|Hz].
      * exact Hyx.
      * rewrite Forall_forall in Hy. apply Hy, Hz.
Qed.

Lemma sort_by_confidence_sorted (l : list Intent.t) :
  StronglySorted ranks_above (sort_by_confidence l).
Proof.
  induction l as [|x l IH]; cbn [sort_by_confidence foldr].
  - constructor.
  - apply insert_by_confidence_sorted, IH.
Qed.

Lemma StronglySorted_take {A} (R : A -> A -> Prop) (n : nat) (l : list A) :
  StronglySorted R l -> StronglySorted R (take n l).
Proof.
  intros H. revert n. induction H as [|x l Hl IH Hx]; intros [|n]; cbn;
    try constructor.
  - apply IH.
  - apply Forall_take, Hx.
Qed.

(** The list [analyzeIntent] sorts: the detected intents, or the fallback. *)
Lemma analyzeIntent_reported (d : Draws) (query : string) :
  exists sorted,
    sorted
    = sort_by_confidence
        (let detected :=
           scan_intents d (Str.toLowerCase query) intentPatterns [] in
         if bool_decide (length detected = 0)
         then (detected
               ++ [Intent.mk general_inquiry 0.6 "fallback_analysis"])%list
         else detected)
    /\ sorted ≠ []
    /\ reported (analyzeIntent d query) = take 3 sorted
    /\ length sorted = Nat.max 1 (length (matched_types query)).
Proof.
  eexists. split; [reflexivity|].
  pose proof (detected_types d query) as E.
  set (detected := scan_intents d (Str.toLowerCase query) intentPatterns [])
    in *.
  assert (length detected = length (matched_types query)) as Hlen
    by (rewrite <- E, length_map; reflexivity).
  cbv zeta.
  set (candidates :=
         if bool_decide (length detected = 0)
         then (detected
               ++ [Intent.mk general_inquiry 0.6 "fallback_analysis"])%list
         else detected).
  assert (length candidates = Nat.max 1 (length (matched_types query)))
    as Hc.
  { subst candidates. case_bool_decide as Hz.
    - rewrite length_app. cbn [length]. lia.
    - lia. }
  pose proof (sort_by_confidence_length candidates) as Hs.
  assert (reported (analyzeIntent d query)
          = take 3 (sort_by_confidence candidates)) as Hrep.
  { unfold reported, analyzeIntent. cbv zeta. cbn [primary secondary].
    fold detected. fold candidates.
    destruct (sort_by_confidence candidates) as [|i sorted] eqn:Es.
    - cbn [length] in Hs. lia.
    - unfold slice_1_3. cbn [drop take]. reflexivity. }
  split; [|split; [exact Hrep|lia]].
  intros Hnil. rewrite Hnil in Hs. cbn [length] in Hs. lia.
Qed.

(** X1: the intents a call reports are ranked: the primary intent has the
    highest confidence, the secondary ones follow in descending order, and
    there are as many secondary intents as matches beyond the first, two at
    most. *)
Theorem analyzeIntent_reports_ranked (d : Draws) (query : string) :
  let r := analyzeIntent d query in
  StronglySorted ranks_above (reported r)
  /\ Forall (ranks_above (primary r)) (secondary r)
  /\ length (secondary r) = Nat.min 2 (length (matched_types query) - 1).
Proof.
  cbv zeta.
  destruct (analyzeIntent_reported d query) as (sorted & Hs & Hne & Hrep & Hl).
  assert (StronglySorted ranks_above (reported (analyzeIntent d query)))
    as Hsorted.
  { rewrite Hrep, Hs. apply StronglySorted_take, sort_by_confidence_sorted. }
  split; [exact Hsorted|]. split.
  - unfold reported in Hsorted. apply StronglySorted_inv in Hsorted.
    apply Hsorted.
  - apply (f_equal (@length _)) in Hrep. unfold reported in Hrep.
    cbn [length] in Hrep. rewrite length_take in Hrep. lia.
Qed.

Lemma draw_in_match_band (x : Q) :
  (0 <= x)%Q -> (x < 1)%Q ->
  (0.8 <= 0.8 + x * 0.2)%Q /\ (0.8 + x * 0.2 <= 1)%Q.
Proof.
  destruct x as [n m]. unfold Qle, Qlt. cbn. intros H0 H1.
  rewrite ?Pos2Z.inj_mul. lia.
Qed.

Lemma scan_patterns_band (d : Draws) (lq : string) (t : IntentType)
    (ps : list RegExp.t) :
  draws_valid d ->
  forall acc,
    Forall in_match_band acc ->
    Forall in_match_band (scan_patterns d lq t ps acc).
Proof.
  intros Hd. induction ps as [|p ps IH]; intros acc Hacc;
    cbn [scan_patterns]; [exact Hacc|].
  destruct (RegExp.test p lq); [|apply IH, Hacc].
  apply IH. apply Forall_app. split; [exact Hacc|].
  constructor; [|constructor].
  destruct (Hd (length acc)) as [H0 H1].
  exact (draw_in_match_band _ H0 H1).
Qed.

Lemma scan_intents_band (d : Draws) (lq : string)
    (tbl : list (IntentType * list RegExp.t)) :
  draws_valid d ->
  forall acc,
    Forall in_match_band acc ->
    Forall in_match_band (scan_intents d lq tbl acc).
Proof.
  intros Hd. induction tbl as [|[t ps] tbl IH]; intros acc Hacc;
    cbn [scan_intents]; [exact Hacc|].
  apply IH, scan_patterns_band; assumption.
Qed.

(** X2: with draws in [0,1), every intent a call reports for a query that
    matches some pattern has a confidence between 0.8 and 1, both ends
    included; a query that matches none is reported as the single fallback
    intent of confidence 0.6.  The object of confidence 0.5 written after
    [||] is never returned. *)
Theorem analyzeIntent_confidence_bands (d : Draws) (query : string) :
  draws_valid d ->
  let r := analyzeIntent d query in
  (matched_types query = [] ->
   reported r = [Intent.mk general_inquiry 0.6 "fallback_analysis"])
  /\ (matched_types query ≠ [] -> Forall in_match_band (reported r)).
Proof.
  intros Hd. cbv zeta.
  destruct (analyzeIntent_reported d query) as (sorted & Hs & _ & Hrep & _).
  pose proof (detected_types d query) as E.
  pose proof (scan_intents_band d (Str.toLowerCase query) intentPatterns Hd
                [] (List.Forall_nil _)) as Hband.
  cbv zeta in Hs.
  destruct (scan_intents d (Str.toLowerCase query) intentPatterns [])
    as [|i detected] eqn:Ed.
  - split; [|intros Hne; exfalso; apply Hne; rewrite <- E; reflexivity].
    intros _. rewrite Hrep, Hs. reflexivity.
  - split; [intros Hnil; rewrite Hnil in E; discriminate|].
    intros _. rewrite Hrep. apply Forall_take. rewrite Hs.
    rewrite bool_decide_eq_false_2 by discriminate.
    apply Forall_forall. intros x Hx.
    apply sort_by_confidence_elem in Hx.
    rewrite Forall_forall in Hband. apply Hband, Hx.
Qed.

Lemma analyzeIntent_confidence_bands_witness :
  Forall in_match_band (reported (analyzeIntent draws_zero scenario_query)).
Proof.
  apply (analyzeIntent_confidence_bands draws_zero scenario_query).
  - intros i. split; vm_compute; [discriminate|reflexivity].
  - vm_compute. discriminate.
Defined.

(** ** Contextual factors *)

Lemma obj_get_set_eq {V} (o : Obj V) (k : string) (v : V) :
  obj_get (obj_set o k v) k = Some v.
Proof.
  induction o as [|[k' v'] o IH]; cbn [obj_set obj_get].
  - rewrite bool_decide_eq_true_2 by reflexivity. reflexivity.
  - case_bool_decide as E; cbn [obj_get].
    + rewrite bool_decide_eq_true_2 by reflexivity. reflexivity.
    + rewrite bool_decide_eq_false_2 by exact E. exact IH.
Qed.

Lemma obj_get_set_ne {V} (o : Obj V) (k k0 : string) (v : V) :
  k ≠ k0 -> obj_get (obj_set o k v) k0 = obj_get o k0.
Proof.
  intros Hne. induction o as [|[k' v'] o IH]; cbn [obj_set obj_get].
  - rewrite bool_decide_eq_false_2 by exact Hne. reflexivity.
  - case_bool_decide as E; cbn [obj_get].
    + subst k'. rewrite !bool_decide_eq_false_2 by exact Hne. reflexivity.
    + case_bool_decide; [reflexivity|exact IH].
Qed.

Lemma apply_factor_patterns_same (query ft : string)
    (ps : list ContextualFactor.t) :
  forall env,
    obj_get (apply_factor_patterns query ft ps env) ft
    = match last_matching query ps with
      | Some f => Some (factor_entry f)
      | None => obj_get env ft
      end.
Proof.
  induction ps as [|f ps IH]; intros env;
    cbn [apply_factor_patterns last_matching]; [reflexivity|].
  rewrite IH. destruct (last_matching query ps); [reflexivity|].
  destruct (RegExp.test (ContextualFactor.pattern f) query);
    [apply obj_get_set_eq|reflexivity].
Qed.

Lemma apply_factor_patterns_other (query ft ft0 : string)
    (ps : list ContextualFactor.t) :
  ft ≠ ft0 ->
  forall env,
    obj_get (apply_factor_patterns query ft ps env) ft0 = obj_get env ft0.
Proof.
  intros Hne. induction ps as [|f ps IH]; intros env;
    cbn [apply_factor_patterns]; [reflexivity|].
  rewrite IH. destruct (RegExp.test _ _); [|reflexivity].
  apply obj_get_set_ne, Hne.
Qed.

Lemma apply_contextual_factors_get (query : string)
    (tbl : list (string * list ContextualFactor.t)) (ft : string) :
  NoDup tbl.*1 ->
  forall env,
    obj_get (apply_contextual_factors query tbl env) ft
    = match obj_get tbl ft ≫= last_matching query with
      | Some f => Some (factor_entry f)
      | None => obj_get env ft
      end.
Proof.
  induction tbl as [|[k ps] tbl IH]; intros Hnd env;
    cbn [apply_contextual_factors obj_get]; [reflexivity|].
  cbn [fmap list_fmap fst] in Hnd. apply NoDup_cons in Hnd.
  destruct Hnd as [Hk Hnd]. rewrite (IH Hnd).
  case_bool_decide as E.
  - subst k. assert (obj_get tbl ft = None) as Hnone.
    { clear -Hk. induction tbl as [|[k' ps'] tbl IH]; [reflexivity|].
      cbn [obj_get]. cbn [fmap list_fmap fst] in Hk.
      apply not_elem_of_cons in Hk. destruct Hk as [Hk1 Hk2].
      rewrite bool_decide_eq_false_2 by congruence. apply IH, Hk2. }
    rewrite Hnone. cbn. apply apply_factor_patterns_same.
  - destruct (obj_get tbl ft ≫= last_matching query); [reflexivity|].
    apply apply_factor_patterns_other, E.
Qed.

(** X3: within a factor type the last pattern of the table that matches
    the query decides the entry (a later match overwrites an earlier one),
    and a factor type none of whose patterns match has no entry. *)
Theorem contextual_factor_last_match_wins (query ft : string)
    (ps : list ContextualFactor.t) :
  obj_get contextualFactors ft = Some ps ->
  obj_get (derived_factors query) ft
  = factor_entry <$> last_matching query ps.
Proof.
  intros Hft. unfold derived_factors, extractContextFromQuery. cbv zeta.
  cbn [Context.environmental_factors Provided.environmental_factors
       Provided.empty spread default].
  unfold id. rewrite apply_contextual_factors_get.
  2:{ apply (bool_decide_unpack _). vm_compute. exact I. }
  rewrite Hft. cbn [mbind option_bind].
  destruct (last_matching query ps); [reflexivity|]. cbn [fmap option_fmap option_map].
  assert (ft ≠ "urgency") as Hne.
  { intros ->. vm_compute in Hft. discriminate. }
  destruct (_ || _); [|reflexivity].
  cbn [obj_set obj_get]. rewrite bool_decide_eq_false_2 by congruence.
  reflexivity.
Qed.

Lemma contextual_factor_last_match_wins_witness :
  obj_get (derived_factors "busy morning, free by the evening") "timeContext"
  = Some (Weighted "fatigue_consideration" 0.9).
Proof.
  apply (contextual_factor_last_match_wins
           "busy morning, free by the evening" "timeContext"
           [ ContextualFactor.mk (re ["morning"]) 1.2 "fresh_start";
             ContextualFactor.mk (re ["afternoon"]) 1.0 "steady_pace";
             ContextualFactor.mk (re ["evening"]) 0.9 "fatigue_consideration";
             ContextualFactor.mk (re ["end"; "of"; "day"]) 0.8 "rushing_risk" ]).
  reflexivity.
Defined.

(** ** The machine named in the query *)

Lemma append_cons (c : ascii) (s x : string) :
  String c s ++ x = String c (s ++ x).
Proof. reflexivity. Qed.

Lemma append_nil (x : string) : EmptyString ++ x = x.
Proof. reflexivity. Qed.

Lemma strip_prefix_ci_app (p kw x : string) :
  strip_prefix_ci p kw = Some EmptyString ->
  strip_prefix_ci p (kw ++ x) = Some x.
Proof.
  revert kw. induction p as [|a p IH]; intros kw; cbn [strip_prefix_ci].
  - intros [= ->]. reflexivity.
  - destruct kw as [|b kw]; [discriminate|]. rewrite append_cons.
    destruct (Str.ci_eq a b); [apply IH|discriminate].
Qed.

Lemma skip_spaces_app (ws x : string) :
  all_chars Str.is_space ws = true ->
  skip_spaces (ws ++ x) = skip_spaces x.
Proof.
  induction ws as [|c ws IH];
    rewrite ?append_cons, ?append_nil; cbn [all_chars skip_spaces];
    [reflexivity|].
  destruct (Str.is_space c); [exact IH|discriminate].
Qed.

Lemma digit_not_space (c : ascii) :
  Str.is_digit c = true -> Str.is_space c = false.
Proof.
  unfold Str.is_digit, Str.is_space, Str.code. cbv zeta.
  generalize (N_of_ascii c). intros n H.
  apply andb_true_iff in H. destruct H as [H1 H2].
  apply N.leb_le in H1, H2.
  repeat (apply orb_false_iff; split);
    [apply andb_false_iff; right; apply N.leb_gt; lia
    | apply N.eqb_neq; lia | apply N.eqb_neq; lia].
Qed.

Lemma skip_spaces_digits (ds x : string) :
  all_chars Str.is_digit ds = true -> ds ≠ EmptyString ->
  skip_spaces (ds ++ x) = (ds ++ x).
Proof.
  destruct ds as [|c ds]; [congruence|]. rewrite append_cons.
  cbn [all_chars].
  destruct (Str.is_digit c) eqn:E; [|discriminate]. intros _ _.
  cbn [skip_spaces]. rewrite (digit_not_space c E). reflexivity.
Qed.

Lemma take_digits_app (ds rest : string) :
  all_chars Str.is_digit ds = true -> starts_with_digit rest = false ->
  take_digits (ds ++ rest) = ds.
Proof.
  intros Hds Hrest. induction ds as [|c ds IH];
    rewrite ?append_cons, ?append_nil; cbn [all_chars take_digits] in *.
  - destruct rest as [|c rest]; [reflexivity|].
    cbn [starts_with_digit take_digits] in *. rewrite Hrest. reflexivity.
  - destruct (Str.is_digit c); [|discriminate]. rewrite IH by exact Hds.
    reflexivity.
Qed.

Lemma machineMatch_skip (pre x : string) :
  all_chars not_m pre = true ->
  machineMatch (pre ++ x) = machineMatch x.
Proof.
  induction pre as [|c pre IH]; rewrite ?append_cons, ?append_nil;
    cbn [all_chars]; [reflexivity|].
  unfold not_m at 1. destruct (Str.ci_eq "m"%char c) eqn:E; cbn [negb];
    [discriminate|].
  intros H. cbn [machineMatch]. unfold machine_at at 1.
  cbn [strip_prefix_ci]. rewrite E. apply IH, H.
Qed.

Lemma take_digits_all (s : string) :
  all_chars Str.is_digit (take_digits s) = true.
Proof.
  induction s as [|c s IH]; cbn [take_digits]; [reflexivity|].
  destruct (Str.is_digit c) eqn:E; [|reflexivity].
  cbn [all_chars]. rewrite E. exact IH.
Qed.

Lemma machineMatch_digits (s ds : string) :
  machineMatch s = Some ds ->
  all_chars Str.is_digit ds = true /\ ds ≠ EmptyString.
Proof.
  induction s as [|c s IH]; cbn [machineMatch].
  - unfold machine_at. cbn. discriminate.
  - destruct (machine_at (String c s)) as [ds'|] eqn:E; [|exact IH].
    intros [= <-]. unfold machine_at in E.
    destruct (strip_prefix_ci "machine" (String c s)) as [r|]; [|discriminate].
    pose proof (take_digits_all (skip_spaces r)) as Hd.
    destruct (take_digits (skip_spaces r)) as [|a ds0]; [discriminate|].
    injection E as <-. split; [exact Hd|discriminate].
Qed.

Lemma parseInt_acc_nonneg (ds : string) :
  all_chars Str.is_digit ds = true ->
  forall acc, (0 <= acc)%Z -> (acc <= parseInt_acc ds acc)%Z.
Proof.
  induction ds as [|c ds IH]; cbn [all_chars parseInt_acc]; intros H acc Hacc.
  - lia.
  - destruct (Str.is_digit c) eqn:E; [|discriminate].
    unfold Str.is_digit in E. cbv zeta in E.
    apply andb_true_iff in E. destruct E as [E1 E2].
    apply N.leb_le in E1, E2.
    etransitivity; [|apply IH; [exact H|lia]]. lia.
Qed.

Lemma parseInt_nonneg (ds : string) :
  all_chars Str.is_digit ds = true -> (0 <= parseInt ds)%Z.
Proof. intros H. apply (parseInt_acc_nonneg ds H 0%Z). lia. Qed.

Lemma extracted_machine_eq (query : string) :
  extracted_machine query = parseInt <$> machineMatch query.
Proof.
  unfold extracted_machine, extractContextFromQuery. cbv zeta.
  cbn [Context.requirements Provided.requirements Provided.empty spread
       mbind option_bind Requirements.machineId].
  destruct (machineMatch query); reflexivity.
Qed.

Lemma parseInt_acc_bound (ds : string) :
  all_chars Str.is_digit ds = true ->
  forall acc,
    (0 <= acc)%Z ->
    (parseInt_acc ds acc < (acc + 1) * 10 ^ Z.of_nat (String.length ds))%Z.
Proof.
  induction ds as [|c ds IH]; cbn [all_chars parseInt_acc String.length];
    intros H acc Hacc.
  - cbn. lia.
  - destruct (Str.is_digit c) eqn:E; [|discriminate].
    unfold Str.is_digit in E. cbv zeta in E.
    apply andb_true_iff in E. destruct E as [E1 E2].
    apply N.leb_le in E1, E2.
    rewrite Nat2Z.inj_succ, Z.pow_succ_r by lia.
    specialize (IH H (10 * acc + (Z.of_N (Str.code c) - 48))%Z).
    assert (0 < 10 ^ Z.of_nat (String.length ds))%Z as Hpow
      by (apply Z.pow_pos_nonneg; lia).
    nia.
Qed.

Lemma parseInt_below (ds : string) :
  all_chars Str.is_digit ds = true ->
  String.length ds <= 15 ->
  (parseInt ds < 10 ^ 15)%Z.
Proof.
  intros H Hlen.
  pose proof (parseInt_acc_bound ds H 0%Z ltac:(lia)) as Hb.
  unfold parseInt.
  eapply Z.lt_le_trans; [exact Hb|].
  rewrite Z.mul_1_l. apply Z.pow_le_mono_r; lia.
Qed.

(** X4: the machine id is read from the first mention: when the query is
    some text without the letter m, then the word machine in any case,
    optional white space, a run of at most 15 digits and a rest that does
    not go on with a digit, the extracted [machineId] is the number the
    digits write.  That number is below 2^53, so the double [parseInt]
    returns is that number. *)
Theorem machineId_of_first_mention (pre kw ws ds rest : string) :
  all_chars not_m pre = true ->
  strip_prefix_ci "machine" kw = Some EmptyString ->
  all_chars Str.is_space ws = true ->
  all_chars Str.is_digit ds = true ->
  ds ≠ EmptyString ->
  String.length ds <= 15 ->
  starts_with_digit rest = false ->
  extracted_machine (pre ++ kw ++ ws ++ ds ++ rest) = Some (parseInt ds)
  /\ (0 <= parseInt ds < 2 ^ 53)%Z.
Proof.
  intros Hpre Hkw Hws Hds Hne Hlen Hrest.
  split;
    [|split; [apply parseInt_nonneg, Hds
             |eapply Z.lt_trans;
                [apply parseInt_below; assumption|reflexivity]]].
  rewrite extracted_machine_eq, machineMatch_skip by exact Hpre.
  assert (machine_at (kw ++ ws ++ ds ++ rest) = Some ds) as Hat.
  { unfold machine_at. rewrite (strip_prefix_ci_app _ _ _ Hkw).
    rewrite skip_spaces_app by exact Hws.
    rewrite skip_spaces_digits by assumption.
    rewrite take_digits_app by assumption.
    destruct ds; [congruence|reflexivity]. }
  destruct (kw ++ ws ++ ds ++ rest) as [|c s] eqn:E.
  - unfold machine_at in Hat. cbn in Hat. discriminate.
  - cbn [machineMatch]. rewrite Hat. reflexivity.
Qed.

Lemma machineId_of_first_mention_witness :
  extracted_machine "Who is best on MACHINE  042? Or machine 7?"
  = Some 42%Z.
Proof.
  apply (machineId_of_first_mention "Who is best on " "MACHINE" "  " "042"
           "? Or machine 7?"); try reflexivity.
  - discriminate.
  - cbn. lia.
Defined.

(** ** Parameters of the assignment strategy *)

Ltac list_member :=
  repeat first [apply list_elem_of_here | apply list_elem_of_further].

Lemma reasonAboutAssignment_parameters (context : Context.t) :
  Reasoning.parameters (reasonAboutAssignment context)
  = Some
      (let machineId :=
         Context.requirements context ≫= Requirements.machineId in
       if falsy machineId then intelligentMachineSelection context
       else default 0%Z machineId,
       mapComplexityToNumber
         (Context.requirements context ≫= Requirements.complexity)).
Proof.
  unfold reasonAboutAssignment. cbv zeta.
  assert (falsy (Some (mapComplexityToNumber
                         (Context.requirements context
                          ≫= Requirements.complexity))) = false) as Hc.
  { cbn [falsy]. apply Z.eqb_neq, mapComplexityToNumber_nonzero. }
  rewrite Hc.
  destruct (falsy (Context.requirements context ≫= Requirements.machineId));
    destruct (urgency_is_high context);
    destruct (qualityFocus_is_high context); reflexivity.
Qed.

Lemma find_complexity_levels (lq : string) :
  find_complexity lq complexityIndicators
  ∈ [None; Some "simple"; Some "medium"; Some "complex"; Some "critical"].
Proof.
  unfold complexityIndicators. cbn [find_complexity].
  repeat (destruct (existsb _ _); [list_member|]). list_member.
Qed.

(** X5: for a query with no supplied context the assignment strategy
    always hands the predictor a machine number of at least 1 (the number
    named in the query when it is not zero, without any upper check,
    otherwise one of the defaults) and a complexity among 1, 3, 4 and 5:
    level 2 is never requested. *)
Theorem assignment_parameters_range (query : string) :
  exists machineId complexity,
    assignment_parameters query = Some (machineId, complexity)
    /\ (1 <= machineId)%Z
    /\ complexity ∈ [1; 3; 4; 5]%Z
    /\ match extracted_machine query with
       | Some n => if (n =? 0)%Z then machineId ∈ [1; 2; 3]%Z else machineId = n
       | None => machineId ∈ [1; 2; 3]%Z
       end.
Proof.
  unfold assignment_parameters. rewrite reasonAboutAssignment_parameters.
  eexists _, _. split; [reflexivity|]. cbv zeta.
  fold (extracted_machine query).
  assert (intelligentMachineSelection
            (extractContextFromQuery query Provided.empty) ∈ [1; 2; 3]%Z)
    as Hsel.
  { unfold intelligentMachineSelection.
    destruct (qualityFocus_is_high _); [list_member|].
    destruct (urgency_is_high _); list_member. }
  assert (forall m : Z, m ∈ [1; 2; 3]%Z -> (1 <= m)%Z) as Hpos.
  { intros m Hm. repeat (apply elem_of_cons in Hm; destruct Hm as [->|Hm];
                         [lia|]). apply elem_of_nil in Hm. contradiction. }
  split; [|split].
  - rewrite (extracted_machine_eq query).
    destruct (machineMatch query) as [ds|] eqn:Em;
      cbn [fmap option_fmap option_map falsy default]; [|apply Hpos, Hsel].
    destruct (machineMatch_digits _ _ Em) as [Hd _].
    pose proof (parseInt_nonneg ds Hd) as Hn.
    destruct (parseInt ds =? 0)%Z eqn:Ez; [apply Hpos, Hsel|].
    apply Z.eqb_neq in Ez. unfold id. lia.
  - assert (Context.requirements
              (extractContextFromQuery query Provided.empty)
            ≫= Requirements.complexity
            = find_complexity (Str.toLowerCase query) complexityIndicators)
      as -> by reflexivity.
    pose proof (find_complexity_levels (Str.toLowerCase query)) as Hl.
    repeat (apply elem_of_cons in Hl; destruct Hl as [->|Hl];
            [vm_compute; list_member|]).
    apply elem_of_nil in Hl. contradiction.
  - destruct (extracted_machine query) as [n|]; cbn [falsy]; [|exact Hsel].
    destruct (n =? 0)%Z; [exact Hsel|reflexivity].
Qed.

(** ** Strategies *)

Lemma applyEnvironmentalFactors_keeps (reasoning : Reasoning.t)
    (context : Context.t) :
  Reasoning.approach (applyEnvironmentalFactors reasoning context)
  = Reasoning.approach reasoning
  /\ Reasoning.parameters (applyEnvironmentalFactors reasoning context)
     = Reasoning.parameters reasoning
  /\ Reasoning.suggestions (applyEnvironmentalFactors reasoning context)
     = Reasoning.suggestions reasoning.
Proof.
  unfold applyEnvironmentalFactors.
  destruct (fold_left apply_factor _ _) as [c e]. repeat split.
Qed.

Lemma reasonAboutAssignment_approach (context : Context.t) :
  Reasoning.approach (reasonAboutAssignment context)
  = "intelligent_worker_assignment".
Proof.
  unfold reasonAboutAssignment. cbv zeta.
  destruct (falsy (Context.requirements context ≫= Requirements.machineId));
    destruct (falsy (Some _)); destruct (urgency_is_high context);
    destruct (qualityFocus_is_high context); reflexivity.
Qed.

Ltac decide_strings :=
  repeat first [ rewrite bool_decide_eq_true_2 by reflexivity
               | rewrite bool_decide_eq_false_2 by discriminate ].

(** ** The application service *)

Lemma alternatives_step_thrown
    (predictWorkerML : Z -> Z -> Result Prediction.t) (base : Prediction.t)
    (machineId complexity : Z) (l : list Z) (e : Exn.t) :
  fold_left (Service.alternatives_step predictWorkerML base machineId
               complexity) l (Throw e)
  = Throw e.
Proof. induction l as [|i l IH]; [reflexivity|exact IH]. Qed.

(** The loop returns exactly when the prediction core answers for every
    complexity it is asked about. *)
Lemma alternatives_loop_returns
    (predictWorkerML : Z -> Z -> Result Prediction.t) (base : Prediction.t)
    (machineId complexity : Z) (l : list Z) :
  forall acc,
    (exists alternatives,
       fold_left (Service.alternatives_step predictWorkerML base machineId
                    complexity) l (Ok acc)
       = Ok alternatives)
    <-> (forall i, i ∈ l -> i ≠ complexity ->
         exists prediction, predictWorkerML machineId i = Ok prediction).
Proof.
  induction l as [|i l IH]; intros acc; cbn [fold_left].
  - split; [|eauto]. intros _ i Hi. apply elem_of_nil in Hi. contradiction.
  - unfold Service.alternatives_step at 2. cbn [mbind Result_bind].
    case_bool_decide as Hic.
    + destruct (predictWorkerML machineId i) as [p|e] eqn:Ep;
        cbn [mbind Result_bind].
      * match goal with
        | |- context [fold_left _ l (if ?b then Ok ?x else Ok ?y)] =>
            replace (if b then Ok x else Ok y) with (Ok (if b then x else y))
              by (destruct b; reflexivity)
        end.
        rewrite IH. split.
        -- intros H j Hj Hjc. apply elem_of_cons in Hj as [->|Hj]; eauto.
        -- intros H j Hj. apply H. apply list_elem_of_further, Hj.
      * rewrite alternatives_step_thrown. split.
        -- intros [a Ha]. discriminate.
        -- intros H. destruct (H i (list_elem_of_here _ _) Hic) as [p Hp].
           congruence.
    + rewrite IH. split.
      * intros H j Hj Hjc. apply elem_of_cons in Hj as [->|Hj];
          [contradiction|eauto].
      * intros H j Hj. apply H. apply list_elem_of_further, Hj.
Qed.

(** With a service all of whose calls return, the action is the one of the
    pipeline above. *)
Lemma alternatives_loop_returning (predict : Z -> Z -> Prediction.t)
    (base : Prediction.t) (machineId complexity : Z) (l : list Z) :
  forall acc,
    fold_left
      (Service.alternatives_step (fun m c => Ok (predict m c)) base machineId
         complexity) l (Ok acc)
    = Ok (fold_left (alternatives_step predict base machineId complexity) l
            acc).
Proof.
  induction l as [|i l IH]; intros acc; cbn [fold_left]; [reflexivity|].
  unfold Service.alternatives_step at 2, alternatives_step at 2.
  cbn [mbind Result_bind].
  case_bool_decide; [|apply IH].
  case_bool_decide; apply IH.
Qed.

Lemma executeIntelligentAction_with_returning_service
    (predict : Z -> Z -> Prediction.t) (show_number : Q -> string)
    (getStatus : Status.t) (clock : nat -> string)
    (reasoning : Reasoning.t) (w : World.t) :
  Service.executeIntelligentAction (returning_service predict getStatus)
    show_number clock reasoning w
  = executeIntelligentAction predict show_number getStatus clock reasoning w.
Proof.
  unfold Service.executeIntelligentAction, executeIntelligentAction.
  cbv zeta.
  repeat (case_bool_decide; [try reflexivity|]); [|reflexivity].
  f_equal.
  unfold Service.executeIntelligentAssignment, executeIntelligentAssignment,
    Service.enhancePredictionWithAI, enhancePredictionWithAI,
    Service.generateAlternatives, generateAlternatives,
    Service.getMLSystem, returning_service.
  cbn [AppService.getMLSystem].
  destruct (destructure_parameters reasoning) as [[m c]|e];
    cbn [mbind Result_bind]; [|reflexivity].
  rewrite alternatives_loop_returning. reflexivity.
Qed.

(** The action leaves the learning data as they were, and the type of a
    result it returns is fixed by the primary intent. *)
Lemma Service_executeIntelligentAction_frame
    (appService : option AppService.t) (show_number : Q -> string)
    (clock : nat -> string) (intent : IntentAnalysis) (context : Context.t)
    (w : World.t) :
  let out :=
    Service.executeIntelligentAction appService show_number clock
      (reasonAboutQuery intent context) w in
  World.learningData out.2 = World.learningData w
  /\ forall result,
       out.1 = Ok result ->
       ActionResult_type result
       = strategy_result_type (Intent.type (primary intent)).
Proof.
  cbv zeta. unfold reasonAboutQuery, Service.executeIntelligentAction.
  cbv zeta.
  destruct (Intent.type (primary intent));
    match goal with
    | |- context [applyEnvironmentalFactors ?r ?c] =>
        destruct (applyEnvironmentalFactors_keeps r c) as (Ha & Hp & Hs);
        rewrite Ha
    end;
    rewrite ?reasonAboutAssignment_approach;
    cbn [Reasoning.approach reasonAboutPerformance reasonAboutAnalytics
         reasonAboutLearning reasonAboutGeneral];
    decide_strings; cbn [fst snd];
    (split; [reflexivity|]); intros result;
    try (intros [= <-]; reflexivity).
  - unfold Service.executeIntelligentAssignment,
      Service.enhancePredictionWithAI.
    destruct (destructure_parameters _) as [[m c]|e];
      cbn [mbind Result_bind]; [|discriminate].
    destruct Service.getMLSystem as [predict|e];
      cbn [mbind Result_bind]; [|discriminate].
    destruct (predict m c) as [p|e]; cbn [mbind Result_bind]; [|discriminate].
    destruct (Service.generateAlternatives _ _ _) as [a|e];
      cbn [mbind Result_bind]; [|discriminate].
    intros [= <-]. reflexivity.
  - unfold Service.executePerformanceAnalysis.
    destruct Service.getStatus as [s|e]; cbn [mbind Result_bind];
      [|discriminate].
    intros [= <-]. reflexivity.
  - unfold Service.executeAnalytics.
    destruct Service.getStatus as [s|e]; cbn [mbind Result_bind];
      [|discriminate].
    intros [= <-]. reflexivity.
Qed.

(** X6: the action chosen for a request, with the application service as
    the server holds it.  The learning data are left as they were; the
    action returns exactly when the strategy of the primary intent gets what
    it asks of the service (general assistance and the learning strategy ask
    for nothing and always return); the [type] of a returned result is fixed
    by the primary intent; and while [appService] is [null], as the
    constructor leaves it, the assignment, performance and analytics
    strategies throw a [TypeError]. *)
Theorem executeIntelligentAction_outcome_by_intent
    (appService : option AppService.t) (show_number : Q -> string)
    (clock : nat -> string) (d : Draws) (query : string)
    (supplied : Provided.t) (w : World.t) :
  let intent := analyzeIntent d query in
  let reasoning :=
    reasonAboutQuery intent (extractContextFromQuery query supplied) in
  let out :=
    Service.executeIntelligentAction appService show_number clock reasoning
      w in
  World.learningData out.2 = World.learningData w
  /\ ((exists result, out.1 = Ok result)
      <-> served appService (Intent.type (primary intent))
            (Reasoning.parameters reasoning))
  /\ (forall result,
        out.1 = Ok result ->
        ActionResult_type result
        = strategy_result_type (Intent.type (primary intent)))
  /\ (appService = None ->
      reads_service (Intent.type (primary intent)) = true ->
      exists message, out.1 = Throw (Exn.mk "TypeError" message)).
Proof.
  cbv zeta.
  destruct (Service_executeIntelligentAction_frame appService show_number
              clock (analyzeIntent d query)
              (extractContextFromQuery query supplied) w) as [Hld Htype].
  cbv zeta in Hld, Htype.
  split; [exact Hld|]. split; [|split; [exact Htype|]]; clear Hld Htype.
  - unfold reasonAboutQuery, Service.executeIntelligentAction. cbv zeta.
    destruct (Intent.type (primary (analyzeIntent d query)));
      match goal with
      | |- context [applyEnvironmentalFactors ?r ?c] =>
          destruct (applyEnvironmentalFactors_keeps r c) as (Ha & Hp & Hs);
          rewrite Ha, ?Hp
      end;
      rewrite ?reasonAboutAssignment_approach;
      cbn [Reasoning.approach reasonAboutPerformance reasonAboutAnalytics
           reasonAboutLearning reasonAboutGeneral];
      decide_strings; cbn [fst snd served];
      try (split; [exact (fun _ => I)|intros _; eauto]).
    + unfold Service.executeIntelligentAssignment,
        Service.enhancePredictionWithAI, Service.generateAlternatives,
        destructure_parameters.
      rewrite Hp, reasonAboutAssignment_parameters.
      match goal with
      | |- context [Some (?a, ?b)] => set (m := a); set (c := b)
      end.
      cbn [mbind Result_bind]. unfold Service.getMLSystem.
      destruct appService as [service|].
      2:{ split; [intros [r Hr]; discriminate|].
          intros (s & p & m' & c' & Hs' & _). discriminate. }
      destruct (AppService.getMLSystem service) as [predict|e] eqn:Eml;
        cbn [mbind Result_bind].
      2:{ split; [intros [r Hr]; discriminate|].
          intros (s & p & m' & c' & [= <-] & Hp' & _). congruence. }
      pose proof (alternatives_loop_returns predict) as Hloop.
      split.
      * intros [r Hr]. exists service, predict, m, c.
        split; [reflexivity|]. split; [exact Eml|].
        split; [reflexivity|].
        destruct (predict m c) as [base|e] eqn:Eb;
          cbn [mbind Result_bind] in Hr; [|discriminate].
        destruct (fold_left _ _ _) as [alts|e] eqn:Ef in Hr;
          cbn [mbind Result_bind] in Hr; [|discriminate].
        assert (forall i, i ∈ [1; 2; 3; 4; 5]%Z -> i ≠ c ->
                exists prediction, predict m i = Ok prediction) as Hall.
        { apply (Hloop base m c _ []). eauto. }
        intros i Hi. apply elem_of_cons in Hi as [->|Hi]; [eauto|].
        destruct (decide (i = c)) as [->|Hne]; [eauto|]. apply Hall; assumption.
      * intros (s & p & m' & c' & [= <-] & Hp' & [= <- <-] & Hall).
        rewrite Eml in Hp'. injection Hp' as <-.
        destruct (Hall c (list_elem_of_here _ _)) as [base Hb].
        rewrite Hb. cbn [mbind Result_bind].
        destruct (proj2 (Hloop base m c [1; 2; 3; 4; 5]%Z [])) as [alts Ha'].
        { intros i Hi _. apply Hall. apply list_elem_of_further, Hi. }
        rewrite Ha'. cbn [mbind Result_bind]. eauto.
    + unfold Service.executePerformanceAnalysis, Service.getStatus.
      destruct appService as [service|].
      2:{ split; [intros [r Hr]; discriminate|].
          intros (s & st & Hs' & _). discriminate. }
      destruct (AppService.getStatus service) as [st|e] eqn:Est;
        cbn [mbind Result_bind].
      * split; [intros _; eauto|intros _; eauto].
      * split; [intros [r Hr]; discriminate|].
        intros (s & st & [= <-] & Hst). congruence.
    + unfold Service.executeAnalytics, Service.getStatus.
      destruct appService as [service|].
      2:{ split; [intros [r Hr]; discriminate|].
          intros (s & st & Hs' & _). discriminate. }
      destruct (AppService.getStatus service) as [st|e] eqn:Est;
        cbn [mbind Result_bind].
      * split; [intros _; eauto|intros _; eauto].
      * split; [intros [r Hr]; discriminate|].
        intros (s & st & [= <-] & Hst). congruence.
  - intros -> Hreads.
    unfold reasonAboutQuery, Service.executeIntelligentAction. cbv zeta.
    destruct (Intent.type (primary (analyzeIntent d query)));
      try discriminate Hreads;
      match goal with
      | |- context [applyEnvironmentalFactors ?r ?c] =>
          destruct (applyEnvironmentalFactors_keeps r c) as (Ha & Hp & Hs);
          rewrite Ha
      end;
      rewrite ?reasonAboutAssignment_approach;
      cbn [Reasoning.approach reasonAboutPerformance reasonAboutAnalytics];
      decide_strings; cbn [fst snd].
    + unfold Service.executeIntelligentAssignment, destructure_parameters.
      rewrite Hp, reasonAboutAssignment_parameters.
      cbn [mbind Result_bind Service.getMLSystem]. eauto.
    + cbn. eauto.
    + cbn. eauto.
Qed.

(** *** Recording a request *)

Lemma record_word_recordable (clock : nat -> string) (t : IntentType)
    (word : string) (w : World.t) :
  ((3 <? String.length word)%nat = true ->
   forall a b c, patterns_of w !! word ≠ Some (UserPreferences a b c)) ->
  (record_word clock t word w).1 = Ok ()
  /\ forall k a b c,
       patterns_of (record_word clock t word w).2 !! k
       = Some (UserPreferences a b c) ->
       patterns_of w !! k = Some (UserPreferences a b c).
Proof.
  intros Hw. unfold record_word.
  destruct (3 <? String.length word)%nat; [|split; [reflexivity|tauto]].
  specialize (Hw eq_refl). cbv zeta. unfold patterns_of in *.
  set (m := LearningData.patterns (World.learningData w)) in *.
  destruct (m !! word) as [[hits|a b c]|] eqn:E.
  - rewrite bool_decide_eq_true_2 by eauto. rewrite E. cbn.
    split; [reflexivity|]. intros k a b c.
    destruct (decide (word = k)) as [<-|Hne].
    + rewrite lookup_insert_eq. discriminate.
    + rewrite lookup_insert_ne by exact Hne. tauto.
  - exfalso. exact (Hw a b c eq_refl).
  - rewrite bool_decide_eq_false_2 by (intros [v Hv]; discriminate).
    rewrite lookup_insert_eq. cbn.
    split; [reflexivity|]. intros k a b c.
    destruct (decide (word = k)) as [<-|Hne].
    + rewrite lookup_insert_eq. discriminate.
    + rewrite !lookup_insert_ne by exact Hne. tauto.
Qed.

Lemma record_words_recordable (clock : nat -> string) (t : IntentType)
    (words : list string) :
  forall w,
    (forall word,
       word ∈ words -> (3 <? String.length word)%nat = true ->
       forall a b c, patterns_of w !! word ≠ Some (UserPreferences a b c)) ->
    (record_words clock t words w).1 = Ok ().
Proof.
  induction words as [|word words IH]; intros w Hw; cbn [record_words];
    [reflexivity|].
  destruct (record_word_recordable clock t word w) as [Hok Hkeep].
  { apply Hw. apply list_elem_of_here. }
  destruct (record_word clock t word w) as [[[]|e] w1]; cbn [fst snd] in *;
    [|discriminate].
  apply IH. intros k Hk Hlong a b c Hobj.
  apply (Hw k (list_elem_of_further _ _ _ Hk) Hlong a b c).
  apply Hkeep, Hobj.
Qed.

(** A call whose words name no entry that is not an array returns. *)
Lemma learnFromInteraction_recordable (clock : nat -> string)
    (query : string) (intent : IntentAnalysis) (result : ActionResult)
    (w : World.t) :
  recordable w query = true ->
  (learnFromInteraction clock query intent result w).1 = Ok ().
Proof.
  intros Hrec.
  destruct (learnFromInteraction_unfold clock (query, intent, result) w)
    as (w1 & Hs & Hp & Hf & Hrun).
  cbn [fst snd] in Hrun. rewrite (Hrun _ eq_refl).
  pose proof (record_words_recordable clock (Intent.type (primary intent))
                (Str.split_ws (Str.toLowerCase query)) w1) as Hok.
  destruct (record_words clock _ _ w1) as [[[]|e] w2]; cbn [fst] in *.
  - destruct (1000 <? length (stored w2))%nat; reflexivity.
  - exfalso. enough (Throw e = Ok ()) by discriminate. apply Hok.
    intros word Hin Hlong a b c. rewrite Hp. intros Hobj.
    unfold recordable in Hrec. rewrite forallb_forall in Hrec.
    specialize (Hrec word). rewrite Hobj in Hrec.
    enough (false = true) by discriminate. apply Hrec.
    unfold long_words. apply filter_In. split; [|exact Hlong].
    apply list_elem_of_In, Hin.
Qed.

(** X7: a request through the pipeline, with the application service as
    the server holds it, from a state in which no word of the query longer
    than three characters names an entry of the pattern map that is not an
    array.  When the action throws, the pipeline throws the same exception
    and nothing is recorded.  When the action returns, an envelope is
    returned with the analysed intent and that result, at most 1000
    interactions are stored and the newest one records this query, its
    primary intent and the type of the result. *)
Theorem processNaturalLanguageQuery_records_request
    (appService : option AppService.t) (show_number : Q -> string)
    (clock : nat -> string) (d : Draws) (query : string)
    (supplied : Provided.t) (w : World.t) :
  recordable w query = true ->
  let intent := analyzeIntent d query in
  let action :=
    Service.executeIntelligentAction appService show_number clock
      (reasonAboutQuery intent (extractContextFromQuery query supplied)) w in
  let out :=
    Service.processNaturalLanguageQuery appService show_number clock d query
      supplied w in
  match action.1 with
  | Throw e =>
      out.1 = Throw e /\ World.learningData out.2 = World.learningData w
  | Ok result =>
      exists envelope newest,
        out.1 = Ok envelope
        /\ Envelope.understood_intent envelope = intent
        /\ Envelope.result envelope = result
        /\ length (stored out.2) <= 1000
        /\ last (stored out.2) = Some newest
        /\ Interaction.query newest = query
        /\ Interaction.intent newest = Intent.type (primary intent)
        /\ Interaction.result_type newest = ActionResult_type result
        /\ ActionResult_type result
           = strategy_result_type (Intent.type (primary intent))
  end.
Proof.
  intros Hrec. cbv zeta. unfold Service.processNaturalLanguageQuery.
  cbv zeta.
  destruct (Service_executeIntelligentAction_frame appService show_number
              clock (analyzeIntent d query)
              (extractContextFromQuery query supplied) w) as [Hld Htype].
  cbv zeta in Hld, Htype.
  destruct (Service.executeIntelligentAction appService show_number clock
              _ w) as [[result|e] w1]; cbn [fst snd] in *.
  2:{ split; [reflexivity|exact Hld]. }
  assert (recordable w1 query = true) as Hrec1.
  { unfold recordable, patterns_of in *. rewrite Hld. exact Hrec. }
  set (r := (query, analyzeIntent d query, result) : Recorded).
  pose proof (learnFromInteraction_recordable clock query
                (analyzeIntent d query) result w1 Hrec1) as Hok.
  pose proof (record_bounded_returned clock r w1 Hok) as Hb.
  pose proof (record_effect clock r w1) as (_ & _ & Hlast & _).
  cbv zeta in Hlast. unfold record in *. cbn [fst snd r] in *.
  destruct (learnFromInteraction clock query (analyzeIntent d query) result w1)
    as [[[]|e] w2]; cbn [fst snd] in *; [|discriminate].
  unfold new_Date. cbn [fst snd]. eexists _, _.
  split; [reflexivity|]. cbn [Envelope.understood_intent Envelope.result].
  split; [reflexivity|]. split; [reflexivity|]. split; [exact Hb|].
  split; [exact Hlast|]. subst r. unfold interaction_of.
  cbn [Interaction.query Interaction.intent Interaction.result_type fst snd].
  split; [reflexivity|]. split; [reflexivity|]. split; [reflexivity|].
  apply Htype. reflexivity.
Qed.

Lemma processNaturalLanguageQuery_records_request_witness :
  exists envelope,
    (Service.processNaturalLanguageQuery sample_service sample_show
       sample_clock draws_zero scenario_query Provided.empty initialized).1
    = Ok envelope
    /\ ActionResult_type (Envelope.result envelope) = "worker_assignment".
Proof.
  pose proof (processNaturalLanguageQuery_records_request sample_service
                sample_show sample_clock draws_zero scenario_query
                Provided.empty initialized eq_refl) as H.
  cbv zeta in H.
  destruct (Service.executeIntelligentAction sample_service sample_show
              sample_clock _ initialized) as [[result|e] w1] eqn:E;
    cbn [fst] in H.
  - destruct H as (envelope & newest & Hout & _ & Hres & _ & _ & _ & _ & _
                   & Ht).
    exists envelope. split; [exact Hout|]. rewrite Hres, Ht. reflexivity.
  - vm_compute in E. discriminate.
Defined.

Lemma executeIntelligentAction_outcome_by_intent_witness :
  (Service.executeIntelligentAction None sample_show sample_clock
     (reasonAboutQuery (analyzeIntent draws_zero scenario_query)
        (extractContextFromQuery scenario_query Provided.empty))
     constructed).1
  = Throw (Exn.mk "TypeError"
             "Cannot read properties of null (reading 'mlService')").
Proof.
  destruct (executeIntelligentAction_outcome_by_intent None sample_show
              sample_clock draws_zero scenario_query Provided.empty
              constructed) as (_ & _ & _ & H).
  cbv zeta in H. destruct (H eq_refl eq_refl) as [message Hm].
  rewrite Hm. vm_compute in Hm. injection Hm as <-. reflexivity.
Defined.

(** ** Urgency, from the query to the risk *)

Lemma append_assoc (a b c : string) : (a ++ b) ++ c = a ++ (b ++ c).
Proof.
  induction a as [|x a IH]; rewrite ?append_nil, ?append_cons;
    [reflexivity|]. rewrite IH. reflexivity.
Qed.

Lemma startsWith_app (p a b : string) :
  Str.startsWith p a = true -> Str.startsWith p (a ++ b) = true.
Proof.
  revert a. induction p as [|x p IH]; intros a; [reflexivity|].
  destruct a as [|y a]; cbn [Str.startsWith]; [discriminate|].
  rewrite append_cons. cbn [Str.startsWith].
  case_bool_decide; [apply IH|discriminate].
Qed.

Lemma includes_app_l (a b p : string) :
  Str.includes a p = true -> Str.includes (a ++ b) p = true.
Proof.
  induction a as [|x a IH]; cbn [Str.includes].
  - destruct (Str.startsWith p EmptyString) eqn:E; [|discriminate].
    intros _. destruct p; [|discriminate E].
    destruct b; reflexivity.
  - rewrite append_cons. cbn [Str.includes].
    destruct (Str.startsWith p (String x a)) eqn:E.
    + intros _. rewrite <- append_cons, (startsWith_app _ _ _ E). reflexivity.
    + intros H. destruct (Str.startsWith p (String x (a ++ b)));
        [reflexivity|apply IH, H].
Qed.

Lemma includes_app_r (a b p : string) :
  Str.includes b p = true -> Str.includes (a ++ b) p = true.
Proof.
  intros H. induction a as [|x a IH]; rewrite ?append_nil, ?append_cons;
    [exact H|].
  cbn [Str.includes]. destruct (Str.startsWith p _); [reflexivity|exact IH].
Qed.

Lemma fold_apply_factor_explanation (env : Obj FactorData) :
  forall acc : Q * string,
  exists suffix, (fold_left apply_factor env acc).2 = acc.2 ++ suffix.
Proof.
  induction env as [|[k [s|f w]] env IH]; intros acc; cbn [fold_left].
  - exists EmptyString. clear. induction acc.2 as [|x a IH];
      rewrite ?append_nil, ?append_cons; congruence.
  - apply IH.
  - destruct (IH (apply_factor acc (k, Weighted f w))) as [suffix Hs].
    rewrite Hs. unfold apply_factor. cbn [snd].
    destruct (Qeq_bool w 0); cbn [snd]; [eauto|].
    rewrite append_assoc. eauto.
Qed.

Lemma applyEnvironmentalFactors_explanation (reasoning : Reasoning.t)
    (context : Context.t) :
  exists suffix,
    Reasoning.explanation (applyEnvironmentalFactors reasoning context)
    = Reasoning.explanation reasoning ++ suffix.
Proof.
  unfold applyEnvironmentalFactors.
  destruct (fold_apply_factor_explanation
              (default [] (Context.environmental_factors context))
              (Reasoning.confidence reasoning,
               Reasoning.explanation reasoning)) as [suffix Hs].
  destruct (fold_left apply_factor _ _) as [c e]. cbn in Hs |- *. eauto.
Qed.

Lemma reasonAboutAssignment_mentions_urgent (context : Context.t) :
  urgency_is_high context = true ->
  Str.includes (Reasoning.explanation (reasonAboutAssignment context))
    "urgent" = true.
Proof.
  intros H. unfold reasonAboutAssignment. cbv zeta. rewrite H.
  destruct (qualityFocus_is_high context);
    destruct (falsy (Context.requirements context ≫= Requirements.machineId));
    destruct (falsy (Some _)); cbn [Reasoning.explanation].
  1-4: apply includes_app_l.
  all: apply includes_app_r; reflexivity.
Qed.

Lemma assessRisk_time_constraint (p : Prediction.t) (r : Reasoning.t) :
  Str.includes (Reasoning.explanation r) "urgent" = true ->
  (20 < Prediction.estimatedTime p)%Q ->
  "Time constraint risk - consider alternative workers"
  ∈ Risk.factors (assessRisk p r)
  /\ Risk.level (assessRisk p r) ≠ low.
Proof.
  intros Hinc Ht. apply Qlt_bool_true in Ht.
  unfold assessRisk. cbv zeta. rewrite Hinc, Ht. cbn [andb].
  destruct (Qlt_bool (Prediction.confidence p) 0.7);
    destruct (Qlt_bool 30 (Prediction.estimatedTime p));
    cbn [Risk.factors Risk.level]; (split; [|vm_compute; discriminate]);
    unfold push; apply elem_of_app; right; apply list_elem_of_here.
Qed.

Lemma urgency_is_high_derived (query : string) :
  urgency_is_high (extractContextFromQuery query Provided.empty)
  = mentions_urgency query.
Proof.
  unfold urgency_is_high, extractContextFromQuery. cbv zeta.
  cbn [Context.environmental_factors Provided.environmental_factors
       Provided.empty spread mbind option_bind].
  rewrite apply_contextual_factors_get
    by (apply (bool_decide_unpack _); vm_compute; exact I).
  change (obj_get contextualFactors "urgency") with
    (@None (list ContextualFactor.t)).
  cbn [mbind option_bind]. fold (mentions_urgency query).
  destruct (mentions_urgency query); reflexivity.
Qed.

(** X9: urgency travels through the explanation text.  When the query
    contains 'urgent', 'rush' or 'asap' and its primary intent is
    assignment, the reasoning explanation contains 'urgent'; so a prediction
    of more than 20 minutes always carries the time-constraint risk (the
    level is not low), and for one of less than 20 minutes
    [calculateContextualScore] adds 10 before the cap: the score is the
    smaller of 100 and the product of the confidences times 100, plus 10,
    plus the quality bonus of 15 when that applies; it is never below the
    smaller of 100 and the product plus 10. *)
Theorem urgency_reaches_risk_and_score (d : Draws) (query : string)
    (p : Prediction.t) :
  mentions_urgency query = true ->
  Intent.type (primary (analyzeIntent d query)) = assignment ->
  let reasoning :=
    reasonAboutQuery (analyzeIntent d query)
      (extractContextFromQuery query Provided.empty) in
  Str.includes (Reasoning.explanation reasoning) "urgent" = true
  /\ ((20 < Prediction.estimatedTime p)%Q ->
      "Time constraint risk - consider alternative workers"
      ∈ Risk.factors (assessRisk p reasoning)
      /\ Risk.level (assessRisk p reasoning) ≠ low)
  /\ ((Prediction.estimatedTime p < 20)%Q ->
      let product :=
        (Prediction.confidence p * 100 * Reasoning.confidence reasoning)%Q in
      (calculateContextualScore p reasoning
       == Qmin 100
            (product + 10
             + (if Str.includes (Reasoning.explanation reasoning) "quality"
                   && Qlt_bool 85 (Prediction.avgQuality p)
                then 15 else 0)))%Q
      /\ (Qmin 100 (product + 10) <= calculateContextualScore p reasoning)%Q).
Proof.
  intros Hu Ha. cbv zeta.
  assert (Str.includes
            (Reasoning.explanation
               (reasonAboutQuery (analyzeIntent d query)
                  (extractContextFromQuery query Provided.empty)))
            "urgent" = true) as Hinc.
  { unfold reasonAboutQuery. rewrite Ha.
    destruct (applyEnvironmentalFactors_explanation
                (reasonAboutAssignment
                   (extractContextFromQuery query Provided.empty))
                (extractContextFromQuery query Provided.empty))
      as [suffix ->].
    apply includes_app_l, reasonAboutAssignment_mentions_urgent.
    rewrite urgency_is_high_derived. exact Hu. }
  split; [exact Hinc|]. split.
  - intros Ht. apply assessRisk_time_constraint; assumption.
  - intros Ht. cbv zeta. apply Qlt_bool_true in Ht.
    assert (calculateContextualScore p
              (reasonAboutQuery (analyzeIntent d query)
                 (extractContextFromQuery query Provided.empty))
            == Qmin 100
                 (Prediction.confidence p * 100
                  * Reasoning.confidence
                      (reasonAboutQuery (analyzeIntent d query)
                         (extractContextFromQuery query Provided.empty))
                  + 10
                  + (if Str.includes
                          (Reasoning.explanation
                             (reasonAboutQuery (analyzeIntent d query)
                                (extractContextFromQuery query
                                   Provided.empty)))
                          "quality"
                        && Qlt_bool 85 (Prediction.avgQuality p)
                     then 15 else 0)))%Q as E.
    { unfold calculateContextualScore. rewrite Hinc, Ht. cbn [andb].
      destruct (Str.includes _ "quality" && Qlt_bool 85 _);
        apply Q.min_compat; try reflexivity; ring. }
    split; [exact E|]. rewrite E.
    apply Q.min_le_compat_l.
    destruct (Str.includes _ "quality" && Qlt_bool 85 _).
    + rewrite <- (Qplus_0_r (_ + 10)) at 1.
      apply Qplus_le_compat; [apply Qle_refl|discriminate].
    + rewrite Qplus_0_r. apply Qle_refl.
Qed.

Lemma urgency_reaches_risk_and_score_witness :
  Str.includes (Reasoning.explanation scenario_reasoning) "urgent" = true
  /\ (calculateContextualScore modest_prediction scenario_reasoning == 60)%Q.
Proof.
  assert (mentions_urgency scenario_query = true) as Hu by reflexivity.
  assert (Intent.type (primary (analyzeIntent (fun _ => 0%Q) scenario_query))
          = assignment) as Ha by reflexivity.
  destruct (urgency_reaches_risk_and_score (fun _ => 0%Q) scenario_query
              modest_prediction Hu Ha) as (Hinc & _ & Hscore).
  split; [exact Hinc|].
  destruct Hscore as [E _]; [vm_compute; reflexivity|].
  etransitivity; [exact E|]. vm_compute. reflexivity.
Defined.

(** ** The interaction buffer over time *)

Lemma stored_after_step (n : nat) :
  stored_after (S n)
  = (if (1000 <? S (stored_after n))%nat then 800 else S (stored_after n)).
Proof.
  unfold stored_after.
  pose proof (Nat.mod_upper_bound (n - 1001) 201 ltac:(lia)) as Hb.
  pose proof (Nat.div_mod_eq (n - 1001) 201) as Hd.
  pose proof (Nat.div_mod_eq (S n - 1001) 201) as Hd'.
  pose proof (Nat.mod_upper_bound (S n - 1001) 201 ltac:(lia)) as Hb'.
  generalize dependent ((n - 1001) / 201).
  generalize dependent ((S n - 1001) / 201).
  generalize dependent ((n - 1001) mod 201).
  generalize dependent ((S n - 1001) mod 201).
  intros r' Hr' r Hr q' Hq' q Hq.
  repeat match goal with
         | |- context [(?a <=? ?b)%nat] => destruct (Nat.leb_spec a b)
         | |- context [(?a <? ?b)%nat] => destruct (Nat.ltb_spec a b)
         end; lia.
Qed.

Lemma stored_after_bound (n : nat) : stored_after n <= 1000.
Proof.
  unfold stored_after.
  pose proof (Nat.mod_upper_bound (n - 1001) 201 ltac:(lia)) as Hb.
  destruct (Nat.leb_spec n 1000); lia.
Qed.

(** X11: started with an empty buffer and a pattern map holding arrays
    only, the number of stored interactions after any sequence of calls
    depends on the number of calls alone: it climbs to 1000, falls to 800 at
    the 1001st call, and repeats the climb from 800 to 1000 every 201 calls;
    it never exceeds 1000. *)
Theorem interactions_follow_sawtooth (clock : nat -> string)
    (rs : list Recorded) (w : World.t) :
  arrays_only w -> stored w = [] ->
  length (stored (record_all clock w rs)) = stored_after (length rs)
  /\ length (stored (record_all clock w rs)) <= 1000.
Proof.
  intros Hw Hempty.
  assert (arrays_only (record_all clock w rs)
          /\ length (stored (record_all clock w rs))
             = stored_after (length rs)) as [_ H].
  { induction rs as [|r rs IH] using rev_ind.
    - cbn [record_all fold_left]. split; [exact Hw|].
      rewrite Hempty. reflexivity.
    - destruct IH as [Harr Hlen].
      unfold record_all in *. rewrite fold_left_app. cbn [fold_left].
      destruct (record_arrays clock r _ Harr) as [Hok Harr'].
      split; [exact Harr'|].
      rewrite (record_length_returned clock r _ Hok), Hlen.
      rewrite length_app, Nat.add_1_r. cbn [length].
      symmetry. apply stored_after_step. }
  split; [exact H|]. rewrite H. apply stored_after_bound.
Qed.

Lemma interactions_follow_sawtooth_witness :
  length (stored (record_all sample_clock constructed
                    (repeat plain_request 1202))) = 800.
Proof.
  pose proof (interactions_follow_sawtooth sample_clock
                (repeat plain_request 1202) constructed) as H.
  destruct H as [H _].
  - intros word v Hv. vm_compute in Hv. discriminate.
  - reflexivity.
  - rewrite H. vm_compute. reflexivity.
Defined.

(** ** What a call learns *)

Lemma hit_intents_insert_eq (m : gmap string PatternValue) (word : string)
    (hits : list PatternHit.t) :
  hit_intents (<[word := Hits hits]> m) word = map PatternHit.intent hits.
Proof. unfold hit_intents. rewrite lookup_insert_eq. reflexivity. Qed.

Lemma hit_intents_insert_ne (m : gmap string PatternValue)
    (word k : string) (v : PatternValue) :
  word ≠ k -> hit_intents (<[word := v]> m) k = hit_intents m k.
Proof.
  intros H. unfold hit_intents. rewrite lookup_insert_ne by exact H.
  reflexivity.
Qed.

(** One word, in a map holding arrays only. *)
Lemma record_word_learns (clock : nat -> string) (t : IntentType)
    (word : string) (w : World.t) (k : string) :
  arrays_only w ->
  let w' := (record_word clock t word w).2 in
  let now := if bool_decide (word = k) && (3 <? String.length word)%nat
             then 1 else 0 in
  hit_intents (patterns_of w') k
  = (hit_intents (patterns_of w) k ++ repeat t now)%list
  /\ (is_Some (patterns_of w' !! k)
      <-> is_Some (patterns_of w !! k) \/ now = 1).
Proof.
  intros Hw. cbv zeta. unfold record_word.
  destruct (3 <? String.length word)%nat.
  2:{ rewrite andb_false_r. cbn [repeat snd]. rewrite app_nil_r.
      split; [reflexivity|]. split; [auto|]. intros [H|H]; [exact H|lia]. }
  rewrite andb_true_r. cbv zeta. unfold patterns_of in *.
  set (m := LearningData.patterns (World.learningData w)) in *.
  destruct (m !! word) as [v|] eqn:Em.
  - destruct (Hw word v Em) as [hits ->].
    rewrite bool_decide_eq_true_2 by eauto. rewrite ?Em. cbn.
    case_bool_decide as Ek.
    + subst k. rewrite hit_intents_insert_eq. unfold hit_intents.
      rewrite Em, lookup_insert_eq. unfold push. rewrite map_app.
      split; [reflexivity|]. split; eauto.
    + rewrite hit_intents_insert_ne by exact Ek.
      rewrite lookup_insert_ne by exact Ek. cbn [repeat].
      rewrite app_nil_r. split; [reflexivity|].
      split; [auto|]. intros [H|H]; [exact H|lia].
  - rewrite bool_decide_eq_false_2
      by (intros [v Hv]; discriminate Hv).
    rewrite lookup_insert_eq. cbn.
    case_bool_decide as Ek.
    + subst k. rewrite hit_intents_insert_eq. unfold hit_intents.
      rewrite Em, lookup_insert_eq. split; [reflexivity|]. split; eauto.
    + rewrite hit_intents_insert_ne by exact Ek.
      rewrite hit_intents_insert_ne by exact Ek.
      rewrite !lookup_insert_ne by exact Ek. cbn [repeat].
      rewrite app_nil_r. split; [reflexivity|].
      split; [auto|]. intros [H|H]; [exact H|lia].
Qed.

Lemma record_words_learns (clock : nat -> string) (t : IntentType)
    (words : list string) (k : string) :
  forall w,
    arrays_only w ->
    let w' := (record_words clock t words w).2 in
    let n := occurrences k
               (List.filter (fun word => (3 <? String.length word)%nat) words)
    in
    hit_intents (patterns_of w') k
    = (hit_intents (patterns_of w) k ++ repeat t n)%list
    /\ (is_Some (patterns_of w' !! k)
        <-> is_Some (patterns_of w !! k) \/ 0 < n).
Proof.
  induction words as [|word words IH]; intros w Hw; cbv zeta;
    cbn [record_words List.filter occurrences].
  - cbn [repeat snd]. rewrite app_nil_r. split; [reflexivity|].
    split; [auto|]. intros [H|H]; [exact H|lia].
  - destruct (record_word_arrays clock t word w Hw) as [Hok Harr].
    destruct (record_word_learns clock t word w k Hw) as [Hh Hd].
    cbv zeta in Hh, Hd.
    destruct (record_word clock t word w) as [[[]|e] w1];
      cbn [fst snd] in *; [|discriminate].
    destruct (IH w1 Harr) as [Hh' Hd']. cbv zeta in Hh', Hd'.
    rewrite Hh', Hh, Hd', Hd, <- app_assoc, <- repeat_app.
    destruct (3 <? String.length word)%nat; cbn [occurrences];
      rewrite ?andb_true_r, ?andb_false_r;
      (split; [reflexivity|]); case_bool_decide; cbn [Nat.add]; try tauto;
      try (subst; rewrite bool_decide_eq_true_2 by reflexivity);
      try (rewrite bool_decide_eq_false_2 by congruence);
      split; intros; try tauto; try lia;
      repeat match goal with H : _ \/ _ |- _ => destruct H end;
      auto; try lia.
Qed.

(** X10: in a map holding arrays only, a call appends to the array of every
    word of the lower-cased query longer than three characters one hit per
    occurrence, tagged with the primary intent of the request; the keys of
    the map afterwards are the former keys and those words, and no other
    array changes. *)
Theorem learnFromInteraction_learns_long_words (clock : nat -> string)
    (r : Recorded) (w : World.t) (word : string) :
  arrays_only w ->
  let w' := record clock w r in
  let n := occurrences word (long_words r.1.1) in
  hit_intents (patterns_of w') word
  = (hit_intents (patterns_of w) word
     ++ repeat (Intent.type (primary r.1.2)) n)%list
  /\ (is_Some (patterns_of w' !! word)
      <-> is_Some (patterns_of w !! word) \/ 0 < n).
Proof.
  intros Hw. cbv zeta. unfold record, long_words.
  destruct (learnFromInteraction_unfold clock r w) as (w1 & _ & Hp & _ & Hrun).
  rewrite (Hrun _ eq_refl).
  assert (arrays_only w1) as Hw1.
  { unfold arrays_only. rewrite Hp. exact Hw. }
  destruct (record_words_arrays clock (Intent.type (primary r.1.2))
              (Str.split_ws (Str.toLowerCase r.1.1)) w1 Hw1) as [Hok _].
  destruct (record_words_learns clock (Intent.type (primary r.1.2))
              (Str.split_ws (Str.toLowerCase r.1.1)) word w1 Hw1)
    as [Hh Hd].
  cbv zeta in Hh, Hd. rewrite Hp in Hh, Hd.
  destruct (record_words clock _ _ w1) as [[[]|e] w2]; cbn [fst snd] in *;
    [|discriminate].
  destruct (1000 <? length (stored w2))%nat; cbn [snd];
    (split; [exact Hh|exact Hd]).
Qed.

Lemma learnFromInteraction_learns_long_words_witness :
  hit_intents
    (patterns_of
       (record sample_clock constructed
          ("Rush the rush job on it", fallback_intent, guidance_result)))
    "rush"
  = [general_inquiry; general_inquiry].
Proof.
  assert (arrays_only constructed) as H.
  { intros word v Hv. vm_compute in Hv. discriminate. }
  destruct (learnFromInteraction_learns_long_words sample_clock
              ("Rush the rush job on it", fallback_intent, guidance_result)
              constructed "rush" H) as [Hh _].
  rewrite Hh. vm_compute. reflexivity.
Defined.

(** ** Requests the query handler accepts *)

(** X12: the pipeline runs only for a body that parses to an object whose
    [query] is a non-empty string.  Then the response is 200 with the
    envelope when the pipeline returns and 400 with the message of the
    exception when it throws; for every other body (unparseable, not an
    object, no query, or a query that is null, false, 0, the empty string, a
    number, an array or an object) the response is 400 and the state is
    untouched. *)
Theorem handleNaturalLanguageQuery_outcomes
    (predict : Z -> Z -> Prediction.t) (show_number : Q -> string)
    (getStatus : Status.t) (clock : nat -> string)
    (JSON_parse : string -> Result Json) (decode_context : Json -> Provided.t)
    (d : Draws) (body : string) (w : World.t) :
  let response :=
    handleNaturalLanguageQuery predict show_number getStatus clock
      JSON_parse decode_context d body w in
  match accepted_request (JSON_parse body) with
  | Some (q, context) =>
      response
      = match processNaturalLanguageQuery predict show_number getStatus
                clock d q (decode_context context) w with
        | (Ok envelope, w') => (Ok (Response.mk 200 (Success envelope)), w')
        | (Throw e, w') => (Ok (error_response (Exn.message e)), w')
        end
  | None => exists message, response = (Ok (error_response message), w)
  end.
Proof.
  cbv zeta.
  unfold handleNaturalLanguageQuery, try_query, accepted_request,
    error_response.
  destruct (JSON_parse body) as [parsed|e]; [|eauto].
  destruct parsed as [|b|n|s|a|o]; cbn [destructure_request query_missing];
    eauto.
  destruct (obj_get o "query") as [[|[]|n|q|a|o']|];
    cbn [query_missing]; eauto.
  - destruct (Qeq_bool n 0); eauto.
  - case_bool_decide; [eauto|].
    destruct (processNaturalLanguageQuery _ _ _ _ _ _ _ _) as [[env|e] w'];
      reflexivity.
Qed.

(** ** Feedback *)

Lemma processFeedback_stores_one_entry_parts (now_ms : nat -> Z)
    (clock : nat -> string) (feedback : string) (w : World.t) :
  preferences_of (processFeedback now_ms clock feedback w)
  !! feedback_key now_ms w
  = Some (Feedback.mk feedback (clock (S (World.clock_reads w))))
  /\ user_preferences_of clock (processFeedback now_ms clock feedback w)
     = (if decide (is_Some (preferences_of w !! feedback_key now_ms w))
        then user_preferences_of clock w
        else S (user_preferences_of clock w)).
Proof.
  unfold processFeedback, preferences_of, user_preferences_of,
    getLearningStatus, new_Date.
  cbn [World.learningData LearningData.preferences
       LearningStatus.user_preferences fst].
  split; [apply lookup_insert_eq|].
  case_decide as Hs.
  - destruct Hs as [v Hv]. rewrite <- (insert_id _ _ _ Hv) at 2.
    rewrite <- !size_dom, !dom_insert_L. reflexivity.
  - apply map_size_insert_None.
    destruct (LearningData.preferences (World.learningData w)
              !! feedback_key now_ms w) eqn:E; [|reflexivity].
    exfalso. apply Hs. eauto.
Qed.

(** X13: [processFeedback] stores the feedback under the key made of the
    millisecond clock and changes nothing else: interactions, patterns and
    the other preferences are as before, and the number of preferences
    [getLearningStatus] reports grows by one when the key is new and stays
    the same when it is not. *)
Theorem processFeedback_stores_one_entry (now_ms : nat -> Z)
    (clock : nat -> string) (feedback : string) (w : World.t) :
  let w' := processFeedback now_ms clock feedback w in
  let key := feedback_key now_ms w in
  stored w' = stored w
  /\ patterns_of w' = patterns_of w
  /\ preferences_of w' !! key
     = Some (Feedback.mk feedback (clock (S (World.clock_reads w))))
  /\ (forall k, k ≠ key -> preferences_of w' !! k = preferences_of w !! k)
  /\ user_preferences_of clock w'
     = (if decide (is_Some (preferences_of w !! key))
        then user_preferences_of clock w
        else S (user_preferences_of clock w)).
Proof.
  cbv zeta.
  destruct (processFeedback_stores_one_entry_parts now_ms clock feedback w)
    as [Hk Hsize].
  split; [reflexivity|]. split; [reflexivity|]. split; [exact Hk|].
  split; [|exact Hsize].
  intros k Hne. unfold processFeedback, preferences_of.
  cbn [World.learningData LearningData.preferences].
  apply lookup_insert_ne. congruence.
Qed.

(** X14: the key has the resolution of the clock: of two feedbacks given
    within the same millisecond only the second is kept. *)
Theorem processFeedback_same_millisecond (now_ms : nat -> Z)
    (clock : nat -> string) (first second : string) (w : World.t) :
  now_ms (S (S (World.clock_reads w))) = now_ms (World.clock_reads w) ->
  let w1 := processFeedback now_ms clock first w in
  let w2 := processFeedback now_ms clock second w1 in
  let key := feedback_key now_ms w in
  Feedback.feedback <$> preferences_of w1 !! key = Some first
  /\ Feedback.feedback <$> preferences_of w2 !! key = Some second
  /\ user_preferences_of clock w2 = user_preferences_of clock w1.
Proof.
  intros Hsame. cbv zeta.
  destruct (processFeedback_stores_one_entry_parts now_ms clock first w)
    as (Hk1 & _).
  destruct (processFeedback_stores_one_entry_parts now_ms clock second
              (processFeedback now_ms clock first w)) as (Hk2 & Hsize).
  assert (feedback_key now_ms (processFeedback now_ms clock first w)
          = feedback_key now_ms w) as Hkey.
  { unfold feedback_key, processFeedback. cbn [World.clock_reads].
    rewrite Hsame. reflexivity. }
  rewrite Hkey in Hk2, Hsize. rewrite Hk1, Hk2.
  split; [reflexivity|]. split; [reflexivity|].
  rewrite Hsize, decide_True by eauto. reflexivity.
Qed.

Lemma processFeedback_same_millisecond_witness :
  Feedback.feedback
  <$> preferences_of
        (processFeedback frozen_ms sample_clock "too slow"
           (processFeedback frozen_ms sample_clock "well done" constructed))
      !! feedback_key frozen_ms constructed
  = Some "too slow".
Proof.
  apply (processFeedback_same_millisecond frozen_ms sample_clock "well done"
           "too slow" constructed).
  reflexivity.
Defined.

(** * The MCP service *)

Lemma slice_start_last {A} (n : nat) (a : list A) :
  0 < n -> slice_start (- Z.of_nat n) a = drop (length a - n) a.
Proof.
  intros Hn. unfold slice_start. cbv zeta.
  destruct (Z.ltb_spec (- Z.of_nat n) 0) as [_|H]; [|lia].
  f_equal. lia.
Qed.

Section MCPProperties.

Variable clock : nat -> string.
Variable now_ms : nat -> Z.
Variable random_suffix : nat -> string.

(** One call, seen through the entries of the log. *)
Lemma logInteraction_entries (type : string) (data : Json)
    (s : MCPService.t) :
  let s' := logInteraction clock now_ms random_suffix type data s in
  0 < MCPService.maxInteractionHistory s ->
  map entry_of (MCPService.interactions s')
  = drop (S (length (MCPService.interactions s))
          - MCPService.maxInteractionHistory s)
      (map entry_of (MCPService.interactions s) ++ [(type, data)])
  /\ MCPService.maxInteractionHistory s' = MCPService.maxInteractionHistory s
  /\ MCPService.isServerRunning s' = MCPService.isServerRunning s.
Proof.
  cbv zeta. intros Hmax. unfold logInteraction, generateInteractionId, tick.
  cbn [MCPService.interactions MCPService.maxInteractionHistory
       MCPService.isServerRunning MCPService.ticks].
  split; [|split; reflexivity].
  rewrite length_push.
  match goal with
  | |- context [push _ ?i] =>
      change (map entry_of (MCPService.interactions s) ++ [(type, data)])%list
        with (map entry_of (MCPService.interactions s)
              ++ map entry_of [i])%list;
      rewrite <- map_app; fold (push (MCPService.interactions s) i)
  end.
  destruct (Nat.ltb_spec (MCPService.maxInteractionHistory s)
              (S (length (MCPService.interactions s)))) as [H|H].
  - rewrite slice_start_last by exact Hmax. rewrite length_push.
    rewrite skipn_map. reflexivity.
  - replace (S (length (MCPService.interactions s))
             - MCPService.maxInteractionHistory s) with 0 by lia.
    reflexivity.
Qed.

(** X15: with a positive cap the log is a sliding window: starting within
    the cap, after any sequence of calls of [logInteraction] it holds, in
    order, the newest entries of what was there and what was logged, as
    many as the cap allows, and it is never longer than the cap. *)
Theorem logInteraction_sliding_window (entries : list (string * Json)) :
  forall s : MCPService.t,
    0 < MCPService.maxInteractionHistory s ->
    length (MCPService.interactions s) <= MCPService.maxInteractionHistory s ->
    let s' := log_all clock now_ms random_suffix s entries in
    map entry_of (MCPService.interactions s')
    = drop (length (MCPService.interactions s) + length entries
            - MCPService.maxInteractionHistory s)
        (map entry_of (MCPService.interactions s) ++ entries)
    /\ MCPService.maxInteractionHistory s'
       = MCPService.maxInteractionHistory s
    /\ length (MCPService.interactions s')
       <= MCPService.maxInteractionHistory s.
Proof.
  cbv zeta. induction entries as [|e entries IH] using rev_ind;
    intros s Hmax Hlen.
  - cbn [log_all fold_left length]. rewrite Nat.add_0_r, app_nil_r.
    replace (_ - _) with 0 by lia.
    split; [reflexivity|]. split; [reflexivity|exact Hlen].
  - destruct (IH s Hmax Hlen) as (Hentries & Hcap & Hbound).
    unfold log_all in *. rewrite fold_left_app. cbn [fold_left].
    set (s1 := fold_left _ entries s) in *.
    destruct e as [type data]. cbn [fst snd].
    destruct (logInteraction_entries type data s1) as (He & Hc & _);
      [lia|].
    split; [|split; [congruence|]].
    + rewrite He, Hentries, Hcap.
      assert (length (MCPService.interactions s1)
              = length (MCPService.interactions s) + length entries
                - (length (MCPService.interactions s) + length entries
                   - MCPService.maxInteractionHistory s)) as Hl1.
      { rewrite <- (length_map entry_of (MCPService.interactions s1)),
          Hentries, length_drop, length_app, length_map. reflexivity. }
      rewrite Hl1, length_app. cbn [length].
      rewrite <- drop_app_le
        by (rewrite length_app, length_map; lia).
      rewrite drop_drop, <- app_assoc. f_equal. lia.
    + rewrite <- (length_map entry_of), He, length_drop, length_app,
        length_map. cbn [length]. lia.
Qed.

(** [mlService.predictBestWorker], supplied by the ML service. *)
Variable predictBestWorker : Json -> Json -> Result BestWorker.t.

(** X17: a logged prediction returns what the prediction service returns
    and rethrows what it throws; either way, with a cap of at least two, the
    two newest entries of the log are the request and its outcome (the
    response, or the error with its message), and the running flag is
    untouched. *)
Theorem predictWorkerWithLogging_logs_request_and_outcome
    (machineId complexity : Json) (includeAnalysis : bool)
    (s : MCPService.t) :
  2 <= MCPService.maxInteractionHistory s ->
  let out :=
    predictWorkerWithLogging clock now_ms random_suffix predictBestWorker
      machineId complexity includeAnalysis s in
  out.1 = predictBestWorker machineId complexity
  /\ MCPService.isServerRunning out.2 = MCPService.isServerRunning s
  /\ exists older duration,
       map entry_of (MCPService.interactions out.2)
       = (older
          ++ [ ("prediction_request",
                JObj [ ("machineId", machineId); ("complexity", complexity);
                       ("includeAnalysis", JBool includeAnalysis) ]);
               outcome_entry out.1 duration ])%list.
Proof.
  intros Hmax. cbv zeta. unfold predictWorkerWithLogging, Date_now.
  set (request := JObj [ ("machineId", machineId);
                         ("complexity", complexity);
                         ("includeAnalysis", JBool includeAnalysis) ]).
  destruct (logInteraction_entries "prediction_request" request (tick s))
    as (He1 & Hc1 & Hr1); [unfold tick; cbn; lia|].
  set (s1 := logInteraction clock now_ms random_suffix "prediction_request"
               request (tick s)) in *.
  unfold tick in He1, Hc1, Hr1.
  cbn [MCPService.interactions MCPService.maxInteractionHistory
       MCPService.isServerRunning] in He1, Hc1, Hr1.
  assert (forall type data,
            let s2 := logInteraction clock now_ms random_suffix type data
                        (tick s1) in
            MCPService.isServerRunning s2 = MCPService.isServerRunning s
            /\ exists older,
                 map entry_of (MCPService.interactions s2)
                 = (older ++ [("prediction_request", request); (type, data)])
                   %list) as Hsecond.
  { intros type data. cbv zeta.
    destruct (logInteraction_entries type data (tick s1)) as (He2 & _ & Hr2);
      [unfold tick; cbn; lia|].
    split; [rewrite Hr2; exact Hr1|].
    rewrite He2. unfold tick at 1 2 3.
    cbn [MCPService.interactions MCPService.maxInteractionHistory].
    rewrite Hc1.
    set (max := MCPService.maxInteractionHistory s) in *.
    set (n := length (MCPService.interactions s)) in *.
    assert (length (MCPService.interactions s1) = n + 1 - (S n - max))
      as Hl1.
    { rewrite <- (length_map entry_of (MCPService.interactions s1)), He1.
      rewrite length_drop, length_app, length_map. reflexivity. }
    rewrite Hl1, He1.
    rewrite <- drop_app_le by (rewrite length_app, length_map; cbn; lia).
    rewrite drop_drop, <- app_assoc. cbn [app].
    rewrite drop_app_le by (rewrite length_map; fold n; lia).
    eexists. reflexivity. }
  destruct (predictBestWorker machineId complexity) as [prediction|error];
    cbn [fst snd outcome_entry].
  - split; [reflexivity|].
    match goal with
    | |- context [logInteraction _ _ _ ?t ?d (tick s1)] =>
        destruct (Hsecond t d) as [Hr [older Ho]]
    end.
    split; [exact Hr|]. eexists _, _. exact Ho.
  - split; [reflexivity|].
    match goal with
    | |- context [logInteraction _ _ _ ?t ?d (tick s1)] =>
        destruct (Hsecond t d) as [Hr [older Ho]]
    end.
    split; [exact Hr|]. eexists _, _. exact Ho.
Qed.

End MCPProperties.

Lemma logInteraction_sliding_window_witness :
  map entry_of
    (MCPService.interactions
       (log_all sample_clock sample_ms sample_suffix
          (MCPService.mk false [] 2 0)
          [("a", JNull); ("b", JNull); ("c", JNull)]))
  = [("b", JNull); ("c", JNull)].
Proof.
  destruct (logInteraction_sliding_window sample_clock sample_ms
              sample_suffix [("a", JNull); ("b", JNull); ("c", JNull)]
              (MCPService.mk false [] 2 0)) as [H _].
  - cbn. lia.
  - cbn. lia.
  - exact H.
Defined.

Lemma predictWorkerWithLogging_logs_request_and_outcome_witness :
  (predictWorkerWithLogging sample_clock sample_ms sample_suffix
     sample_best_worker (JNum 1) (JNum 3) false mcp_constructed).1
  = Ok (BestWorker.mk "W3" 18 0.9).
Proof.
  destruct (predictWorkerWithLogging_logs_request_and_outcome sample_clock
              sample_ms sample_suffix sample_best_worker (JNum 1) (JNum 3)
              false mcp_constructed) as [H _].
  - cbn. lia.
  - exact H.
Defined.

(** X16: [getInteractionHistory] with a positive limit (10 when none is
    given) returns that many of the newest entries, newest first; with the
    limit 0 it returns the whole log, not an empty list, and with a
    negative limit all but that many of the oldest entries. *)
Theorem getInteractionHistory_newest_first (limit : option Z)
    (s : MCPService.t) :
  let n := default 10%Z limit in
  let log := MCPService.interactions s in
  getInteractionHistory limit s
  = (if (0 <? n)%Z then take (Z.to_nat n) (rev log)
     else rev (drop (Z.to_nat (- n)) log))
  /\ (n = 0%Z -> getInteractionHistory limit s = rev log)
  /\ ((0 < n)%Z ->
      length (getInteractionHistory limit s)
      = Nat.min (Z.to_nat n) (length log)
      /\ head (getInteractionHistory limit s) = last log).
Proof.
  cbv zeta. unfold getInteractionHistory, slice_start. cbv zeta.
  set (n := default 10%Z limit). set (log := MCPService.interactions s).
  assert ((0 < n)%Z ->
          rev (drop (Z.to_nat (Z.max (Z.of_nat (length log) + - n) 0)) log)
          = take (Z.to_nat n) (rev log)) as Hpos.
  { intros Hn. rewrite firstn_rev. do 2 f_equal. lia. }
  split; [|split].
  - destruct (Z.ltb_spec 0 n) as [Hn|Hn].
    + destruct (Z.ltb_spec (- n) 0); [|lia]. apply Hpos, Hn.
    + destruct (Z.ltb_spec (- n) 0); [lia|]. f_equal.
      destruct (Z.min_spec (- n) (Z.of_nat (length log))) as [[? ->]|[? ->]];
        [reflexivity|].
      rewrite Nat2Z.id. rewrite !drop_ge by lia. reflexivity.
  - intros ->. cbn. rewrite Z.min_l by lia. reflexivity.
  - intros Hn. destruct (Z.ltb_spec (- n) 0); [|lia].
    rewrite (Hpos Hn). split.
    + rewrite length_take, length_rev. reflexivity.
    + destruct (Z.to_nat n) as [|k] eqn:E; [lia|].
      destruct log as [|x log'] using rev_ind; [reflexivity|].
      rewrite rev_app_distr, last_snoc. reflexivity.
Qed.

(** * The tool server *)

(** X18: [getResource] serves exactly the advertised resources, which are
    also the ones the MCP service lists: for an advertised uri it reads one
    of the three contents and, unless the read throws, returns it under the
    requested uri and the advertised mime type; for any other uri it throws
    'Unknown resource'. *)
Theorem getResource_serves_advertised (dashboard_content training_summary
    model_status : Result Json) (uri : string) (s : MCPService.t) :
  MCPStatus.resources (mcp_getStatus s)
  = map ResourceInfo.uri defineResources
  /\ match advertised_resource uri with
     | Some info =>
         exists read,
           read ∈ [dashboard_content; training_summary; model_status]
           /\ getResource dashboard_content training_summary model_status uri
              = (content ← read;
                 Ok (Resource.mk uri (ResourceInfo.mimeType info) content))
     | None =>
         getResource dashboard_content training_summary model_status uri
         = Throw (Exn.mk "Error" ("Unknown resource: " ++ uri))
     end.
Proof.
  split; [reflexivity|].
  unfold advertised_resource, getResource, defineResources.
  cbn [List.find ResourceInfo.uri].
  repeat match goal with
  | |- context [bool_decide (?a = uri)] =>
      rewrite (bool_decide_ext (a = uri) (uri = a)) by (split; congruence)
  end.
  repeat match goal with
  | |- context [bool_decide (uri = ?a)] =>
      destruct (decide (uri = a)) as [->|?E];
      [eexists; split; [|reflexivity]; list_member
      |rewrite bool_decide_eq_false_2 by assumption]
  end.
  reflexivity.
Qed.

(** X19: [callTool] serves exactly the advertised tools, which are also the
    ones the MCP service lists: an advertised name is answered by one of the
    five handlers, applied to the arguments, and any other name throws
    'Unknown tool'. *)
Theorem callTool_serves_advertised (ToolResult : Type)
    (h1 h2 h3 h4 h5 : Json -> Result ToolResult) (name : string)
    (args : Json) (s : MCPService.t) :
  MCPStatus.tools (mcp_getStatus s) = map Tool.name defineTools
  /\ (name ∈ map Tool.name defineTools ->
      callTool ToolResult h1 h2 h3 h4 h5 name args
      ∈ [h1 args; h2 args; h3 args; h4 args; h5 args])
  /\ (name ∉ map Tool.name defineTools ->
      callTool ToolResult h1 h2 h3 h4 h5 name args
      = Throw (Exn.mk "Error" ("Unknown tool: " ++ name))).
Proof.
  split; [reflexivity|]. unfold callTool, defineTools.
  cbn [map Tool.name]. split.
  - intros Hin.
    repeat (case_bool_decide; [list_member|]).
    exfalso.
    repeat (apply elem_of_cons in Hin; destruct Hin as [Hin|Hin];
            [congruence|]).
    apply elem_of_nil in Hin. exact Hin.
  - intros Hnot.
    repeat (case_bool_decide;
            [exfalso; apply Hnot; subst name; list_member|]).
    reflexivity.
Qed.

Lemma getInteractionHistory_newest_first_witness :
  map entry_of
    (getInteractionHistory (Some 0%Z)
       (log_all sample_clock sample_ms sample_suffix mcp_constructed
          [("a", JNull); ("b", JNull); ("c", JNull)]))
  = [("c", JNull); ("b", JNull); ("a", JNull)].
Proof.
  destruct (getInteractionHistory_newest_first (Some 0%Z)
              (log_all sample_clock sample_ms sample_suffix mcp_constructed
                 [("a", JNull); ("b", JNull); ("c", JNull)])) as (_ & H & _).
  rewrite H by reflexivity. vm_compute. reflexivity.
Defined.

Lemma callTool_serves_advertised_witness :
  callTool bool (fun _ => Ok true) (fun _ => Ok true) (fun _ => Ok true)
    (fun _ => Ok true) (fun _ => Ok true) "drop_training_data" JNull
  = Throw (Exn.mk "Error" "Unknown tool: drop_training_data").
Proof.
  destruct (callTool_serves_advertised bool (fun _ => Ok true)
              (fun _ => Ok true) (fun _ => Ok true) (fun _ => Ok true)
              (fun _ => Ok true) "drop_training_data" JNull mcp_constructed)
    as (_ & _ & H).
  apply H. apply (bool_decide_unpack _). vm_compute. exact I.
Defined.

(** * Numbers as doubles *)

(** The decimal literals of the source, read by [to_double], are the doubles
    the literal notation of the primitive doubles gives, and the product
    and the sum are those of the primitive doubles on a sample. *)
Lemma to_double_literals :
  forallb
    (fun literal =>
       Double.same (Double.to_double literal.1) (Prim2SF literal.2))
    [ (0.1%Q, 0.1%float); (0.7%Q, 0.7%float); (0.8%Q, 0.8%float);
      (0.85%Q, 0.85%float); (0.9%Q, 0.9%float); (0.95%Q, 0.95%float);
      (1.0%Q, 1.0%float); (1.2%Q, 1.2%float); (1.3%Q, 1.3%float);
      (1.5%Q, 1.5%float); (1.6%Q, 1.6%float); (100%Q, 100%float);
      (1e-200%Q, 1e-200%float); (1e999%Q, infinity);
      (5e-324%Q, 5e-324%float); (2e-324%Q, 0%float);
      (9007199254740993%Q, 9007199254740992%float) ]
  = true
  /\ Double.mul (Double.to_double 0.95) (Double.to_double 0.7)
     = Prim2SF (0.95 * 0.7)%float
  /\ Double.add (Double.to_double 0.85) (Double.to_double 0.1)
     = Prim2SF (0.85 + 0.1)%float
  /\ Double.mul (Double.to_double 1e-200) (Double.to_double 1e-200)
     = Prim2SF (1e-200 * 1e-200)%float.
Proof. repeat split; vm_compute; reflexivity. Qed.

(** ** The derived environmental factors *)

Lemma obj_get_app_absent {V} (a b : Obj V) (k : string) :
  obj_get a k = None -> obj_get (a ++ b)%list k = obj_get b k.
Proof.
  induction a as [|[k' v'] a IH]; cbn [obj_get app]; [reflexivity|].
  case_bool_decide; [discriminate|exact IH].
Qed.

Lemma obj_set_absent {V} (o : Obj V) (k : string) (v : V) :
  obj_get o k = None -> obj_set o k v = (o ++ [(k, v)])%list.
Proof.
  induction o as [|[k' v'] o IH]; cbn [obj_get obj_set app]; [reflexivity|].
  case_bool_decide; [discriminate|]. intros Hg. rewrite IH by exact Hg.
  reflexivity.
Qed.

Lemma obj_set_last {V} (o : Obj V) (k : string) (x v : V) :
  obj_get o k = None ->
  obj_set (o ++ [(k, x)])%list k v = (o ++ [(k, v)])%list.
Proof.
  induction o as [|[k' v'] o IH]; cbn [obj_get obj_set app].
  - rewrite bool_decide_eq_true_2 by reflexivity. reflexivity.
  - case_bool_decide; [discriminate|]. intros Hg. rewrite IH by exact Hg.
    reflexivity.
Qed.

Lemma apply_factor_patterns_last (query ft : string)
    (ps : list ContextualFactor.t) :
  forall (env : Obj FactorData) (x : FactorData),
    obj_get env ft = None ->
    apply_factor_patterns query ft ps (env ++ [(ft, x)])%list
    = (env ++ [(ft, match last_matching query ps with
                    | Some f => factor_entry f
                    | None => x
                    end)])%list.
Proof.
  induction ps as [|f ps IH]; intros env x Henv;
    cbn [apply_factor_patterns last_matching]; [reflexivity|].
  destruct (RegExp.test (ContextualFactor.pattern f) query).
  - rewrite obj_set_last by exact Henv. rewrite IH by exact Henv.
    destruct (last_matching query ps); reflexivity.
  - rewrite IH by exact Henv. destruct (last_matching query ps); reflexivity.
Qed.

Lemma apply_factor_patterns_shape (query : string)
    (row : string * list ContextualFactor.t) (env : Obj FactorData) :
  obj_get env row.1 = None ->
  apply_factor_patterns query row.1 row.2 env
  = (env ++ factor_choice row (last_matching query row.2))%list.
Proof.
  destruct row as [ft ps]. cbn [fst snd]. revert env.
  induction ps as [|f ps IH]; intros env Henv;
    cbn [apply_factor_patterns last_matching].
  - unfold factor_choice. rewrite app_nil_r. reflexivity.
  - destruct (RegExp.test (ContextualFactor.pattern f) query).
    + rewrite obj_set_absent by exact Henv.
      rewrite apply_factor_patterns_last by exact Henv.
      unfold factor_choice. cbn [fst].
      destruct (last_matching query ps); reflexivity.
    + rewrite IH by exact Henv. unfold factor_choice.
      destruct (last_matching query ps); reflexivity.
Qed.

Lemma apply_contextual_factors_shape (query : string)
    (tbl : list (string * list ContextualFactor.t)) :
  NoDup (map fst tbl) ->
  forall env : Obj FactorData,
    (forall row, row ∈ tbl -> obj_get env row.1 = None) ->
    apply_contextual_factors query tbl env
    = (env ++ chosen_factors tbl (choice_of query tbl))%list.
Proof.
  induction tbl as [|row tbl IH]; intros Hnd env Henv;
    cbn [apply_contextual_factors chosen_factors choice_of map].
  - rewrite app_nil_r. reflexivity.
  - destruct row as [ft ps] eqn:Erow. rewrite <- Erow in *.
    cbn [map] in Hnd. apply NoDup_cons in Hnd as [Hft Hnd].
    replace (apply_contextual_factors query tbl
               (apply_factor_patterns query ft ps env))
      with (apply_contextual_factors query tbl
              (apply_factor_patterns query row.1 row.2 env))
      by (rewrite Erow; reflexivity).
    rewrite apply_factor_patterns_shape
      by (apply Henv, list_elem_of_here).
    rewrite IH.
    + rewrite <- app_assoc. reflexivity.
    + exact Hnd.
    + intros row' Hin. rewrite obj_get_app_absent
        by (apply Henv, list_elem_of_further, Hin).
      unfold factor_choice. destruct (last_matching query row.2);
        [|reflexivity].
      cbn [obj_get]. rewrite bool_decide_eq_false_2; [reflexivity|].
      intros E. apply Hft. rewrite E. apply list_elem_of_fmap.
      exists row'. split; [reflexivity|exact Hin].
Qed.

Lemma derived_factors_shape (query : string) :
  derived_factors query
  = derivable_factors (mentions_urgency query)
      (choice_of query contextualFactors).
Proof.
  unfold derived_factors, extractContextFromQuery. cbv zeta.
  cbn [Context.environmental_factors Provided.environmental_factors
       Provided.empty spread default]. unfold id.
  fold (mentions_urgency query). unfold derivable_factors.
  apply apply_contextual_factors_shape.
  - apply (bool_decide_unpack _). vm_compute. exact I.
  - intros row Hin. destruct (mentions_urgency query); [|reflexivity].
    cbn [obj_set obj_get]. rewrite bool_decide_eq_false_2; [reflexivity|].
    intros E. revert Hin. unfold contextualFactors.
    rewrite !elem_of_cons, elem_of_nil.
    intros [->|[->|[->|[]]]]; discriminate E.
Qed.

Lemma last_matching_choice (query : string) (ps : list ContextualFactor.t) :
  In (last_matching query ps) (None :: map Some ps).
Proof.
  induction ps as [|f ps IH]; cbn [last_matching map]; [left; reflexivity|].
  destruct (last_matching query ps) as [g|].
  - destruct IH as [IH|IH]; [discriminate|]. right. right. exact IH.
  - destruct (RegExp.test (ContextualFactor.pattern f) query).
    + right. left. reflexivity.
    + left. reflexivity.
Qed.

Lemma choice_of_choices (query : string)
    (tbl : list (string * list ContextualFactor.t)) :
  In (choice_of query tbl) (choices tbl).
Proof.
  induction tbl as [|row tbl IH]; cbn [choice_of map choices];
    [left; reflexivity|].
  apply in_flat_map. exists (last_matching query row.2).
  split; [apply last_matching_choice|]. apply in_map, IH.
Qed.

(** ** The confidence shown to the user *)

Lemma every_derivable_confidence_shown
    (StringToNumber : string -> Double.double)
    (NumberToString : Double.double -> string) :
  every_derivable_confidence (shown_as_percent NumberToString)
    StringToNumber NumberToString
  = true.
Proof. vm_compute. reflexivity. Qed.

(** The confidence of the reasoning about a query with no supplied context
    depends on the query through the primary intent type, the quality focus
    and the derived factors. *)
Lemma reasonAboutQuery_of_derived
    (StringToNumber : string -> Double.double)
    (NumberToString : Double.double -> string) (intent : IntentAnalysis)
    (query : string) :
  let context := extractContextFromQuery query Provided.empty in
  Double.reasonAboutQuery StringToNumber NumberToString intent context
  = Double.reasonAboutQuery StringToNumber NumberToString
      (intent_with (Intent.type (primary intent)))
      (context_with (qualityFocus_is_high context)
         (derivable_factors (mentions_urgency query)
            (choice_of query contextualFactors))).
Proof.
  cbv zeta. rewrite <- derived_factors_shape.
  set (context := extractContextFromQuery query Provided.empty).
  assert (Context.environmental_factors context
          = Some (derived_factors query)) as Henv by reflexivity.
  unfold Double.reasonAboutQuery, Double.reasonAboutAssignment.
  cbn [intent_with primary Intent.type].
  replace (urgency_is_high
             (context_with (qualityFocus_is_high context)
                (derived_factors query)))
    with (urgency_is_high context)
    by (unfold urgency_is_high; rewrite Henv; reflexivity).
  replace (qualityFocus_is_high
             (context_with (qualityFocus_is_high context)
                (derived_factors query)))
    with (qualityFocus_is_high context)
    by (destruct (qualityFocus_is_high context); reflexivity).
  rewrite Henv. reflexivity.
Qed.

(** X8: for a query with no supplied context, computed on doubles as the
    engine computes it, the confidence of the reasoning lies between 0.1
    and 1, its hundredfold rounds to a whole percentage between 10 and 100,
    and the note [generateNaturalResponse] appends to every response shows
    that percentage. *)
Theorem confidence_note_whole_percent
    (StringToNumber : string -> Double.double)
    (NumberToString : Double.double -> string) (d : Draws)
    (query : string) :
  exists confidence percent,
    Double.reasonAboutQuery StringToNumber NumberToString
      (analyzeIntent d query) (extractContextFromQuery query Provided.empty)
    = Ok confidence
    /\ Double.leb (Double.to_double 0.1) confidence = true
    /\ Double.leb confidence (Double.to_double 1) = true
    /\ Double.Math_round (Double.mul confidence (Double.to_double 100))
       = Some percent
    /\ (10 <= percent <= 100)%Z
    /\ Double.confidence_note NumberToString confidence
       = " (Confidence: " ++ pretty percent ++ "%)".
Proof.
  pose proof (reasonAboutQuery_of_derived StringToNumber NumberToString
                (analyzeIntent d query) query) as E.
  cbv zeta in E. rewrite E. clear E.
  pose proof (every_derivable_confidence_shown StringToNumber
                NumberToString) as Hall.
  unfold every_derivable_confidence in Hall.
  rewrite forallb_forall in Hall.
  specialize (Hall (Intent.type (primary (analyzeIntent d query)))).
  rewrite forallb_forall in Hall.
  assert (forall b : bool, In b [true; false]) as Hbool
    by (intros []; cbn; tauto).
  specialize (Hall
    ltac:(destruct (Intent.type (primary (analyzeIntent d query)));
          cbn; tauto)
    (qualityFocus_is_high (extractContextFromQuery query Provided.empty))
    (Hbool _)).
  rewrite forallb_forall in Hall.
  specialize (Hall (mentions_urgency query) (Hbool _)).
  rewrite forallb_forall in Hall.
  specialize (Hall (choice_of query contextualFactors)
                (choice_of_choices query contextualFactors)).
  unfold shown_as_percent in Hall.
  destruct (Double.reasonAboutQuery _ _ _ _) as [c|e]; [|discriminate].
  destruct (Double.Math_round _) as [percent|] eqn:Er;
    [|discriminate].
  rewrite !andb_true_iff in Hall.
  destruct Hall as [[[[Hlo Hhi] H10] H100] Htext].
  apply Z.leb_le in H10, H100. apply String.eqb_eq in Htext.
  exists c, percent. repeat split; first [assumption | reflexivity].
Qed.

(** The percentage of a request as the engine shows it and as exact
    arithmetic would give it: 0.95 * 0.7 is 0.665 exactly and rounds to 67,
    and is 0.6649999999999999 as a double, which the note shows as 66. *)
Lemma confidence_percent_of_busy_status
    (StringToNumber : string -> Double.double)
    (NumberToString : Double.double -> string) :
  let intent := analyzeIntent draws_zero busy_status_query in
  let context := extractContextFromQuery busy_status_query Provided.empty in
  match Double.reasonAboutQuery StringToNumber NumberToString intent
          context with
  | Ok confidence =>
      Double.confidence_note NumberToString confidence
      = " (Confidence: 66%)"
  | Throw _ => False
  end
  /\ Math_round (Reasoning.confidence (reasonAboutQuery intent context) * 100)
     = 67%Z.
Proof. split; vm_compute; reflexivity. Qed.

(** ** The clamp on doubles *)

Lemma SFcompare_antisym (x y : spec_float) :
  SFcompare y x = option_map CompOpp (SFcompare x y).
Proof.
  destruct x as [s1|s1| |s1 m1 e1], y as [s2|s2| |s2 m2 e2];
    cbn [SFcompare option_map]; try reflexivity;
    try (destruct s1; reflexivity); try (destruct s2; reflexivity);
    try (destruct s1, s2; reflexivity).
  destruct s1, s2; try reflexivity; f_equal;
    rewrite (Z.compare_antisym e1 e2);
    destruct (e1 ?= e2)%Z; cbn [CompOpp]; try reflexivity;
    rewrite (Pos.compare_cont_antisym m1 m2 Eq); reflexivity.
Qed.

Lemma ltb_leb (a b : Double.double) :
  Double.ltb a b = true -> Double.leb a b = true.
Proof.
  unfold Double.ltb, Double.leb, SFltb, SFleb.
  destruct (SFcompare _ _) as [[]|]; congruence.
Qed.

Lemma not_ltb_leb (a b : Double.double) :
  Double.is_nan a = false -> Double.is_nan b = false ->
  Double.ltb b a = false -> Double.leb a b = true.
Proof.
  unfold Double.ltb, Double.leb, SFltb, SFleb. intros Ha Hb.
  rewrite (SFcompare_antisym a b).
  destruct a as [s1|s1| |s1 m1 e1]; [| |discriminate Ha|];
    (destruct b as [s2|s2| |s2 m2 e2]; [| |discriminate Hb|]);
    destruct (SFcompare _ _) as [[]|] eqn:E; cbn [option_map CompOpp];
    try congruence; try discriminate E.
Qed.

(** The clamp bounds every confidence that is a number, and no other. *)
Lemma clamp_confidence_number_or_nan (c : Double.double) :
  if Double.is_nan c then Double.clamp_confidence c = S754_nan
  else Double.leb (Double.to_double 0.1) (Double.clamp_confidence c) = true
       /\ Double.leb (Double.clamp_confidence c) (Double.to_double 1) = true.
Proof.
  unfold Double.clamp_confidence, Double.Math_max.
  set (tenth := Double.to_double 0.1). set (one := Double.to_double 1.0).
  change (Double.to_double 1) with one.
  change (Double.is_nan tenth) with false. cbn [orb].
  destruct (Double.is_nan c) eqn:Hc; [reflexivity|].
  destruct (Double.ltb tenth c) eqn:Hlo.
  - unfold Double.Math_min. change (Double.is_nan one) with false.
    rewrite Hc. cbn [orb].
    destruct (Double.ltb one c) eqn:Hhi; [split; reflexivity|].
    change (Double.negative one) with false. cbv iota.
    destruct (Double.ltb c one);
      (split; [apply ltb_leb, Hlo|]);
      apply not_ltb_leb; first [exact Hc | reflexivity | exact Hhi].
  - change (Double.negative tenth) with false. cbv iota.
    destruct (Double.ltb c tenth); split; reflexivity.
Qed.

(** ** A supplied context that exhausts the doubles *)

(** C5, on the code: the bound is lost when the product of the weights is
    not a number.  For the query hello (general assistance, confidence 0.7)
    with three supplied factors of weights 1e-200, 1e-200 and 1e999, the
    product underflows to zero, the last weight is read as [Infinity], zero
    times [Infinity] is NaN and the clamp returns NaN: the confidence of the
    reasoning, which the envelope carries, is neither at least 0.1 nor at
    most 1, nor at least 0, and the response shows it as NaN%.  In exact
    arithmetic the same request has the confidence 1. *)
Theorem applyEnvironmentalFactors_confidence_not_a_number
    (StringToNumber : string -> Double.double)
    (NumberToString : Double.double -> string) (d : Draws) :
  let intent := analyzeIntent d "hello" in
  let context := extractContextFromQuery "hello" overflowing_context in
  exists confidence,
    Double.reasonAboutQuery StringToNumber NumberToString intent context
    = Ok confidence
    /\ Double.is_nan confidence = true
    /\ Double.leb (Double.to_double 0.1) confidence = false
    /\ Double.leb confidence (Double.to_double 1) = false
    /\ Double.leb (Double.to_double 0) confidence = false
    /\ Double.confidence_note NumberToString confidence
       = " (Confidence: NaN%)"
    /\ (Reasoning.confidence (reasonAboutQuery intent context) == 1)%Q.
Proof.
  cbv zeta.
  assert (Intent.type (primary (analyzeIntent d "hello")) = general_inquiry)
    as Ht by (rewrite primary_type_fallback by reflexivity; reflexivity).
  exists S754_nan. split.
  - unfold Double.reasonAboutQuery. rewrite Ht. vm_compute. reflexivity.
  - repeat split; reflexivity.
Qed.
